(** * The chat client's response consumer: model and verification

    The development embeds the [send] and [clearChat] handlers of the two
    versions of the [App] component (the streaming one and the earlier
    single-shot one, [App.tsx]) together with the platform operations they
    call: JavaScript string primitives, the streaming UTF-8 [TextDecoder],
    [JSON.parse], and the property reads and conversions applied to its
    result.

    Conventions of the model:
    - JavaScript strings are sequences of UTF-16 code units; the bytes of
      a network chunk are [Byte.byte].
    - IEEE-754 arithmetic and the texts of engine errors are not
      modelled: they form an interface ([Engine]) and every statement
      holds for each of its implementations.
    - A handler reads the state variables of the render it was created
      in and queues its updates in order; a call of [send] is followed to
      its end, the promises it awaits being settled by an environment
      ([Env]).  Other handlers running while [send] awaits are out of
      scope, and so is what [console.error] prints.
    - The ids and times [addMessage] draws from the clock and the random
      generator are inputs. *)

From Stdlib Require Import List NArith ZArith Bool Lia String Ascii.
From Stdlib.Strings Require Import Byte.
Import ListNotations.

Set Implicit Arguments.
Set Warnings "-register-all".

(* ================================================================== *)
(** * JavaScript strings *)
(* ================================================================== *)

Module JS.

Definition char16 := N.
Definition jsstring := list char16.

Definition LF : char16 := 10%N.
Definition DQUOTE : char16 := 34%N.

(** Source-text literals.  Inside [jslit] the two characters backslash-n
    stand for a line feed and an apostrophe stands for a double quote, so
    that [jslit "data: {'token':'Hel'}\n\n"] is the JavaScript string
    written ["data: {\"token\":\"Hel\"}\n\n"] in the source. *)
Fixpoint jslit_chars (cs : list ascii) : jsstring :=
  match cs with
  | [] => []
  | c :: r =>
      if Ascii.eqb c "'" then DQUOTE :: jslit_chars r
      else match r with
           | d :: r' =>
               if Ascii.eqb c "\" && Ascii.eqb d "n" then LF :: jslit_chars r'
               else N_of_ascii c :: jslit_chars r
           | [] => [N_of_ascii c]
           end
  end.

Definition jslit (s : string) : jsstring := jslit_chars (list_ascii_of_string s).

Fixpoint str_eqb (a b : jsstring) : bool :=
  match a, b with
  | [], [] => true
  | x :: a', y :: b' => N.eqb x y && str_eqb a' b'
  | _, _ => false
  end.

(** [s.startsWith(p)] *)
Fixpoint startsWith (p s : jsstring) : bool :=
  match p, s with
  | [], _ => true
  | x :: p', y :: s' => N.eqb x y && startsWith p' s'
  | _ :: _, [] => false
  end.

(** [s.includes(needle)] *)
Fixpoint includes (needle s : jsstring) : bool :=
  startsWith needle s ||
  match s with
  | [] => false
  | _ :: s' => includes needle s'
  end.

(** [s.slice(n)] for a non-negative [n] *)
Definition slice (n : nat) (s : jsstring) : jsstring := skipn n s.

(** WhiteSpace and LineTerminator code units, the ones [trim] removes. *)
Definition is_trim_space (c : char16) : bool :=
  (N.eqb c 9 || N.eqb c 10 || N.eqb c 11 || N.eqb c 12 || N.eqb c 13 ||
   N.eqb c 32 || N.eqb c 160 || N.eqb c 5760 ||
   (N.leb 8192 c && N.leb c 8202) ||
   N.eqb c 8232 || N.eqb c 8233 || N.eqb c 8239 || N.eqb c 8287 ||
   N.eqb c 12288 || N.eqb c 65279)%bool.

Fixpoint trimStart (s : jsstring) : jsstring :=
  match s with
  | [] => []
  | c :: s' => if is_trim_space c then trimStart s' else s
  end.

Definition trimEnd (s : jsstring) : jsstring := rev (trimStart (rev s)).

(** [s.trim()] *)
Definition trim (s : jsstring) : jsstring := trimEnd (trimStart s).

(** Truthiness of a string: [!s] is true exactly for the empty string. *)
Definition nonempty (s : jsstring) : bool :=
  match s with [] => false | _ :: _ => true end.

Definition push_front (c : char16) (pieces : list jsstring) : list jsstring :=
  match pieces with
  | [] => [[c]]
  | p :: ps => (c :: p) :: ps
  end.

(** [s.split("\n\n")]: the pieces between the successive leftmost
    occurrences of the separator, scanning left to right without overlap.
    The result always has at least one piece. *)
Fixpoint split (s : jsstring) : list jsstring :=
  match s with
  | [] => [[]]
  | c :: s' =>
      match s' with
      | d :: r =>
          if N.eqb c LF && N.eqb d LF then [] :: split r
          else push_front c (split s')
      | [] => push_front c (split s')
      end
  end.

(** [lines.pop()]: the removed last element ([None] is [undefined]) and
    the array that remains. *)
Fixpoint pop (A : Type) (l : list A) : option A * list A :=
  match l with
  | [] => (None, [])
  | [x] => (Some x, [])
  | x :: l' => let (o, rest) := pop l' in (o, x :: rest)
  end.

(** [x || ""] for a string or [undefined] [x]. *)
Definition or_empty (x : option jsstring) : jsstring :=
  match x with
  | Some s => if nonempty s then s else []
  | None => []
  end.

(** Decimal digits of a natural number, as [String(n)] prints an integer. *)
Fixpoint uint_chars (u : Decimal.uint) : jsstring :=
  match u with
  | Decimal.Nil => []
  | Decimal.D0 r => 48%N :: uint_chars r
  | Decimal.D1 r => 49%N :: uint_chars r
  | Decimal.D2 r => 50%N :: uint_chars r
  | Decimal.D3 r => 51%N :: uint_chars r
  | Decimal.D4 r => 52%N :: uint_chars r
  | Decimal.D5 r => 53%N :: uint_chars r
  | Decimal.D6 r => 54%N :: uint_chars r
  | Decimal.D7 r => 55%N :: uint_chars r
  | Decimal.D8 r => 56%N :: uint_chars r
  | Decimal.D9 r => 57%N :: uint_chars r
  end.

Definition decimal (n : N) : jsstring := uint_chars (N.to_uint n).

End JS.

Import JS.

(* ================================================================== *)
(** * The streaming UTF-8 decoder ([TextDecoder]) *)
(* ================================================================== *)

Module Utf8.

(** State of the UTF-8 decoder of the Encoding Standard. *)
Record decoder := {
  code_point : N;
  bytes_seen : N;
  bytes_needed : N;
  lower_boundary : N;
  upper_boundary : N
}.

Definition initial : decoder :=
  {| code_point := 0; bytes_seen := 0; bytes_needed := 0;
     lower_boundary := 128; upper_boundary := 191 |}.

Definition REPLACEMENT : N := 65533%N.
Definition BOM : N := 65279%N.

Definition between (lo hi b : N) : bool := (N.leb lo b && N.leb b hi)%bool.

(** The handler on a byte when no sequence is in progress: the next state
    and the scalar values emitted (an error emits U+FFFD). *)
Definition lead (b : N) : decoder * list N :=
  if N.leb b 127 then (initial, [b])
  else if between 194 223 b then
    ({| code_point := N.land b 31; bytes_seen := 0; bytes_needed := 1;
        lower_boundary := 128; upper_boundary := 191 |}, [])
  else if between 224 239 b then
    ({| code_point := N.land b 15; bytes_seen := 0; bytes_needed := 2;
        lower_boundary := if N.eqb b 224 then 160 else 128;
        upper_boundary := if N.eqb b 237 then 159 else 191 |}, [])
  else if between 240 244 b then
    ({| code_point := N.land b 7; bytes_seen := 0; bytes_needed := 3;
        lower_boundary := if N.eqb b 240 then 144 else 128;
        upper_boundary := if N.eqb b 244 then 143 else 191 |}, [])
  else (initial, [REPLACEMENT]).

(** The handler on one byte.  A byte outside the expected range ends the
    sequence in progress with an error and is then handled afresh. *)
Definition handler (d : decoder) (b : N) : decoder * list N :=
  if N.eqb (bytes_needed d) 0 then lead b
  else if negb (between (lower_boundary d) (upper_boundary d) b) then
    let (d', out) := lead b in (d', REPLACEMENT :: out)
  else
    let cp := N.lor (N.shiftl (code_point d) 6) (N.land b 63) in
    let seen := (bytes_seen d + 1)%N in
    if N.eqb seen (bytes_needed d) then (initial, [cp])
    else ({| code_point := cp; bytes_seen := seen;
             bytes_needed := bytes_needed d;
             lower_boundary := 128; upper_boundary := 191 |}, []).

(** UTF-16 code units of a scalar value. *)
Definition utf16 (cp : N) : jsstring :=
  if N.ltb cp 65536 then [cp]
  else let c := (cp - 65536)%N in
       [(55296 + N.shiftr c 10)%N; (56320 + N.land c 1023)%N].

(** A [TextDecoder] object: the decoder and its "BOM seen" flag. *)
Record TextDecoder := {
  state : decoder;
  bom_seen : bool
}.

(** [new TextDecoder()] *)
Definition new_TextDecoder : TextDecoder :=
  {| state := initial; bom_seen := false |}.

(** Serialising the emitted scalar values: the first one is dropped when
    it is the byte order mark. *)
Fixpoint serialize (seen : bool) (cps : list N) : bool * jsstring :=
  match cps with
  | [] => (seen, [])
  | cp :: r =>
      let (seen', out) := serialize true r in
      if negb seen && N.eqb cp BOM then (seen', out)
      else (seen', utf16 cp ++ out)
  end.

Definition decode_byte (t : TextDecoder) (b : byte) : TextDecoder * jsstring :=
  let (d', cps) := handler (state t) (Byte.to_N b) in
  let (seen', out) := serialize (bom_seen t) cps in
  ({| state := d'; bom_seen := seen' |}, out).

(** [decoder.decode(value, { stream: true })]: bytes of an incomplete
    sequence at the end of the chunk stay pending in the decoder. *)
Fixpoint decode (t : TextDecoder) (chunk : list byte) : TextDecoder * jsstring :=
  match chunk with
  | [] => (t, [])
  | b :: r =>
      let (t1, o1) := decode_byte t b in
      let (t2, o2) := decode t1 r in
      (t2, o1 ++ o2)
  end.

(** End of input: a sequence still in progress becomes one U+FFFD. *)
Definition flush (t : TextDecoder) : jsstring :=
  if N.eqb (bytes_needed (state t)) 0 then []
  else snd (serialize (bom_seen t) [REPLACEMENT]).

(** The "UTF-8 decode" of a whole body, as [res.text()] and [res.json()]
    apply it. *)
Definition decode_all (bytes : list byte) : jsstring :=
  let (t, out) := decode new_TextDecoder bytes in out ++ flush t.

(** UTF-8 bytes of a string of ASCII code units (used to write bodies). *)
Definition ascii_bytes (s : jsstring) : list byte :=
  map (fun c => match Byte.of_N c with Some b => b | None => x3f end) s.

End Utf8.


(* ================================================================== *)
(** * The JavaScript engine: numbers and error messages *)
(* ================================================================== *)

(** What the handlers need of the engine and is left open by the model:
    the Number type (IEEE-754 doubles in a real engine) with the
    operations reached from [send], and the texts of the errors the engine
    itself raises. *)
Class Engine := {
  number : Type;
  (** value of a JSON numeric literal *)
  num_of_literal : jsstring -> number;
  (** ToBoolean: false for zeros and NaN *)
  num_to_boolean : number -> bool;
  (** ToString *)
  num_to_string : number -> jsstring;
  (** the numeric [+] *)
  num_add : number -> number -> number;
  (** ToNumber of a boolean ([null] converts like [false]) *)
  num_of_bool : bool -> number;
  (** message of the SyntaxError of [JSON.parse] on the given text *)
  syntax_error_message : jsstring -> jsstring;
  (** message of the TypeError raised by reading the given property of
      [null] *)
  null_read_message : jsstring -> jsstring
}.

(** A thrown value, as the [catch] clause of [send] inspects it:
    [e instanceof Error ? e.message : String(e)]. *)
Inductive Thrown :=
| ErrorObject (message : jsstring)
| OtherThrown (as_string : jsstring).

Definition thrown_message (e : Thrown) : jsstring :=
  match e with
  | ErrorObject m => m
  | OtherThrown s => s
  end.

(* ================================================================== *)
(** * JSON values and [JSON.parse] *)
(* ================================================================== *)

Module JSON.
Section WithEngine.
Context {E : Engine}.

Inductive value :=
| JNull
| JBool (b : bool)
| JNum (n : number)
| JStr (s : jsstring)
| JArr (elems : list value)
| JObj (fields : list (jsstring * value)).

(** ** Lexical analysis, one code unit at a time *)

Inductive token :=
| TLBrace | TRBrace | TLBracket | TRBracket | TColon | TComma
| TStr (s : jsstring) | TNum (literal : jsstring)
| TTrue | TFalse | TNull.

Inductive numstate :=
| NMinus | NZero | NInt | NFrac0 | NFrac | NExp0 | NExpSign | NExp.

Inductive lexmode :=
| LIdle
| LString (acc : jsstring)
| LEscape (acc : jsstring)
| LUnicode (acc : jsstring) (val : N) (count : nat)
| LNumber (st : numstate) (acc : jsstring)
| LKeyword (rest : jsstring) (t : token).

Definition is_digit (c : char16) : bool := (N.leb 48 c && N.leb c 57)%bool.
Definition is_digit19 (c : char16) : bool := (N.leb 49 c && N.leb c 57)%bool.
Definition is_json_space (c : char16) : bool :=
  (N.eqb c 9 || N.eqb c 10 || N.eqb c 13 || N.eqb c 32)%bool.
Definition is_exp (c : char16) : bool := (N.eqb c 101 || N.eqb c 69)%bool.

Definition hex_value (c : char16) : option N :=
  if is_digit c then Some (c - 48)%N
  else if (N.leb 97 c && N.leb c 102)%bool then Some (c - 87)%N
  else if (N.leb 65 c && N.leb c 70)%bool then Some (c - 55)%N
  else None.

Definition lex_idle (c : char16) : option (lexmode * list token) :=
  if is_json_space c then Some (LIdle, [])
  else if N.eqb c 123 then Some (LIdle, [TLBrace])
  else if N.eqb c 125 then Some (LIdle, [TRBrace])
  else if N.eqb c 91 then Some (LIdle, [TLBracket])
  else if N.eqb c 93 then Some (LIdle, [TRBracket])
  else if N.eqb c 58 then Some (LIdle, [TColon])
  else if N.eqb c 44 then Some (LIdle, [TComma])
  else if N.eqb c 34 then Some (LString [], [])
  else if N.eqb c 45 then Some (LNumber NMinus [c], [])
  else if N.eqb c 48 then Some (LNumber NZero [c], [])
  else if is_digit19 c then Some (LNumber NInt [c], [])
  else if N.eqb c 116 then Some (LKeyword (jslit "rue") TTrue, [])
  else if N.eqb c 102 then Some (LKeyword (jslit "alse") TFalse, [])
  else if N.eqb c 110 then Some (LKeyword (jslit "ull") TNull, [])
  else None.

(** The literal read so far is complete: emit it and handle [c] afresh. *)
Definition end_number (acc : jsstring) (c : char16) : option (lexmode * list token) :=
  match lex_idle c with
  | Some (m, ts) => Some (m, TNum (rev acc) :: ts)
  | None => None
  end.

Definition lex_number (st : numstate) (acc : jsstring) (c : char16)
  : option (lexmode * list token) :=
  let go st' := Some (LNumber st' (c :: acc), []) in
  match st with
  | NMinus => if N.eqb c 48 then go NZero
              else if is_digit19 c then go NInt else None
  | NZero => if N.eqb c 46 then go NFrac0
             else if is_exp c then go NExp0 else end_number acc c
  | NInt => if is_digit c then go NInt
            else if N.eqb c 46 then go NFrac0
            else if is_exp c then go NExp0 else end_number acc c
  | NFrac0 => if is_digit c then go NFrac else None
  | NFrac => if is_digit c then go NFrac
             else if is_exp c then go NExp0 else end_number acc c
  | NExp0 => if (N.eqb c 43 || N.eqb c 45)%bool then go NExpSign
             else if is_digit c then go NExp else None
  | NExpSign => if is_digit c then go NExp else None
  | NExp => if is_digit c then go NExp else end_number acc c
  end.

Definition lex_escape (acc : jsstring) (c : char16) : option (lexmode * list token) :=
  let put x := Some (LString (x :: acc), []) in
  if N.eqb c 34 then put 34%N
  else if N.eqb c 92 then put 92%N
  else if N.eqb c 47 then put 47%N
  else if N.eqb c 98 then put 8%N
  else if N.eqb c 102 then put 12%N
  else if N.eqb c 110 then put 10%N
  else if N.eqb c 114 then put 13%N
  else if N.eqb c 116 then put 9%N
  else if N.eqb c 117 then Some (LUnicode acc 0%N 0, [])
  else None.

Definition lex_step (m : lexmode) (c : char16) : option (lexmode * list token) :=
  match m with
  | LIdle => lex_idle c
  | LString acc =>
      if N.eqb c 34 then Some (LIdle, [TStr (rev acc)])
      else if N.eqb c 92 then Some (LEscape acc, [])
      else if N.ltb c 32 then None
      else Some (LString (c :: acc), [])
  | LEscape acc => lex_escape acc c
  | LUnicode acc val count =>
      match hex_value c with
      | Some h =>
          let val' := (val * 16 + h)%N in
          if Nat.eqb count 3 then Some (LString (val' :: acc), [])
          else Some (LUnicode acc val' (S count), [])
      | None => None
      end
  | LNumber st acc => lex_number st acc c
  | LKeyword rest t =>
      match rest with
      | x :: rest' =>
          if N.eqb c x then
            match rest' with
            | [] => Some (LIdle, [t])
            | _ :: _ => Some (LKeyword rest' t, [])
            end
          else None
      | [] => None
      end
  end.

(** End of the text: only a complete numeric literal may be pending. *)
Definition lex_end (m : lexmode) : option (list token) :=
  match m with
  | LIdle => Some []
  | LNumber st acc =>
      match st with
      | NZero | NInt | NFrac | NExp => Some [TNum (rev acc)]
      | _ => None
      end
  | _ => None
  end.

(** ** The grammar, as a pushdown automaton over the tokens *)

(** A container under construction; an object also holds the key whose
    value is awaited. *)
Inductive context :=
| CArr (done : list value)
| CObj (done : list (jsstring * value)) (key : option jsstring).

Inductive expect :=
| EValue          (* a value *)
| EValueOrClose   (* right after an opening bracket *)
| EKeyOrClose     (* right after an opening brace *)
| EKey            (* after a comma inside an object *)
| EColon          (* after a key *)
| EAfterValue     (* after a member of a container *)
| EDone (v : value).

Definition pstate := (list context * expect)%type.

Definition deliver (v : value) (stack : list context) : option pstate :=
  match stack with
  | [] => Some ([], EDone v)
  | CArr done :: rest => Some (CArr (v :: done) :: rest, EAfterValue)
  | CObj done (Some k) :: rest => Some (CObj ((k, v) :: done) None :: rest, EAfterValue)
  | CObj _ None :: _ => None
  end.

Definition start_value (t : token) (stack : list context) : option pstate :=
  match t with
  | TStr s => deliver (JStr s) stack
  | TNum l => deliver (JNum (num_of_literal l)) stack
  | TTrue => deliver (JBool true) stack
  | TFalse => deliver (JBool false) stack
  | TNull => deliver JNull stack
  | TLBracket => Some (CArr [] :: stack, EValueOrClose)
  | TLBrace => Some (CObj [] None :: stack, EKeyOrClose)
  | _ => None
  end.

Definition set_key (k : jsstring) (stack : list context) : option pstate :=
  match stack with
  | CObj done None :: rest => Some (CObj done (Some k) :: rest, EColon)
  | _ => None
  end.

Definition close_array (stack : list context) : option pstate :=
  match stack with
  | CArr done :: rest => deliver (JArr (rev done)) rest
  | _ => None
  end.

Definition close_object (stack : list context) : option pstate :=
  match stack with
  | CObj done None :: rest => deliver (JObj (rev done)) rest
  | _ => None
  end.

Definition parse_token (p : pstate) (t : token) : option pstate :=
  let (stack, e) := p in
  match e with
  | EValue => start_value t stack
  | EValueOrClose =>
      match t with
      | TRBracket => close_array stack
      | _ => start_value t stack
      end
  | EKeyOrClose =>
      match t with
      | TStr k => set_key k stack
      | TRBrace => close_object stack
      | _ => None
      end
  | EKey =>
      match t with
      | TStr k => set_key k stack
      | _ => None
      end
  | EColon =>
      match t with
      | TColon => Some (stack, EValue)
      | _ => None
      end
  | EAfterValue =>
      match t, stack with
      | TComma, CArr _ :: _ => Some (stack, EValue)
      | TComma, CObj _ _ :: _ => Some (stack, EKey)
      | TRBracket, _ => close_array stack
      | TRBrace, _ => close_object stack
      | _, _ => None
      end
  | EDone _ => None
  end.

Fixpoint parse_tokens (p : pstate) (ts : list token) : option pstate :=
  match ts with
  | [] => Some p
  | t :: r =>
      match parse_token p t with
      | Some p' => parse_tokens p' r
      | None => None
      end
  end.

Fixpoint run (m : lexmode) (p : pstate) (text : jsstring) : option value :=
  match text with
  | [] =>
      match lex_end m with
      | Some ts =>
          match parse_tokens p ts with
          | Some ([], EDone v) => Some v
          | _ => None
          end
      | None => None
      end
  | c :: r =>
      match lex_step m c with
      | Some (m', ts) =>
          match parse_tokens p ts with
          | Some p' => run m' p' r
          | None => None
          end
      | None => None
      end
  end.

(** [JSON.parse(text)]: the value, or [None] when a SyntaxError is
    thrown. *)
Definition parse (text : jsstring) : option value := run LIdle ([], EValue) text.


(** ** Operations on parsed values *)

(** Own property of an object; the last of several equal keys wins. *)
Fixpoint lookup (k : jsstring) (fields : list (jsstring * value)) : option value :=
  match fields with
  | [] => None
  | (k', v) :: r =>
      match lookup k r with
      | Some v' => Some v'
      | None => if str_eqb k k' then Some v else None
      end
  end.

(** [data.k] for one of the names the handlers read ([error], [token],
    [answer]): no built-in prototype defines them, so the result is the
    own property of an object and [undefined] ([None]) on anything else,
    except that reading a property of [null] throws a TypeError. *)
Definition get (data : value) (k : jsstring) : Thrown + option value :=
  match data with
  | JNull => inl (ErrorObject (null_read_message k))
  | JObj fields => inr (lookup k fields)
  | _ => inr None
  end.

(** ToBoolean of a value or [undefined]. *)
Definition truthy (v : option value) : bool :=
  match v with
  | None => false
  | Some JNull => false
  | Some (JBool b) => b
  | Some (JNum n) => num_to_boolean n
  | Some (JStr s) => nonempty s
  | Some (JArr _) => true
  | Some (JObj _) => true
  end.

(** [v ?? fallback] *)
Definition nullish (v : option value) (fallback : value) : value :=
  match v with
  | None => fallback
  | Some JNull => fallback
  | Some x => x
  end.

(** ToString; [None] when a TypeError is thrown.  An array is joined with
    commas, [null] elements printing as nothing; a plain object prints as
    [[object Object]] unless an own [toString] property, which is never
    callable in parsed JSON, hides the inherited method. *)
Fixpoint to_string (v : value) : option jsstring :=
  match v with
  | JNull => Some (jslit "null")
  | JBool true => Some (jslit "true")
  | JBool false => Some (jslit "false")
  | JNum n => Some (num_to_string n)
  | JStr s => Some s
  | JArr elems =>
      (fix join (l : list value) : option jsstring :=
         match l with
         | [] => Some []
         | x :: r =>
             let sx := match x with JNull => Some [] | _ => to_string x end in
             match sx, join r with
             | Some a, Some b =>
                 Some (a ++ match r with [] => [] | _ :: _ => jslit "," end ++ b)
             | _, _ => None
             end
         end) elems
  | JObj fields =>
      match lookup (jslit "toString") fields with
      | Some _ => None
      | None => Some (jslit "[object Object]")
      end
  end.

(** ToPrimitive: arrays and objects convert through their string form. *)
Definition to_primitive (v : value) : option value :=
  match v with
  | JArr _ | JObj _ => option_map JStr (to_string v)
  | _ => Some v
  end.

(** ToNumber of a primitive that is not a string. *)
Definition to_number (v : value) : number :=
  match v with
  | JNum n => n
  | JBool b => num_of_bool b
  | _ => num_of_bool false
  end.

(** [a + b]: concatenation as soon as one primitive operand is a string,
    numeric addition otherwise; [None] when a TypeError is thrown. *)
Definition js_add (a b : value) : option value :=
  match to_primitive a with
  | None => None
  | Some pa =>
      match to_primitive b with
      | None => None
      | Some pb =>
          match pa, pb with
          | JStr x, _ => option_map (fun y => JStr (x ++ y)) (to_string pb)
          | _, JStr y => option_map (fun x => JStr (x ++ y)) (to_string pa)
          | _, _ => Some (JNum (num_add (to_number pa) (to_number pb)))
          end
      end
  end.

(** The template literal [`<prefix>${v}`]. *)
Definition template (prefix : jsstring) (v : value) : option jsstring :=
  option_map (fun s => prefix ++ s) (to_string v).

End WithEngine.
End JSON.

Import JSON.

(* ================================================================== *)
(** * The component state and its environment *)
(* ================================================================== *)

Module Chat.
Section WithEngine.
Context {E : Engine}.

Inductive Role := user | assistant.

(** [ChatMessage].  At run time [content] holds whatever value was
    stored, so it is a [value]; strings are [JStr]. *)
Record ChatMessage := {
  id : jsstring;
  role : Role;
  content : value;
  createdAt : Z
}.

(** The state variables read or written by [send] and [clearChat].
    [error] and [documentId] are a string or [null] ([JNull]). *)
Record State := {
  input : jsstring;
  messages : list ChatMessage;
  isSending : bool;
  error : value;
  documentId : value
}.

(** What one call of [addMessage] draws from the clock and the random
    generator: the id it builds and the [createdAt] time. *)
Record Stamp := {
  stamp_id : jsstring;
  stamp_time : Z
}.

(** The argument of [JSON.stringify] in the body of a request to the ask
    endpoint. *)
Record Request := {
  request_body : value
}.

(** How the stream of a response body ends. *)
Inductive ReadEnd :=
| EndOfData
| ReadFails (e : Thrown).

(** [res.body.getReader()]: the chunks the successive [read()] calls
    deliver, then the end. *)
Record Reader := {
  chunks : list (list byte);
  ending : ReadEnd
}.

(** A [Response], by the results of the members [send] uses. *)
Record Response := {
  ok : bool;
  status : N;
  text : Thrown + jsstring;               (* await res.text() *)
  content_type : option jsstring;         (* res.headers.get("content-type") *)
  body : option Reader;                   (* res.body, null when absent *)
  json : Thrown + value                   (* await res.json() *)
}.

Inductive FetchOutcome :=
| Rejected (e : Thrown)
| Resolved (res : Response).

(** The environment of one call of [send]. *)
Record Env := {
  stamps : nat -> Stamp;
  outcome : FetchOutcome
}.

(** The component together with what a handler leaves behind: the
    requests issued, the number of stamps drawn, and whether a state
    updater threw (React then fails the render). *)
Record World := {
  ui : State;
  requests : list Request;
  stamps_used : nat;
  render_fault : bool
}.

Definition with_ui (f : State -> State) (w : World) : World :=
  {| ui := f (ui w); requests := requests w;
     stamps_used := stamps_used w; render_fault := render_fault w |}.

Definition setInput (v : jsstring) : World -> World :=
  with_ui (fun s => {| input := v; messages := messages s; isSending := isSending s;
                       error := error s; documentId := documentId s |}).

Definition setMessages (f : list ChatMessage -> list ChatMessage) : World -> World :=
  with_ui (fun s => {| input := input s; messages := f (messages s);
                       isSending := isSending s;
                       error := error s; documentId := documentId s |}).

Definition setIsSending (b : bool) : World -> World :=
  with_ui (fun s => {| input := input s; messages := messages s; isSending := b;
                       error := error s; documentId := documentId s |}).

Definition setError (v : value) : World -> World :=
  with_ui (fun s => {| input := input s; messages := messages s;
                       isSending := isSending s;
                       error := v; documentId := documentId s |}).

Definition fetch (r : Request) (w : World) : World :=
  {| ui := ui w; requests := requests w ++ [r];
     stamps_used := stamps_used w; render_fault := render_fault w |}.

(** [addMessage(role, content)]; returns the id of the new message. *)
Definition addMessage (env : Env) (r : Role) (c : value) (w : World) : jsstring * World :=
  let st := stamps env (stamps_used w) in
  let msg := {| id := stamp_id st; role := r; content := c;
                createdAt := stamp_time st |} in
  let w1 := setMessages (fun m => m ++ [msg]) w in
  (id msg,
   {| ui := ui w1; requests := requests w1;
      stamps_used := S (stamps_used w1); render_fault := render_fault w1 |}).

(** [msgs.map(m => m.id === id ? {...m, content: updater(m.content)} : m)];
    [None] when the updater throws. *)
Fixpoint map_content (target : jsstring) (updater : value -> option value)
    (msgs : list ChatMessage) : option (list ChatMessage) :=
  match msgs with
  | [] => Some []
  | m :: r =>
      let m' :=
        if str_eqb (id m) target then
          option_map (fun c => {| id := id m; role := role m; content := c;
                                  createdAt := createdAt m |})
                     (updater (content m))
        else Some m in
      match m', map_content target updater r with
      | Some x, Some r' => Some (x :: r')
      | _, _ => None
      end
  end.

(** [updateMessage(id, contentOrUpdater)].  An updater that throws
    leaves the transcript as it was and is recorded in [render_fault]. *)
Definition updateMessage (target : jsstring) (updater : value -> option value)
    (w : World) : World :=
  match map_content target updater (messages (ui w)) with
  | Some msgs => setMessages (fun _ => msgs) w
  | None => {| ui := ui w; requests := requests w;
               stamps_used := stamps_used w; render_fault := true |}
  end.

(** [clearChat()], the same in both versions of the component. *)
Definition clearChat (w : World) : World :=
  setInput [] (setMessages (fun _ => []) (setError JNull w)).

Definition EVENT_STREAM : jsstring := jslit "text/event-stream".
Definition DATA_PREFIX : jsstring := jslit "data: ".
Definition DONE : jsstring := jslit "[DONE]".
Definition NO_ANSWER : jsstring := jslit "No answer returned by server.".
Definition NOT_READABLE : jsstring := jslit "Response body is not readable".

(** [`Request failed (${res.status}). ${text}`.trim()] *)
Definition request_failed (res : Response) : jsstring :=
  let body_text := match text res with inr t => t | inl _ => [] end in
  trim (jslit "Request failed (" ++ decimal (status res) ++ jslit "). " ++ body_text).

(** The text of the assistant message appended by the [catch] clause;
    the source file spells the dash as the three characters U+00E2,
    U+20AC, U+201D. *)
Definition failure_text (msg : jsstring) : jsstring :=
  jslit "Sorry " ++ [226%N; 8364%N; 8221%N] ++
  jslit " I hit an error talking to the server.\n\n" ++ msg.

(** The statements of [send] between the guard and the [try] block. *)
Definition begin_send (env : Env) (trimmed : jsstring) (w : World) : World :=
  let w1 := setError JNull w in
  let w2 := snd (addMessage env user (JStr trimmed) w1) in
  let w3 := setInput [] w2 in
  setIsSending true w3.

(** The statements of the [catch] clause before the busy flag is reset. *)
Definition report (env : Env) (e : Thrown) (w : World) : World :=
  let msg := thrown_message e in
  snd (addMessage env assistant (JStr (failure_text msg)) (setError (JStr msg) w)).

(** The single-shot branch: [res.json()], then one assistant message. *)
Definition single_shot (env : Env) (res : Response) (w : World) : option Thrown * World :=
  match json res with
  | inl e => (Some e, w)
  | inr data =>
      match get data (jslit "answer") with
      | inl e => (Some e, w)
      | inr answer =>
          (None, snd (addMessage env assistant (nullish answer (JStr NO_ANSWER)) w))
      end
  end.

(** [res] with the given stream as its body. *)
Definition with_reader (res : Response) (cs : list (list byte)) (fin : ReadEnd)
  : Response :=
  {| ok := ok res; status := status res; text := text res;
     content_type := content_type res;
     body := Some {| chunks := cs; ending := fin |};
     json := json res |}.

(** A response whose body arrives completely: [text()] and [json()] read
    the very bytes the stream delivers. *)
Definition http_response (st : N) (ctype : option jsstring) (cs : list (list byte))
  : Response :=
  let whole := Utf8.decode_all (List.concat cs) in
  {| ok := N.leb 200 st && N.leb st 299; status := st;
     text := inr whole;
     content_type := ctype;
     body := Some {| chunks := cs; ending := EndOfData |};
     json := match parse whole with
             | Some v => inr v
             | None => inl (ErrorObject (syntax_error_message whole))
             end |}.

(** A run of handler code leaves the requests alone and keeps in its
    place every message whose id is not [target]. *)
Definition stable (target : jsstring) (w w' : World) : Prop :=
  requests w' = requests w /\
  forall k m, str_eqb (id m) target = false ->
    nth_error (messages (ui w)) k = Some m ->
    nth_error (messages (ui w')) k = Some m.

(** The transcript with the content of every message of the given id
    replaced. *)
Definition overwrite (target : jsstring) (c : value) (msgs : list ChatMessage)
  : list ChatMessage :=
  map (fun m => if str_eqb (id m) target
                then {| id := id m; role := role m; content := c;
                        createdAt := createdAt m |}
                else m) msgs.

End WithEngine.
End Chat.

Import Chat.

(* ================================================================== *)
(** * The streaming version of the component *)
(* ================================================================== *)

Module AppStream.
Section WithEngine.
Context {E : Engine}.

(** How the body of the [for] loop over the frames ends. *)
Inductive Signal := Continue | Return.

(** The body of [for (const line of lines)].  The inner [try] swallows
    whatever [JSON.parse], the property reads or the template literal
    throw. *)
Definition handle_line (assistantMsgId : jsstring) (line : jsstring) (w : World)
  : Signal * World :=
  if startsWith DATA_PREFIX line then
    let jsonStr := slice 6 line in
    if str_eqb (trim jsonStr) DONE then (Return, setIsSending false w)
    else
      match parse jsonStr with
      | None => (Continue, w)
      | Some data =>
          match get data (jslit "error") with
          | inl _ => (Continue, w)
          | inr err =>
              let token_case :=
                match get data (jslit "token") with
                | inl _ => (Continue, w)
                | inr tok =>
                    match tok with
                    | Some t =>
                        if truthy tok then
                          (Continue,
                           updateMessage assistantMsgId (fun prev => js_add prev t) w)
                        else (Continue, w)
                    | None => (Continue, w)
                    end
                end in
              match err with
              | Some v =>
                  if truthy err then
                    let w1 := setError v w in
                    match template (jslit "Error: ") v with
                    | None => (Continue, w1)
                    | Some s =>
                        (Return,
                         setIsSending false
                           (updateMessage assistantMsgId (fun _ => Some (JStr s)) w1))
                    end
                  else token_case
              | None => token_case
              end
          end
      end
  else (Continue, w).

Fixpoint for_lines (assistantMsgId : jsstring) (lines : list jsstring) (w : World)
  : Signal * World :=
  match lines with
  | [] => (Continue, w)
  | line :: r =>
      match handle_line assistantMsgId line w with
      | (Return, w') => (Return, w')
      | (Continue, w') => for_lines assistantMsgId r w'
      end
  end.

(** The frame decoder: the three statements that turn a chunk into the
    complete frames it closes and the new buffer. *)
Definition decode_chunk (decoder : Utf8.TextDecoder) (buffer : jsstring)
    (value : list byte) : Utf8.TextDecoder * jsstring * list jsstring :=
  let (decoder', decoded) := Utf8.decode decoder value in
  let buffer1 := buffer ++ decoded in
  let lines := split buffer1 in
  let (last, lines') := pop lines in
  (decoder', or_empty last, lines').

(** The frames the decoder hands to the [for] loop over a sequence of
    chunks, one chunk after the other. *)
Fixpoint frames (decoder : Utf8.TextDecoder) (buffer : jsstring)
    (cs : list (list byte)) : list jsstring :=
  match cs with
  | [] => []
  | value :: rest =>
      match decode_chunk decoder buffer value with
      | (decoder', buffer', lines) => lines ++ frames decoder' buffer' rest
      end
  end.

(** The text the decoder has produced when the stream ends; bytes of an
    unfinished sequence are still pending inside it. *)
Definition stream_text (cs : list (list byte)) : jsstring :=
  snd (Utf8.decode Utf8.new_TextDecoder (List.concat cs)).

(** The pieces of a text closed by a separator, and the piece after the
    last separator. *)
Definition complete_frames (t : jsstring) : list jsstring := removelast (split t).
Definition dangling (t : jsstring) : jsstring := last (split t) [].

(** A payload the interpreter recognises no event in: it is not valid
    JSON, or it is [null], or neither its [error] nor its [token] is
    truthy (an absent field is not). *)
Definition unrecognised (parsed : option value) : bool :=
  match parsed with
  | None => true
  | Some data =>
      match get data (jslit "error"), get data (jslit "token") with
      | inr err, inr tok => negb (truthy err) && negb (truthy tok)
      | _, _ => true
      end
  end.

(** How the [while (true)] loop is left. *)
Inductive LoopExit :=
| Break             (* done: the statement after the loop runs *)
| Returned          (* [return] inside the loop *)
| Threw (e : Thrown).

Fixpoint read_loop (assistantMsgId : jsstring) (decoder : Utf8.TextDecoder)
    (buffer : jsstring) (cs : list (list byte)) (fin : ReadEnd) (w : World)
  : LoopExit * World :=
  match cs with
  | [] =>
      match fin with
      | EndOfData => (Break, w)
      | ReadFails e => (Threw e, w)
      end
  | value :: rest =>
      match decode_chunk decoder buffer value with
      | (decoder', buffer', lines) =>
          match for_lines assistantMsgId lines w with
          | (Return, w') => (Returned, w')
          | (Continue, w') => read_loop assistantMsgId decoder' buffer' rest fin w'
          end
      end
  end.

(** The streaming branch. *)
Definition streaming (env : Env) (res : Response) (w : World) : option Thrown * World :=
  let (assistantMsgId, w1) := addMessage env assistant (JStr []) w in
  match body res with
  | None => (Some (ErrorObject NOT_READABLE), w1)
  | Some reader =>
      match read_loop assistantMsgId Utf8.new_TextDecoder [] (chunks reader)
                      (ending reader) w1 with
      | (Break, w2) => (None, setIsSending false w2)
      | (Returned, w2) => (None, w2)
      | (Threw e, w2) => (Some e, w2)
      end
  end.

(** The [try] block: what it throws, if anything, and the world it
    leaves. *)
Definition try_block (env : Env) (trimmed : jsstring) (doc : value) (w : World)
  : option Thrown * World :=
  let w1 := fetch {| request_body :=
                       JObj [(jslit "message", JStr trimmed);
                             (jslit "documentId", doc);
                             (jslit "stream", JBool false)] |} w in
  match outcome env with
  | Rejected e => (Some e, w1)
  | Resolved res =>
      if negb (ok res) then (Some (ErrorObject (request_failed res)), w1)
      else
        let contentType := or_empty (content_type res) in
        if includes EVENT_STREAM contentType then streaming env res w1
        else
          match single_shot env res w1 with
          | (None, w2) => (None, setIsSending false w2)
          | r => r
          end
  end.

(** [send()] *)
Definition send (env : Env) (w : World) : World :=
  let trimmed := trim (input (ui w)) in
  if negb (nonempty trimmed) || isSending (ui w) then w
  else
    let w4 := begin_send env trimmed w in
    match try_block env trimmed (documentId (ui w)) w4 with
    | (None, w5) => w5
    | (Some e, w5) => setIsSending false (report env e w5)
    end.

End WithEngine.
End AppStream.

(* ================================================================== *)
(** * The single-shot version of the component ([App.tsx]) *)
(* ================================================================== *)

Module App.
Section WithEngine.
Context {E : Engine}.

Definition try_block (env : Env) (trimmed : jsstring) (doc : value) (w : World)
  : option Thrown * World :=
  let w1 := fetch {| request_body :=
                       JObj [(jslit "message", JStr trimmed);
                             (jslit "documentId", doc)] |} w in
  match outcome env with
  | Rejected e => (Some e, w1)
  | Resolved res =>
      if negb (ok res) then (Some (ErrorObject (request_failed res)), w1)
      else single_shot env res w1
  end.

(** [send()]: the [finally] clause resets the busy flag. *)
Definition send (env : Env) (w : World) : World :=
  let trimmed := trim (input (ui w)) in
  if negb (nonempty trimmed) || isSending (ui w) then w
  else
    let w4 := begin_send env trimmed w in
    let w6 :=
      match try_block env trimmed (documentId (ui w)) w4 with
      | (None, w5) => w5
      | (Some e, w5) => report env e w5
      end in
    setIsSending false w6.

End WithEngine.
End App.

(* ================================================================== *)
(** * The read loop, seen from outside *)
(* ================================================================== *)

Module Loop.
Section WithEngine.
Context {E : Engine}.

Definition SEPARATOR : jsstring := jslit "\n\n".

(** The content of [buffer] after the loop has taken the given chunks. *)
Fixpoint buffer_after (decoder : Utf8.TextDecoder) (buffer : jsstring)
    (cs : list (list byte)) : jsstring :=
  match cs with
  | [] => buffer
  | value :: rest =>
      match AppStream.decode_chunk decoder buffer value with
      | (decoder', buffer', _) => buffer_after decoder' buffer' rest
      end
  end.

(** Frames written back as they came: each followed by the separator. *)
Definition rejoin (fs : list jsstring) : jsstring :=
  List.concat (map (fun f => f ++ SEPARATOR) fs).

(** [line] is a data frame whose payload is an object with the non-empty
    string [t] as its [token] and no truthy [error]. *)
Definition token_frame (line t : jsstring) : Prop :=
  exists payload fields,
    line = DATA_PREFIX ++ payload /\
    parse payload = Some (JObj fields) /\
    truthy (lookup (jslit "error") fields) = false /\
    lookup (jslit "token") fields = Some (JStr t) /\
    nonempty t = true.

(** What the loop cannot change of a message: everything but the
    content. *)
Definition frame_of (m : ChatMessage) : jsstring * Role * Z :=
  (id m, role m, createdAt m).

Definition shape (msgs : list ChatMessage) : list (jsstring * Role * Z) :=
  map frame_of msgs.

(** Two worlds that differ at most in their transcript. *)
Definition same_but_messages (w w' : World) : Prop :=
  input (ui w') = input (ui w) /\
  isSending (ui w') = isSending (ui w) /\
  error (ui w') = error (ui w) /\
  documentId (ui w') = documentId (ui w) /\
  requests w' = requests w /\
  stamps_used w' = stamps_used w /\
  render_fault w' = render_fault w.

(** Two worlds with the same messages up to their contents, the same
    input text and document, the same requests and stamps drawn. *)
Definition same_layout (w w' : World) : Prop :=
  shape (messages (ui w')) = shape (messages (ui w)) /\
  input (ui w') = input (ui w) /\
  documentId (ui w') = documentId (ui w) /\
  requests w' = requests w /\
  stamps_used w' = stamps_used w.

(** The message [m] with its content replaced. *)
Definition with_content (m : ChatMessage) (c : value) : ChatMessage :=
  {| id := id m; role := role m; content := c; createdAt := createdAt m |}.

(** The world in which the read loop starts: the one [send] has reached
    when the placeholder has just been added. *)
Definition at_stream_start (env : Env) (w : World) : World :=
  let trimmed := trim (input (ui w)) in
  snd (addMessage env assistant (JStr [])
         (fetch {| request_body :=
                     JObj [(jslit "message", JStr trimmed);
                           (jslit "documentId", documentId (ui w));
                           (jslit "stream", JBool false)] |}
                (begin_send env trimmed w))).

End WithEngine.
End Loop.

(* ================================================================== *)
(** * The rest of the component: buttons, upload, removal *)
(* ================================================================== *)

(** The text of the TypeError an engine raises when a value has no
    primitive form (it reaches [uploadError] when [filename] or
    [pageCount] of an upload response is such a value). *)
Class ConversionError := {
  cannot_convert_message : jsstring
}.

Module Document.
Section WithEngine.
Context {E : Engine} {C : ConversionError}.

Inductive View := landing | chat.

(** A [File]: the name is all the component reads of it. *)
Record File := {
  name : jsstring;
  file_bytes : list byte
}.

Record FileInfo := {
  filename : value;
  pageCount : value
}.

(** The whole component: the chat part, the remaining state variables,
    and the files posted to the upload endpoint. *)
Record Page := {
  world : World;
  view : View;
  selectedFile : option File;
  isUploading : bool;
  uploadError : value;
  uploadedFileInfo : option FileInfo;
  uploads : list File
}.

Definition on_world (f : World -> World) (p : Page) : Page :=
  {| world := f (world p); view := view p; selectedFile := selectedFile p;
     isUploading := isUploading p; uploadError := uploadError p;
     uploadedFileInfo := uploadedFileInfo p; uploads := uploads p |}.

Definition setView (v : View) (p : Page) : Page :=
  {| world := world p; view := v; selectedFile := selectedFile p;
     isUploading := isUploading p; uploadError := uploadError p;
     uploadedFileInfo := uploadedFileInfo p; uploads := uploads p |}.

Definition setSelectedFile (f : option File) (p : Page) : Page :=
  {| world := world p; view := view p; selectedFile := f;
     isUploading := isUploading p; uploadError := uploadError p;
     uploadedFileInfo := uploadedFileInfo p; uploads := uploads p |}.

Definition setIsUploading (b : bool) (p : Page) : Page :=
  {| world := world p; view := view p; selectedFile := selectedFile p;
     isUploading := b; uploadError := uploadError p;
     uploadedFileInfo := uploadedFileInfo p; uploads := uploads p |}.

Definition setUploadError (v : value) (p : Page) : Page :=
  {| world := world p; view := view p; selectedFile := selectedFile p;
     isUploading := isUploading p; uploadError := v;
     uploadedFileInfo := uploadedFileInfo p; uploads := uploads p |}.

Definition setUploadedFileInfo (i : option FileInfo) (p : Page) : Page :=
  {| world := world p; view := view p; selectedFile := selectedFile p;
     isUploading := isUploading p; uploadError := uploadError p;
     uploadedFileInfo := i; uploads := uploads p |}.

Definition setDocumentId (v : value) : Page -> Page :=
  on_world (with_ui (fun s => {| input := input s; messages := messages s;
                                 isSending := isSending s; error := error s;
                                 documentId := v |})).

(** [fetch(uploadUrl, { method: "POST", body: fd })] with [file] as the
    one entry of the form. *)
Definition post (file : File) (p : Page) : Page :=
  {| world := world p; view := view p; selectedFile := selectedFile p;
     isUploading := isUploading p; uploadError := uploadError p;
     uploadedFileInfo := uploadedFileInfo p; uploads := uploads p ++ [file] |}.

(** The [disabled] attribute of the Send button. *)
Definition send_disabled (w : World) : bool :=
  isSending (ui w) || Nat.eqb (List.length (trim (input (ui w)))) 0.

(** The [disabled] attribute of the Upload button. *)
Definition upload_disabled (p : Page) : bool :=
  match selectedFile p with
  | None => true
  | Some _ => isUploading p
  end.

(** The [onKeyDown] handler of the text area, for either version of
    [send]. *)
Definition onKeyDown (send : World -> World) (key : jsstring) (shiftKey : bool)
    (w : World) : World :=
  if str_eqb key (jslit "Enter") && negb shiftKey then send w else w.

Definition DEFAULT_DOCUMENT : jsstring := jslit "default".
Definition NO_DOCUMENT_ID : jsstring :=
  jslit "Upload succeeded but no documentId returned.".

(** [removeDocument()] *)
Definition removeDocument (p : Page) : Page :=
  setView landing
    (on_world clearChat
       (setSelectedFile None
          (setUploadedFileInfo None
             (setDocumentId (JStr DEFAULT_DOCUMENT) p)))).

(** [`Upload failed (${res.status}). ${text}`.trim()] *)
Definition upload_failed (res : Response) : jsstring :=
  let body_text := match text res with inr t => t | inl _ => [] end in
  trim (jslit "Upload failed (" ++ decimal (status res) ++ jslit "). " ++ body_text).

(** The number [0] of [data.pageCount ?? 0]. *)
Definition ZERO : value := JNum (num_of_bool false).

(** The text of the message announcing an upload in the streaming
    version; [None] when a conversion throws. *)
Definition uploaded_text (file_name page_count : value) : option jsstring :=
  match to_string file_name, to_string page_count with
  | Some f, Some n =>
      Some (jslit "Uploaded: " ++ f ++ jslit " (" ++ n ++
            jslit " pages)\n\nAsk me anything about this PDF.")
  | _, _ => None
  end.

(** The same in the single-shot version, which shows no page count. *)
Definition uploaded_text_plain (file_name : value) : option jsstring :=
  option_map (fun f => jslit "Uploaded: " ++ f ++
                       jslit "\n\nAsk me anything about this PDF.")
             (to_string file_name).

(** [data.k] once [data.documentId] has been read without a throw. *)
Definition field (data : value) (k : jsstring) : option value :=
  match get data k with
  | inr v => v
  | inl _ => None
  end.

(** The document id an upload response hands over, if any: the response
    is a success, its body is JSON and its [documentId] is truthy. *)
Definition returned_document (env : Env) : option value :=
  match outcome env with
  | Rejected _ => None
  | Resolved res =>
      if ok res then
        match json res with
        | inl _ => None
        | inr data =>
            match get data (jslit "documentId") with
            | inr (Some doc) => if truthy (Some doc) then Some doc else None
            | _ => None
            end
        end
      else None
  end.

(** The [try] block of [uploadPdf] in the streaming version, after the
    request is posted. *)
Definition try_upload (env : Env) (file : File) (p : Page) : option Thrown * Page :=
  match outcome env with
  | Rejected e => (Some e, p)
  | Resolved res =>
      if negb (ok res) then (Some (ErrorObject (upload_failed res)), p)
      else
        match json res with
        | inl e => (Some e, p)
        | inr data =>
            match get data (jslit "documentId") with
            | inl e => (Some e, p)
            | inr None => (Some (ErrorObject NO_DOCUMENT_ID), p)
            | inr (Some doc) =>
                if negb (truthy (Some doc)) then (Some (ErrorObject NO_DOCUMENT_ID), p)
                else
                  let file_name :=
                    nullish (field data (jslit "filename")) (JStr (name file)) in
                  let page_count := nullish (field data (jslit "pageCount")) ZERO in
                  let p1 := setDocumentId doc p in
                  let p2 := setUploadedFileInfo
                              (Some {| filename := file_name;
                                       pageCount := page_count |}) p1 in
                  let p3 := setSelectedFile None p2 in
                  let p4 := setView chat p3 in
                  let p5 := on_world clearChat p4 in
                  match uploaded_text file_name page_count with
                  | None => (Some (ErrorObject cannot_convert_message), p5)
                  | Some s =>
                      (None,
                       on_world (fun w => snd (addMessage env assistant (JStr s) w)) p5)
                  end
            end
        end
  end.

(** [uploadPdf()] of the streaming version. *)
Definition uploadPdf (env : Env) (p : Page) : Page :=
  match selectedFile p with
  | None => p
  | Some file =>
      if isUploading p then p
      else
        let p1 := setIsUploading true (setUploadError JNull p) in
        let p2 := post file p1 in
        let p4 :=
          match try_upload env file p2 with
          | (None, p3) => p3
          | (Some e, p3) => setUploadError (JStr (thrown_message e)) p3
          end in
        setIsUploading false p4
  end.

(** The [try] block of [uploadPdf] in the single-shot version: no file
    information is kept and the selected file stays selected. *)
Definition try_upload_plain (env : Env) (file : File) (p : Page)
  : option Thrown * Page :=
  match outcome env with
  | Rejected e => (Some e, p)
  | Resolved res =>
      if negb (ok res) then (Some (ErrorObject (upload_failed res)), p)
      else
        match json res with
        | inl e => (Some e, p)
        | inr data =>
            match get data (jslit "documentId") with
            | inl e => (Some e, p)
            | inr None => (Some (ErrorObject NO_DOCUMENT_ID), p)
            | inr (Some doc) =>
                if negb (truthy (Some doc)) then (Some (ErrorObject NO_DOCUMENT_ID), p)
                else
                  let file_name :=
                    nullish (field data (jslit "filename")) (JStr (name file)) in
                  let p1 := setDocumentId doc p in
                  let p2 := setView chat p1 in
                  let p3 := on_world clearChat p2 in
                  match uploaded_text_plain file_name with
                  | None => (Some (ErrorObject cannot_convert_message), p3)
                  | Some s =>
                      (None,
                       on_world (fun w => snd (addMessage env assistant (JStr s) w)) p3)
                  end
            end
        end
  end.

(** [uploadPdf()] of the single-shot version. *)
Definition uploadPdf_plain (env : Env) (p : Page) : Page :=
  match selectedFile p with
  | None => p
  | Some file =>
      if isUploading p then p
      else
        let p1 := setIsUploading true (setUploadError JNull p) in
        let p2 := post file p1 in
        let p4 :=
          match try_upload_plain env file p2 with
          | (None, p3) => p3
          | (Some e, p3) => setUploadError (JStr (thrown_message e)) p3
          end in
        setIsUploading false p4
  end.

End WithEngine.
End Document.

(* ================================================================== *)
(** * A sample engine *)
(* ================================================================== *)

(** An engine whose numbers are exact decimals [m * 10^e].  It serves to
    run the model on concrete inputs; a browser's engine rounds to doubles
    instead, and no statement below depends on the choice. *)
Module DecimalEngine.

Definition digits_value (ds : jsstring) : Z :=
  fold_left (fun acc c => (acc * 10 + (Z.of_N c - 48))%Z) ds 0%Z.

(** [s] cut before its first code unit satisfying [p]. *)
Fixpoint cut (p : char16 -> bool) (s : jsstring) : jsstring * jsstring :=
  match s with
  | [] => ([], [])
  | c :: r => if p c then ([], s) else let (a, b) := cut p r in (c :: a, b)
  end.

(** Exact value [(m, e)], meaning [m * 10^e], of a JSON numeric literal. *)
Definition of_literal (l : jsstring) : Z * Z :=
  let (neg, body) :=
    match l with
    | c :: r => if N.eqb c 45 then (true, r) else (false, l)
    | [] => (false, l)
    end in
  let (mant, ex) := cut is_exp body in
  let (int_part, frac) := cut (N.eqb 46) mant in
  let frac_digits := tl frac in
  let m := digits_value (int_part ++ frac_digits) in
  let e :=
    match tl ex with
    | c :: ds => if N.eqb c 45 then (- digits_value ds)%Z
                 else if N.eqb c 43 then digits_value ds
                 else digits_value (c :: ds)
    | [] => 0%Z
    end in
  ((if neg then - m else m)%Z, (e - Z.of_nat (List.length frac_digits))%Z).

Definition add (a b : Z * Z) : Z * Z :=
  let e := Z.min (snd a) (snd b) in
  ((fst a * 10 ^ (snd a - e) + fst b * 10 ^ (snd b - e))%Z, e).

Fixpoint pad (n : nat) (s : jsstring) : jsstring :=
  match n with
  | O => s
  | S k => if Nat.ltb (List.length s) n then 48%N :: pad k s else s
  end.

Definition to_string (a : Z * Z) : jsstring :=
  let (m, e) := a in
  let sign := if Z.ltb m 0 then [45%N] else [] in
  let n := Z.abs m in
  if Z.leb 0 e then sign ++ decimal (Z.to_N (n * 10 ^ e))
  else
    let p := (10 ^ (- e))%Z in
    sign ++ decimal (Z.to_N (n / p)) ++ [46%N] ++
    pad (Z.to_nat (- e)) (decimal (Z.to_N (n mod p))).

#[export] Instance engine : Engine := {|
  number := Z * Z;
  num_of_literal := of_literal;
  num_to_boolean := fun a => negb (Z.eqb (fst a) 0);
  num_to_string := to_string;
  num_add := add;
  num_of_bool := fun b => ((if b then 1 else 0)%Z, 0%Z);
  syntax_error_message := fun text =>
    jslit "Unexpected token in JSON: " ++ text;
  null_read_message := fun k =>
    jslit "Cannot read properties of null (reading '" ++ k ++ jslit "')"
|}.

End DecimalEngine.

(* ================================================================== *)
(** * Sample inputs *)
(* ================================================================== *)

Module Sample.

#[local] Existing Instance DecimalEngine.engine.

Definition clock (n : nat) : Stamp :=
  {| stamp_id := jslit "m" ++ decimal (N.of_nat n);
     stamp_time := 1700000000000 + Z.of_nat n |}.

(** A component at rest with a question typed in, and the same while a
    request is in flight. *)
Definition idle : World :=
  {| ui := {| input := jslit "  What is RAG? \n"; messages := [];
              isSending := false; error := JNull;
              documentId := JStr (jslit "default") |};
     requests := []; stamps_used := 0; render_fault := false |}.

Definition busy : World :=
  {| ui := {| input := jslit "again";
              messages := [{| id := jslit "m0"; role := user;
                              content := JStr (jslit "What is RAG?");
                              createdAt := 1700000000000 |}];
              isSending := true; error := JStr (jslit "earlier failure");
              documentId := JStr (jslit "default") |};
     requests := []; stamps_used := 1; render_fault := false |}.

(** The same with nothing but white space typed in. *)
Definition blank : World :=
  {| ui := {| input := jslit "  \n "; messages := [];
              isSending := false; error := JNull;
              documentId := JStr (jslit "default") |};
     requests := []; stamps_used := 0; render_fault := false |}.

Definition HELLO_BODY : jsstring :=
  jslit "data: {'token':'Hel'}\n\ndata: {'token':'lo'}\n\ndata: [DONE]\n\n".

Definition BOOM_BODY : jsstring :=
  jslit "data: {'error':'boom'}\n\ndata: {'token':'late'}\n\n".

Definition TRUNCATED_BODY : jsstring :=
  jslit "data: {'token':'Hel'}\n\ndata: {'tok".

Definition event_stream (body : jsstring) : Response :=
  http_response 200 (Some (jslit "text/event-stream")) [Utf8.ascii_bytes body].

Definition json_body (body : jsstring) : Response :=
  http_response 200 (Some (jslit "application/json")) [Utf8.ascii_bytes body].

End Sample.

(** Further sample inputs: a page with a file selected and the responses
    of the upload endpoint. *)
Module Demo.

#[local] Existing Instance DecimalEngine.engine.

#[export] Instance conversion_error : ConversionError :=
  {| cannot_convert_message := jslit "Cannot convert object to primitive value" |}.

Definition report_pdf : Document.File :=
  {| Document.name := jslit "report.pdf"; Document.file_bytes := [x25; x50; x44; x46] |}.

Definition ready : Document.Page :=
  {| Document.world := Sample.busy;
     Document.view := Document.landing;
     Document.selectedFile := Some report_pdf;
     Document.isUploading := false;
     Document.uploadError := JStr (jslit "earlier upload error");
     Document.uploadedFileInfo := None;
     Document.uploads := [] |}.

Definition accepted : Response :=
  Sample.json_body (jslit "{'documentId':'doc-7','filename':'r.pdf','pageCount':3}").

Definition refused : Response :=
  http_response 413 (Some (jslit "text/plain")) [Utf8.ascii_bytes (jslit "too large\n")].

(** A chat in the middle of a streamed answer: the placeholder is the
    last message and holds what has arrived. *)
Definition streaming_chat : World :=
  {| ui := {| input := []; 
              messages := [{| id := jslit "m0"; role := user;
                              content := JStr (jslit "What is RAG?");
                              createdAt := 1700000000000 |};
                           {| id := jslit "m1"; role := assistant;
                              content := JStr (jslit "Retrieval");
                              createdAt := 1700000000001 |}];
              isSending := true; error := JNull;
              documentId := JStr (jslit "default") |};
     requests := []; stamps_used := 2; render_fault := false |}.

(** A chat at rest with one earlier message and a new question typed. *)
Definition followup : World :=
  {| ui := {| input := jslit " and then? ";
              messages := [{| id := jslit "m0"; role := user;
                              content := JStr (jslit "What is RAG?");
                              createdAt := 1700000000000 |}];
              isSending := false; error := JNull;
              documentId := JStr (jslit "doc-7") |};
     requests := []; stamps_used := 1; render_fault := false |}.

Definition TOKENS_BODY : jsstring :=
  jslit "data: {'token':'-augmented'}\n\n: ping\n\ndata: {'token':' generation','n':2}\n\n".

(** The chat about an uploaded document, at rest. *)
Definition reading : Document.Page :=
  {| Document.world := followup;
     Document.view := Document.chat;
     Document.selectedFile := None;
     Document.isUploading := false;
     Document.uploadError := JNull;
     Document.uploadedFileInfo :=
       Some {| Document.filename := JStr (jslit "r.pdf");
               Document.pageCount := JNum (num_of_literal (jslit "3")) |};
     Document.uploads := [report_pdf] |}.

(** The landing page with a file chosen while the chat is at rest. *)
Definition chosen : Document.Page :=
  {| Document.world := followup;
     Document.view := Document.landing;
     Document.selectedFile := Some report_pdf;
     Document.isUploading := false;
     Document.uploadError := JNull;
     Document.uploadedFileInfo := None;
     Document.uploads := [] |}.

End Demo.

Unset Implicit Arguments.

(** Case analysis on every scrutinee of the goal. *)
Ltac break_matches :=
  repeat match goal with
         | |- context [match ?x with _ => _ end] => destruct x
         end.

Create HintDb stable.

(* ================================================================== *)
(** * The model at work *)
(* ================================================================== *)

Example split_pieces :
  split (jslit "a\n\n\nb\n\n") = [jslit "a"; jslit "\nb"; []].
Proof. reflexivity. Qed.

Example split_without_separator : split (jslit "data: x\n") = [jslit "data: x\n"].
Proof. reflexivity. Qed.

Example trim_both_ends : trim (jslit " \n [DONE]\n") = jslit "[DONE]".
Proof. reflexivity. Qed.

(** The euro sign, three bytes, cut after its first byte: the decoder
    keeps the open sequence across the chunks. *)
Example decode_across_chunks :
  let (t, first) := Utf8.decode Utf8.new_TextDecoder [xe2] in
  (first, snd (Utf8.decode t [x82; xac; x21])) = ([], [8364%N; 33%N]).
Proof. reflexivity. Qed.

Example decode_malformed :
  Utf8.decode_all [xef; xbb; xbf; x61; xc3; x28; xe2; x82] =
  [97%N; 65533%N; 40%N; 65533%N].
Proof. reflexivity. Qed.

Example parse_token_event :
  parse (E := DecimalEngine.engine) (jslit " {'token' : 'Hel\u006co'} ") =
  Some (JObj [(jslit "token", JStr (jslit "Hello"))]).
Proof. reflexivity. Qed.

Example parse_nested :
  parse (E := DecimalEngine.engine) (jslit "[{'a':[true,null]},-1.5e2,'x']") =
  Some (JArr [JObj [(jslit "a", JArr [JBool true; JNull])];
              JNum (num_of_literal (jslit "-1.5e2")); JStr (jslit "x")]).
Proof. reflexivity. Qed.

Example parse_rejects :
  map (parse (E := DecimalEngine.engine))
      [jslit "[DONE]"; jslit ""; jslit "{'a':1,}"; jslit "[1 2]"; jslit "01";
       jslit "{'a'}"; jslit "'open"; jslit "nul"; jslit "1.e3"; jslit "{} {}"] =
  repeat None 10.
Proof. reflexivity. Qed.

Example to_string_array :
  option_map (to_string (E := DecimalEngine.engine))
    (parse (jslit "[1,[null,'x',{}],true,null]")) =
  Some (Some (jslit "1,,x,[object Object],true,")).
Proof. reflexivity. Qed.

Example to_string_shadowed :
  option_map (to_string (E := DecimalEngine.engine))
    (parse (jslit "{'toString':1}")) = Some None.
Proof. reflexivity. Qed.

(** The stream of the specification run on the component at rest. *)
Example send_hello :
  map content
    (messages (ui (AppStream.send
       {| stamps := Sample.clock;
          outcome := Resolved (Sample.event_stream Sample.HELLO_BODY) |}
       Sample.idle))) =
  [JStr (jslit "What is RAG?"); JStr (jslit "Hello")].
Proof. reflexivity. Qed.

(** An error event followed by a token: the token is not appended. *)
Example send_boom :
  let w := AppStream.send
             {| stamps := Sample.clock;
                outcome := Resolved (Sample.event_stream Sample.BOOM_BODY) |}
             Sample.idle in
  (map content (messages (ui w)), error (ui w), isSending (ui w)) =
  ([JStr (jslit "What is RAG?"); JStr (jslit "Error: boom")],
   JStr (jslit "boom"), false).
Proof. reflexivity. Qed.

Example number_literals :
  map DecimalEngine.of_literal
      [jslit "0"; jslit "-12"; jslit "2.50"; jslit "-1.5e2"; jslit "3E-2"; jslit "7e+1"] =
  [(0, 0); (-12, 0); (250, -2); (-15, 1); (3, -2); (7, 1)]%Z.
Proof. reflexivity. Qed.

Example send_rejected :
  map content
    (messages (ui (App.send
       {| stamps := Sample.clock;
          outcome := Rejected (ErrorObject (jslit "Failed to fetch")) |}
       Sample.idle))) =
  [JStr (jslit "What is RAG?");
   JStr (failure_text (jslit "Failed to fetch"))].
Proof. reflexivity. Qed.

(* ================================================================== *)
(** * Facts about the string primitives *)
(* ================================================================== *)

Lemma str_eqb_eq (a b : jsstring) : str_eqb a b = true <-> a = b.
Proof.
  revert b; induction a as [|x a IH]; intros [|y b]; simpl; split;
    try congruence; try reflexivity.
  - rewrite andb_true_iff, N.eqb_eq, IH. intros [-> ->]; reflexivity.
  - intros H; injection H as -> ->. rewrite N.eqb_refl. apply IH. reflexivity.
Qed.

Lemma str_eqb_refl (a : jsstring) : str_eqb a a = true.
Proof. apply str_eqb_eq; reflexivity. Qed.

Lemma split_cons (x : char16) (s : jsstring) :
  split (x :: s) =
  match s with
  | d :: r => if N.eqb x LF && N.eqb d LF then [] :: split r
              else push_front x (split s)
  | [] => [[x]]
  end.
Proof. destruct s; reflexivity. Qed.

Lemma split_not_nil (s : jsstring) : split s <> [].
Proof.
  destruct s as [|x s]; [discriminate|].
  rewrite split_cons. destruct s as [|d r]; [discriminate|].
  destruct (N.eqb x LF && N.eqb d LF); [discriminate|].
  destruct (split (d :: r)); discriminate.
Qed.

Lemma pop_last (A : Type) (d : A) (l : list A) :
  l <> [] -> pop l = (Some (last l d), removelast l).
Proof.
  induction l as [|x l IH]; [congruence|]. intros _.
  destruct l as [|y l]; [reflexivity|].
  change (pop (x :: y :: l)) with (let (o, rest) := pop (y :: l) in (o, x :: rest)).
  rewrite IH by discriminate. reflexivity.
Qed.

Lemma or_empty_some (s : jsstring) : or_empty (Some s) = s.
Proof. destruct s; reflexivity. Qed.

(** A string without a separator is its own single piece. *)
Lemma split_single (n : nat) :
  forall s l, List.length s <= n -> split s = [l] -> l = s.
Proof.
  induction n as [|n IH]; intros s l Hn.
  - destruct s; [|simpl in Hn; lia]. simpl. congruence.
  - destruct s as [|x s]; [simpl; congruence|].
    rewrite split_cons. destruct s as [|d r]; [congruence|].
    destruct (N.eqb x LF && N.eqb d LF).
    + intros H. injection H as _ H. destruct (split_not_nil _ H).
    + destruct (split (d :: r)) as [|p ps] eqn:Ep; [destruct (split_not_nil _ Ep)|].
      simpl. intros H. injection H as <- ->.
      f_equal. apply IH; [simpl in *; lia | assumption].
Qed.

(** The key property of the frame decoder: splitting a text that arrives
    in two parts gives the pieces closed by the first part, followed by the
    split of what the first part left open extended with the second. *)
Lemma split_app_len (n : nat) :
  forall p c, List.length p <= n ->
    split (p ++ c) = removelast (split p) ++ split (last (split p) [] ++ c).
Proof.
  induction n as [|n IH]; intros p c Hn.
  - destruct p; [reflexivity | simpl in Hn; lia].
  - destruct p as [|x p]; [reflexivity|].
    destruct p as [|d r]; [reflexivity|].
    change ((x :: d :: r) ++ c) with (x :: d :: (r ++ c)).
    rewrite (split_cons x (d :: r ++ c)), (split_cons x (d :: r)).
    destruct (N.eqb x LF && N.eqb d LF) eqn:Esep.
    + rewrite (IH r c) by (simpl in Hn; lia).
      pose proof (split_not_nil r) as Hr.
      destruct (split r) as [|q qs]; [congruence|]. reflexivity.
    + change (d :: r ++ c) with ((d :: r) ++ c).
      rewrite (IH (d :: r) c) by (simpl in *; lia).
      destruct (split (d :: r)) as [|q qs] eqn:Eq; [destruct (split_not_nil _ Eq)|].
      destruct qs as [|q' qs'].
      * apply split_single with (n := List.length (d :: r)) in Eq; [|lia].
        subst q. simpl. rewrite Esep. reflexivity.
      * reflexivity.
Qed.

Lemma split_app (p c : jsstring) :
  split (p ++ c) = removelast (split p) ++ split (last (split p) [] ++ c).
Proof. apply split_app_len with (n := List.length p). lia. Qed.

(** The complete frames of a text that arrives in two parts. *)
Lemma complete_frames_app (p c : jsstring) :
  removelast (split (p ++ c)) =
  removelast (split p) ++ removelast (split (last (split p) [] ++ c)).
Proof.
  rewrite split_app. apply removelast_app. apply split_not_nil.
Qed.

(** What a split leaves open holds no separator. *)
Lemma split_dangling (s : jsstring) :
  split (last (split s) []) = [last (split s) []].
Proof.
  pose proof (split_app s []) as H. rewrite !app_nil_r in H.
  rewrite (app_removelast_last [] (split_not_nil s)) in H at 1.
  apply app_inv_head in H. symmetry. exact H.
Qed.

(* ================================================================== *)
(** * Facts about the decoder and the read loop *)
(* ================================================================== *)

Lemma decode_app (t : Utf8.TextDecoder) (a b : list byte) :
  Utf8.decode t (a ++ b) =
  let (t1, o1) := Utf8.decode t a in
  let (t2, o2) := Utf8.decode t1 b in (t2, o1 ++ o2).
Proof.
  revert t; induction a as [|x a IH]; intros t; simpl.
  - destruct (Utf8.decode t b); reflexivity.
  - destruct (Utf8.decode_byte t x) as [t1 o1]. rewrite IH.
    destruct (Utf8.decode t1 a) as [t2 o2].
    destruct (Utf8.decode t2 b) as [t3 o3].
    rewrite app_assoc. reflexivity.
Qed.

Section ReadLoop.
Context {E : Engine}.

Lemma decode_chunk_eq (t : Utf8.TextDecoder) (b : jsstring) (v : list byte) :
  AppStream.decode_chunk t b v =
  (fst (Utf8.decode t v),
   AppStream.dangling (b ++ snd (Utf8.decode t v)),
   AppStream.complete_frames (b ++ snd (Utf8.decode t v))).
Proof.
  unfold AppStream.decode_chunk, AppStream.dangling, AppStream.complete_frames.
  destruct (Utf8.decode t v) as [t' d]. cbv beta zeta. cbn [fst snd].
  rewrite (@pop_last jsstring [] (split (b ++ d)) (split_not_nil _)).
  rewrite or_empty_some. reflexivity.
Qed.

(** The frames emitted over a chunk sequence are the complete frames of
    the text decoded from the concatenated bytes. *)
Lemma frames_text (cs : list (list byte)) :
  forall t b, split b = [b] ->
    AppStream.frames t b cs =
    AppStream.complete_frames (b ++ snd (Utf8.decode t (List.concat cs))).
Proof.
  induction cs as [|v rest IH]; intros t b Hb.
  - simpl. rewrite app_nil_r. unfold AppStream.complete_frames. rewrite Hb.
    reflexivity.
  - cbn [AppStream.frames List.concat]. rewrite decode_chunk_eq, decode_app.
    destruct (Utf8.decode t v) as [t' d]. cbn [fst snd].
    rewrite IH by apply split_dangling.
    destruct (Utf8.decode t' (List.concat rest)) as [t'' d']. cbn [snd].
    unfold AppStream.complete_frames, AppStream.dangling.
    rewrite app_assoc. symmetry. apply complete_frames_app.
Qed.

Lemma frames_stream_text (cs : list (list byte)) :
  AppStream.frames Utf8.new_TextDecoder [] cs =
  AppStream.complete_frames (AppStream.stream_text cs).
Proof. apply (frames_text cs Utf8.new_TextDecoder []). reflexivity. Qed.

Lemma for_lines_app (target : jsstring) (l1 l2 : list jsstring) :
  forall w,
    AppStream.for_lines target (l1 ++ l2) w =
    match AppStream.for_lines target l1 w with
    | (AppStream.Return, w') => (AppStream.Return, w')
    | (AppStream.Continue, w') => AppStream.for_lines target l2 w'
    end.
Proof.
  induction l1 as [|l l1 IH]; intros w; simpl; [reflexivity|].
  destruct (AppStream.handle_line target l w) as [[|] w']; [apply IH | reflexivity].
Qed.

(** The read loop interprets, in order, the frames the decoder emits, and
    looks at how the stream ends only if none of them returns. *)
Lemma read_loop_frames (target : jsstring) (fin : ReadEnd) (cs : list (list byte)) :
  forall t b w,
    AppStream.read_loop target t b cs fin w =
    match AppStream.for_lines target (AppStream.frames t b cs) w with
    | (AppStream.Return, w') => (AppStream.Returned, w')
    | (AppStream.Continue, w') =>
        (match fin with
         | EndOfData => AppStream.Break
         | ReadFails e => AppStream.Threw e
         end, w')
    end.
Proof.
  induction cs as [|v rest IH]; intros t b w.
  - simpl. destruct fin; reflexivity.
  - cbn [AppStream.read_loop AppStream.frames].
    destruct (AppStream.decode_chunk t b v) as [[t' b'] lines].
    rewrite for_lines_app.
    destruct (AppStream.for_lines target lines w) as [[|] w']; [apply IH | reflexivity].
Qed.

(** Two streams with the same emitted frames and the same end are
    indistinguishable to [send]. *)
Lemma send_frames (clock : nat -> Stamp) (res : Response) (fin : ReadEnd)
    (cs1 cs2 : list (list byte)) (w : World) :
  AppStream.frames Utf8.new_TextDecoder [] cs1 =
  AppStream.frames Utf8.new_TextDecoder [] cs2 ->
  AppStream.send {| stamps := clock; outcome := Resolved (with_reader res cs1 fin) |} w =
  AppStream.send {| stamps := clock; outcome := Resolved (with_reader res cs2 fin) |} w.
Proof.
  intros Hf. unfold AppStream.send.
  destruct (negb (nonempty (trim (input (ui w)))) || isSending (ui w)); [reflexivity|].
  unfold AppStream.try_block, AppStream.streaming, single_shot, report, begin_send,
    addMessage.
  cbn [outcome stamps ok with_reader content_type body chunks ending json].
  destruct (negb (ok res)); [reflexivity|].
  destruct (includes EVENT_STREAM (or_empty (content_type res))); [|reflexivity].
  rewrite !read_loop_frames, Hf. reflexivity.
Qed.

End ReadLoop.

(* ================================================================== *)
(** * The frame decoder *)
(* ================================================================== *)

Lemma stream_text_whole (cs : list (list byte)) :
  AppStream.stream_text [List.concat cs] = AppStream.stream_text cs.
Proof.
  unfold AppStream.stream_text. cbn [List.concat]. rewrite app_nil_r. reflexivity.
Qed.

(** C1.  However the bytes of a body are cut into chunks, the read loop
    hands the interpreter the same sequence of complete frames as when
    the whole body arrives as one chunk, and [send] ends in the same
    world: the same transcript, hence the same content of the
    placeholder message, the same error banner and busy flag.  This holds
    for every body, whatever the response and however the stream ends. *)
Theorem C1_frame_decoder_split_invariant {E : Engine} (cs : list (list byte)) :
  AppStream.frames Utf8.new_TextDecoder [] cs =
  AppStream.frames Utf8.new_TextDecoder [] [List.concat cs]
  /\
  forall (clock : nat -> Stamp) (res : Response) (fin : ReadEnd) (w : World),
    AppStream.send
      {| stamps := clock; outcome := Resolved (with_reader res cs fin) |} w =
    AppStream.send
      {| stamps := clock;
         outcome := Resolved (with_reader res [List.concat cs] fin) |} w.
Proof.
  assert (Hf : AppStream.frames Utf8.new_TextDecoder [] cs =
               AppStream.frames Utf8.new_TextDecoder [] [List.concat cs]).
  { rewrite !frames_stream_text, stream_text_whole. reflexivity. }
  split; [exact Hf|]. intros clock res fin w. apply send_frames. exact Hf.
Qed.

(** C2.  When the stream ends, the text decoded so far splits into the
    frames that were emitted followed by one last piece, the content of
    the buffer, which is never emitted.  The outcome of [send] is
    determined by the complete frames alone: two streams with the same
    complete frames end in the same world whatever each leaves in the
    buffer. *)
Theorem C2_stream_end_drops_buffer {E : Engine} (cs : list (list byte)) :
  split (AppStream.stream_text cs) =
  AppStream.frames Utf8.new_TextDecoder [] cs ++
  [AppStream.dangling (AppStream.stream_text cs)]
  /\
  forall (cs' : list (list byte)),
    AppStream.complete_frames (AppStream.stream_text cs') =
    AppStream.complete_frames (AppStream.stream_text cs) ->
    forall (clock : nat -> Stamp) (res : Response) (w : World),
      AppStream.send
        {| stamps := clock; outcome := Resolved (with_reader res cs' EndOfData) |} w =
      AppStream.send
        {| stamps := clock; outcome := Resolved (with_reader res cs EndOfData) |} w.
Proof.
  split.
  - rewrite frames_stream_text.
    apply app_removelast_last. apply split_not_nil.
  - intros cs' H clock res w. apply send_frames.
    rewrite !frames_stream_text. exact H.
Qed.

Lemma C2_stream_end_drops_buffer_witness :
  AppStream.send
    {| stamps := Sample.clock;
       outcome := Resolved (with_reader (Sample.event_stream [])
                    [Utf8.ascii_bytes Sample.TRUNCATED_BODY] EndOfData) |}
    Sample.idle =
  AppStream.send
    {| stamps := Sample.clock;
       outcome := Resolved (with_reader (Sample.event_stream [])
                    [Utf8.ascii_bytes (jslit "data: {'token':'Hel'}\n\n")]
                    EndOfData) |}
    Sample.idle.
Proof.
  apply (proj2 (C2_stream_end_drops_buffer (E := DecimalEngine.engine)
                  [Utf8.ascii_bytes (jslit "data: {'token':'Hel'}\n\n")])
               [Utf8.ascii_bytes Sample.TRUNCATED_BODY]).
  vm_compute. reflexivity.
Defined.

(* ================================================================== *)
(** * The completion sentinel is not JSON *)
(* ================================================================== *)

Lemma trimStart_decompose (s : jsstring) :
  exists ws, s = ws ++ trimStart s /\ Forall (fun c => is_trim_space c = true) ws.
Proof.
  induction s as [|c s [ws [Hs Hws]]].
  - exists []. split; [reflexivity | constructor].
  - simpl. destruct (is_trim_space c) eqn:Ec.
    + exists (c :: ws). split; [simpl; congruence | constructor; assumption].
    + exists []. split; [reflexivity | constructor].
Qed.

Lemma trim_decompose (s : jsstring) :
  exists ws ws', s = ws ++ trim s ++ ws' /\
                 Forall (fun c => is_trim_space c = true) ws.
Proof.
  destruct (trimStart_decompose s) as [ws [Hs Hws]].
  destruct (trimStart_decompose (rev (trimStart s))) as [ws' [Hr _]].
  exists ws, (rev ws'). split; [|exact Hws].
  unfold trim, trimEnd. rewrite <- rev_app_distr, <- Hr, rev_involutive. exact Hs.
Qed.

Section Sentinel.
Context {E : Engine}.

Lemma lex_idle_space (c : char16) :
  is_trim_space c = true ->
  lex_idle c = if is_json_space c then Some (LIdle, []) else None.
Proof.
  intros H. unfold lex_idle. destruct (is_json_space c) eqn:Ej; [reflexivity|].
  unfold is_trim_space in H. unfold is_json_space in Ej.
  rewrite !orb_true_iff, andb_true_iff, !N.eqb_eq, !N.leb_le in H.
  rewrite !orb_false_iff, !N.eqb_neq in Ej.
  repeat match goal with
  | |- context [N.eqb c ?k] =>
      replace (N.eqb c k) with false by (symmetry; apply N.eqb_neq; lia)
  end.
  unfold is_digit19.
  destruct (N.leb_spec 49 c); [|reflexivity].
  destruct (N.leb_spec c 57); [lia | reflexivity].
Qed.

Lemma run_after_spaces (ws rest : jsstring) (p : pstate) :
  Forall (fun c => is_trim_space c = true) ws ->
  run LIdle p (ws ++ rest) = None \/ run LIdle p (ws ++ rest) = run LIdle p rest.
Proof.
  induction 1 as [|c ws Hc _ IH]; [right; reflexivity|].
  cbn [app run lex_step]. rewrite (lex_idle_space c Hc).
  destruct (is_json_space c); [|left; reflexivity].
  cbn [parse_tokens]. exact IH.
Qed.

(** A text whose trimmed form is the sentinel [[DONE]] is not JSON, so a
    frame that parses is never the sentinel. *)
Lemma sentinel_not_json (s : jsstring) :
  trim s = DONE -> parse s = None.
Proof.
  intros H. destruct (trim_decompose s) as [ws [ws' [Hs Hws]]].
  rewrite H in Hs. rewrite Hs. unfold parse.
  destruct (@run_after_spaces ws (DONE ++ ws') ([], EValue) Hws) as [-> | ->];
    reflexivity.
Qed.

Lemma parsed_not_sentinel (s : jsstring) (data : value) :
  parse s = Some data -> str_eqb (trim s) DONE = false.
Proof.
  intros Hp. destruct (str_eqb (trim s) DONE) eqn:Et; [|reflexivity].
  apply str_eqb_eq in Et. apply sentinel_not_json in Et. congruence.
Qed.

End Sentinel.

(* ================================================================== *)
(** * The event interpreter *)
(* ================================================================== *)

Section Interpreter.
Context {E : Engine}.

Lemma map_content_const (target : jsstring) (c : value) (msgs : list ChatMessage) :
  map_content target (fun _ => Some c) msgs = Some (overwrite target c msgs).
Proof.
  induction msgs as [|m msgs IH]; [reflexivity|].
  cbn [map_content overwrite map]. fold (overwrite target c msgs). rewrite IH.
  destruct (str_eqb (id m) target); reflexivity.
Qed.

Lemma updateMessage_const (target : jsstring) (c : value) (w : World) :
  updateMessage target (fun _ => Some c) w = setMessages (overwrite target c) w.
Proof. unfold updateMessage. rewrite map_content_const. reflexivity. Qed.

Lemma handle_line_sentinel (target payload : jsstring) (w : World) :
  str_eqb (trim payload) DONE = true ->
  AppStream.handle_line target (DATA_PREFIX ++ payload) w =
  (AppStream.Return, setIsSending false w).
Proof.
  intros Ed. unfold AppStream.handle_line.
  change (startsWith DATA_PREFIX (DATA_PREFIX ++ payload)) with true.
  change (slice 6 (DATA_PREFIX ++ payload)) with payload.
  cbv iota. rewrite Ed. reflexivity.
Qed.

Lemma handle_line_parsed (target payload : jsstring) (w : World) :
  str_eqb (trim payload) DONE = false ->
  AppStream.handle_line target (DATA_PREFIX ++ payload) w =
  match parse payload with
  | None => (AppStream.Continue, w)
  | Some data =>
      match get data (jslit "error") with
      | inl _ => (AppStream.Continue, w)
      | inr err =>
          if truthy err then
            match err with
            | Some v =>
                match template (jslit "Error: ") v with
                | None => (AppStream.Continue, setError v w)
                | Some s =>
                    (AppStream.Return,
                     setIsSending false
                       (updateMessage target (fun _ => Some (JStr s)) (setError v w)))
                end
            | None => (AppStream.Continue, w)
            end
          else
            match get data (jslit "token") with
            | inr (Some t) =>
                if truthy (Some t) then
                  (AppStream.Continue,
                   updateMessage target (fun prev => js_add prev t) w)
                else (AppStream.Continue, w)
            | _ => (AppStream.Continue, w)
            end
      end
  end.
Proof.
  intros Hd. unfold AppStream.handle_line.
  change (startsWith DATA_PREFIX (DATA_PREFIX ++ payload)) with true.
  change (slice 6 (DATA_PREFIX ++ payload)) with payload.
  cbv iota. rewrite Hd.
  destruct (parse payload) as [data|]; [|reflexivity].
  destruct (get data (jslit "error")) as [e|err]; [reflexivity|].
  destruct err as [v|].
  - destruct (truthy (Some v)); [reflexivity|].
    destruct (get data (jslit "token")) as [e|[t|]]; reflexivity.
  - cbn [truthy]. destruct (get data (jslit "token")) as [e|[t|]]; reflexivity.
Qed.

End Interpreter.

(** C5.  A data frame whose payload parses to a value with a truthy
    [error] that converts to a string (every non-empty string does, as
    itself) ends the read loop by a [return]: frames that follow it, in
    the same chunk or in later ones, are not interpreted, and the end of
    the stream is not awaited.  In the world it leaves, the content of the
    placeholder message is replaced by ["Error: "] followed by the
    message, whatever it held before, the error banner holds the error
    and the busy flag is false. *)
Theorem C5_error_event_overwrites_and_returns {E : Engine}
    (target payload : jsstring) (data v : value) (s : jsstring)
    (pre post : list jsstring)
    (t : Utf8.TextDecoder) (b : jsstring) (cs : list (list byte)) (fin : ReadEnd)
    (w w1 : World) :
  parse payload = Some data ->
  get data (jslit "error") = inr (Some v) ->
  truthy (Some v) = true ->
  to_string v = Some s ->
  AppStream.frames t b cs = pre ++ (DATA_PREFIX ++ payload) :: post ->
  AppStream.for_lines target pre w = (AppStream.Continue, w1) ->
  exists w',
    AppStream.read_loop target t b cs fin w = (AppStream.Returned, w') /\
    messages (ui w') =
      overwrite target (JStr (jslit "Error: " ++ s)) (messages (ui w1)) /\
    error (ui w') = v /\
    isSending (ui w') = false /\
    input (ui w') = input (ui w1) /\
    requests w' = requests w1.
Proof.
  intros Hp Hg Ht Hs Hf Hpre.
  rewrite read_loop_frames, Hf, for_lines_app, Hpre.
  cbn [AppStream.for_lines].
  rewrite (handle_line_parsed target payload w1 (parsed_not_sentinel _ _ Hp)).
  rewrite Hp, Hg, Ht. unfold template. rewrite Hs. cbn [option_map].
  rewrite updateMessage_const.
  eexists. split; [reflexivity|]. cbn. repeat split; reflexivity.
Qed.

Lemma C5_error_event_overwrites_and_returns_witness :
  exists w',
    AppStream.read_loop (E := DecimalEngine.engine) (jslit "m1")
      Utf8.new_TextDecoder [] [Utf8.ascii_bytes Sample.BOOM_BODY] EndOfData
      (snd (addMessage {| stamps := Sample.clock; outcome := Rejected (OtherThrown []) |}
              assistant (JStr (jslit "partial answer")) Sample.busy))
    = (AppStream.Returned, w') /\
    messages (ui w') =
      overwrite (jslit "m1") (JStr (jslit "Error: " ++ jslit "boom"))
        (messages (ui (snd (addMessage
           {| stamps := Sample.clock; outcome := Rejected (OtherThrown []) |}
           assistant (JStr (jslit "partial answer")) Sample.busy)))) /\
    error (ui w') = JStr (jslit "boom") /\
    isSending (ui w') = false /\
    input (ui w') = jslit "again" /\
    requests w' = [].
Proof.
  apply (C5_error_event_overwrites_and_returns (E := DecimalEngine.engine)
           (jslit "m1") (jslit "{'error':'boom'}")
           (JObj [(jslit "error", JStr (jslit "boom"))]) (JStr (jslit "boom"))
           (jslit "boom") [] [jslit "data: {'token':'late'}"]);
    reflexivity.
Defined.

(** C7.  The sentinel is tested before the payload is parsed, so the
    frames parsed as JSON are those whose payload does not trim to
    [[DONE]].  Such a data frame whose payload is not valid JSON, or
    parses to [null], or to a value whose [error] and [token] are both
    absent or falsy, is skipped: the world (transcript, placeholder
    content, error banner, busy flag, requests) is unchanged and the
    loop goes on with the frames that follow. *)
Theorem C7_unrecognised_frame_is_skipped {E : Engine}
    (target payload : jsstring) (w : World) :
  str_eqb (trim payload) DONE = false ->
  AppStream.unrecognised (parse payload) = true ->
  AppStream.handle_line target (DATA_PREFIX ++ payload) w = (AppStream.Continue, w)
  /\
  forall rest : list jsstring,
    AppStream.for_lines target ((DATA_PREFIX ++ payload) :: rest) w =
    AppStream.for_lines target rest w.
Proof.
  intros Hd Hu.
  assert (H : AppStream.handle_line target (DATA_PREFIX ++ payload) w =
              (AppStream.Continue, w)).
  { rewrite (handle_line_parsed target payload w Hd).
    unfold AppStream.unrecognised in Hu.
    destruct (parse payload) as [data|]; [|reflexivity].
    destruct data; try reflexivity; cbn [get] in *;
      try (cbn [truthy]; reflexivity).
    apply andb_true_iff in Hu. destruct Hu as [He Ht].
    apply negb_true_iff in He, Ht. rewrite He.
    destruct (lookup (jslit "token") fields) as [t|]; [|reflexivity].
    rewrite Ht. reflexivity. }
  split; [exact H|]. intros rest. cbn [AppStream.for_lines]. rewrite H. reflexivity.
Qed.

Lemma C7_unrecognised_frame_is_skipped_witness :
  AppStream.handle_line (E := DecimalEngine.engine) (jslit "m1")
    (DATA_PREFIX ++ jslit "{'token': 'unterminated") Sample.busy =
    (AppStream.Continue, Sample.busy)
  /\
  AppStream.for_lines (E := DecimalEngine.engine) (jslit "m1")
    [DATA_PREFIX ++ jslit "{'token': 'unterminated"; jslit "data: {'token':'x'}"]
    Sample.busy =
  AppStream.for_lines (jslit "m1") [jslit "data: {'token':'x'}"] Sample.busy.
Proof.
  destruct (C7_unrecognised_frame_is_skipped (E := DecimalEngine.engine)
              (jslit "m1") (jslit "{'token': 'unterminated") Sample.busy
              eq_refl eq_refl) as [H1 H2].
  split; [exact H1 | exact (H2 [jslit "data: {'token':'x'}"])].
Defined.

(* ================================================================== *)
(** * The busy flag *)
(* ================================================================== *)

Section BusyFlag.
Context {E : Engine}.

Lemma handle_line_return (target line : jsstring) (w w' : World) :
  AppStream.handle_line target line w = (AppStream.Return, w') ->
  isSending (ui w') = false.
Proof.
  unfold AppStream.handle_line.
  break_matches; intros H; inversion H; reflexivity.
Qed.

Lemma for_lines_return (target : jsstring) (lines : list jsstring) :
  forall w w',
    AppStream.for_lines target lines w = (AppStream.Return, w') ->
    isSending (ui w') = false.
Proof.
  induction lines as [|l lines IH]; intros w w'; cbn [AppStream.for_lines].
  - discriminate.
  - destruct (AppStream.handle_line target l w) as [[|] w1] eqn:Hl.
    + apply IH.
    + intros H; inversion H; subst. exact (handle_line_return _ _ _ _ Hl).
Qed.

Lemma read_loop_returned (target : jsstring) (t : Utf8.TextDecoder) (b : jsstring)
    (cs : list (list byte)) (fin : ReadEnd) (w w' : World) :
  AppStream.read_loop target t b cs fin w = (AppStream.Returned, w') ->
  isSending (ui w') = false.
Proof.
  rewrite read_loop_frames.
  destruct (AppStream.for_lines target (AppStream.frames t b cs) w) as [[|] w1] eqn:Hf.
  - destruct fin; discriminate.
  - intros H; inversion H; subst. exact (for_lines_return _ _ _ _ Hf).
Qed.

Lemma try_block_completes (env : Env) (trimmed : jsstring) (doc : value)
    (w w' : World) :
  AppStream.try_block env trimmed doc w = (None, w') ->
  isSending (ui w') = false.
Proof.
  unfold AppStream.try_block.
  destruct (outcome env) as [e|res]; [discriminate|].
  destruct (negb (ok res)); [discriminate|].
  destruct (includes EVENT_STREAM (or_empty (content_type res))).
  - unfold AppStream.streaming.
    destruct (addMessage env assistant (JStr []) _) as [pid w1].
    destruct (body res) as [reader|]; [|discriminate].
    destruct (AppStream.read_loop pid Utf8.new_TextDecoder [] (chunks reader)
                (ending reader) w1) as [[| |e] w2] eqn:Hl;
      intros H; inversion H; subst; try reflexivity.
    exact (read_loop_returned _ _ _ _ _ _ _ Hl).
  - destruct (single_shot env res _) as [[e|] w2];
      intros H; inversion H; reflexivity.
Qed.

End BusyFlag.

(** C4.  A [send] that passes the guard (the trimmed input is not empty
    and the busy flag is not set) finishes with the busy flag false,
    whatever the environment does: the request is rejected, the status is
    not a success, the body is missing or its stream fails, a body or a
    frame does not parse, the answer arrives in one piece, the stream
    ends, or a frame carries the sentinel or an error.  This holds for
    both versions of the component. *)
Theorem C4_busy_flag_cleared_on_every_exit {E : Engine} (env : Env) (w : World) :
  nonempty (trim (input (ui w))) = true ->
  isSending (ui w) = false ->
  isSending (ui (AppStream.send env w)) = false /\
  isSending (ui (App.send env w)) = false.
Proof.
  intros Hn Hb. split.
  - unfold AppStream.send. rewrite Hn, Hb. cbn [negb orb].
    destruct (AppStream.try_block env _ _ _) as [[e|] w5] eqn:Ht.
    + reflexivity.
    + exact (try_block_completes _ _ _ _ _ Ht).
  - unfold App.send. rewrite Hn, Hb. cbn [negb orb]. reflexivity.
Qed.

Lemma C4_busy_flag_cleared_on_every_exit_witness :
  isSending (ui (AppStream.send (E := DecimalEngine.engine)
      {| stamps := Sample.clock;
         outcome := Resolved (Sample.event_stream Sample.BOOM_BODY) |}
      Sample.idle)) = false /\
  isSending (ui (App.send (E := DecimalEngine.engine)
      {| stamps := Sample.clock;
         outcome := Resolved (Sample.event_stream Sample.BOOM_BODY) |}
      Sample.idle)) = false.
Proof.
  apply (C4_busy_flag_cleared_on_every_exit (E := DecimalEngine.engine));
    reflexivity.
Defined.

(** C9.  While the busy flag is set, [send] changes nothing: the
    transcript, the input text, the error banner and the busy flag are
    as before and no request is issued.  This holds for both versions of
    the component. *)
Theorem C9_send_while_busy_is_noop {E : Engine} (env : Env) (w : World) :
  isSending (ui w) = true ->
  AppStream.send env w = w /\ App.send env w = w.
Proof.
  intros Hb. unfold AppStream.send, App.send. rewrite Hb, orb_true_r.
  split; reflexivity.
Qed.

Lemma C9_send_while_busy_is_noop_witness :
  AppStream.send (E := DecimalEngine.engine)
    {| stamps := Sample.clock;
       outcome := Resolved (Sample.event_stream Sample.HELLO_BODY) |}
    Sample.busy = Sample.busy /\
  App.send (E := DecimalEngine.engine)
    {| stamps := Sample.clock;
       outcome := Resolved (Sample.event_stream Sample.HELLO_BODY) |}
    Sample.busy = Sample.busy.
Proof.
  apply (C9_send_while_busy_is_noop (E := DecimalEngine.engine)). reflexivity.
Defined.

(* ================================================================== *)
(** * Clearing the chat *)
(* ================================================================== *)

(** C3 as amended.  After [clearChat] the transcript is empty, the error
    banner is [null] and the input text is empty, whatever the state
    before; the busy flag keeps the value it had, and so do the document
    reference and the record of requests. *)
Theorem C3_clearChat_resets_transcript_banner_input {E : Engine} (w : World) :
  messages (ui (clearChat w)) = [] /\
  error (ui (clearChat w)) = JNull /\
  input (ui (clearChat w)) = [] /\
  isSending (ui (clearChat w)) = isSending (ui w) /\
  documentId (ui (clearChat w)) = documentId (ui w) /\
  requests (clearChat w) = requests w.
Proof. repeat split; reflexivity. Qed.

(** C3 as stated fails: [clearChat] does not touch the busy flag, so a
    chat cleared while a request is in flight is still busy. *)
Lemma C3_busy_flag_counterexample :
  isSending (ui Sample.busy) = true /\
  isSending (ui (clearChat (E := DecimalEngine.engine) Sample.busy)) = true.
Proof. split; reflexivity. Qed.

(* ================================================================== *)
(** * The single-shot answer *)
(* ================================================================== *)

Lemma get_defined {E : Engine} (data : value) (k : jsstring) :
  data <> JNull <-> exists v, get data k = inr v.
Proof.
  split.
  - intros H. destruct data; cbn; eauto. congruence.
  - intros [v Hv] ->. discriminate.
Qed.

(** C8 as amended.  For a successful response whose body decodes as JSON
    to a value other than [null] (reading [answer] then does not throw,
    see [get_defined]) and whose content type does not name an event
    stream, [send] appends after the user message exactly one assistant
    message.  Its content is [data.answer ?? fallback]: the value of
    [answer] when that is present and not [null], the fixed fallback
    string otherwise.  The error banner stays [null] and the busy flag
    ends false.  The body stream of the response is not read, so no frame
    is decoded: whatever stream the response carries, the outcome is the
    same.  The single-shot version behaves so too. *)
Theorem C8_single_shot_answer {E : Engine} (env : Env) (res : Response)
    (data : value) (answer : option value) (w : World) :
  nonempty (trim (input (ui w))) = true ->
  isSending (ui w) = false ->
  outcome env = Resolved res ->
  ok res = true ->
  includes EVENT_STREAM (or_empty (content_type res)) = false ->
  json res = inr data ->
  get data (jslit "answer") = inr answer ->
  let asked :=
    {| id := stamp_id (stamps env (stamps_used w)); role := user;
       content := JStr (trim (input (ui w)));
       createdAt := stamp_time (stamps env (stamps_used w)) |} in
  let reply :=
    {| id := stamp_id (stamps env (S (stamps_used w))); role := assistant;
       content := nullish answer (JStr NO_ANSWER);
       createdAt := stamp_time (stamps env (S (stamps_used w))) |} in
  (messages (ui (AppStream.send env w)) = messages (ui w) ++ [asked; reply] /\
   error (ui (AppStream.send env w)) = JNull /\
   isSending (ui (AppStream.send env w)) = false)
  /\
  (forall (cs : list (list byte)) (fin : ReadEnd),
     AppStream.send
       {| stamps := stamps env; outcome := Resolved (with_reader res cs fin) |} w =
     AppStream.send env w)
  /\
  (messages (ui (App.send env w)) = messages (ui w) ++ [asked; reply] /\
   error (ui (App.send env w)) = JNull /\
   isSending (ui (App.send env w)) = false)
  /\
  (forall v, answer = Some v -> v <> JNull -> content reply = v) /\
  (answer = None \/ answer = Some JNull -> content reply = JStr NO_ANSWER).
Proof.
  intros Hn Hb Ho Hok Hc Hj Hg asked reply. split; [|split; [|split; [|split]]].
  - unfold AppStream.send, AppStream.try_block, single_shot.
    rewrite Hn, Hb, Ho, Hok, Hc, Hj, Hg. cbn.
    rewrite <- app_assoc. repeat split; reflexivity.
  - intros cs fin.
    unfold AppStream.send, AppStream.try_block, single_shot, report, begin_send,
      addMessage.
    cbn [stamps outcome]. rewrite Ho.
    cbn [ok content_type json with_reader]. rewrite Hok, Hc. reflexivity.
  - unfold App.send, App.try_block, single_shot.
    rewrite Hn, Hb, Ho, Hok, Hj, Hg. cbn.
    rewrite <- app_assoc. repeat split; reflexivity.
  - intros v -> Hv. destruct v; try reflexivity. congruence.
  - intros [-> | ->]; reflexivity.
Qed.

Lemma C8_single_shot_answer_witness :
  let env := {| stamps := Sample.clock;
                outcome := Resolved (Sample.json_body (jslit "{'answer':'42'}")) |} in
  let asked :=
    {| id := jslit "m0"; role := user; content := JStr (jslit "What is RAG?");
       createdAt := 1700000000000 |} in
  let reply :=
    {| id := jslit "m1"; role := assistant; content := JStr (jslit "42");
       createdAt := 1700000000001 |} in
  (messages (ui (AppStream.send (E := DecimalEngine.engine) env Sample.idle)) =
     [] ++ [asked; reply] /\
   error (ui (AppStream.send (E := DecimalEngine.engine) env Sample.idle)) = JNull /\
   isSending (ui (AppStream.send (E := DecimalEngine.engine) env Sample.idle)) = false)
  /\
  (messages (ui (App.send (E := DecimalEngine.engine) env Sample.idle)) =
     [] ++ [asked; reply] /\
   error (ui (App.send (E := DecimalEngine.engine) env Sample.idle)) = JNull /\
   isSending (ui (App.send (E := DecimalEngine.engine) env Sample.idle)) = false).
Proof.
  intros env asked reply.
  destruct (C8_single_shot_answer (E := DecimalEngine.engine) env
              (Sample.json_body (jslit "{'answer':'42'}"))
              (JObj [(jslit "answer", JStr (jslit "42"))])
              (Some (JStr (jslit "42"))) Sample.idle
              eq_refl eq_refl eq_refl eq_refl eq_refl eq_refl eq_refl)
    as (Hs & _ & Ha & _).
  split; [exact Hs | exact Ha].
Defined.

(** C8 as stated fails on a successful response whose body is not JSON:
    [res.json()] rejects, and the one assistant message appended is the
    failure report, not the answer and not the fallback string; the error
    banner is set.  Both versions behave so. *)
Lemma C8_unparsable_body_counterexample :
  let res := http_response (E := DecimalEngine.engine) 200
               (Some (jslit "text/html"))
               [Utf8.ascii_bytes (jslit "<html>Bad gateway</html>")] in
  let env := {| stamps := Sample.clock; outcome := Resolved res |} in
  let failure :=
    jslit "Unexpected token in JSON: <html>Bad gateway</html>" in
  ok res = true /\
  includes EVENT_STREAM (or_empty (content_type res)) = false /\
  map content (messages (ui (AppStream.send env Sample.idle))) =
    [JStr (jslit "What is RAG?"); JStr (failure_text failure)] /\
  map content (messages (ui (App.send env Sample.idle))) =
    [JStr (jslit "What is RAG?"); JStr (failure_text failure)] /\
  failure_text failure <> NO_ANSWER /\
  error (ui (AppStream.send env Sample.idle)) = JStr failure /\
  error (ui (App.send env Sample.idle)) = JStr failure.
Proof.
  cbv zeta. repeat split; try reflexivity. vm_compute. discriminate.
Qed.

(* ================================================================== *)
(** * What the read loop leaves alone *)
(* ================================================================== *)

Section Stability.
Context {E : Engine}.

Lemma map_content_keeps (target : jsstring) (f : value -> option value)
    (m : ChatMessage) :
  str_eqb (id m) target = false ->
  forall msgs msgs' k,
    map_content target f msgs = Some msgs' ->
    nth_error msgs k = Some m -> nth_error msgs' k = Some m.
Proof.
  intros Hm. induction msgs as [|x msgs IH]; intros msgs' k Hmap Hk.
  - destruct k; discriminate.
  - cbn [map_content] in Hmap.
    destruct (map_content target f msgs) as [r|] eqn:Er.
    + destruct k as [|k].
      * cbn in Hk. injection Hk as ->. rewrite Hm in Hmap.
        injection Hmap as <-. reflexivity.
      * cbn in Hk.
        destruct (if str_eqb (id x) target then _ else Some x) as [y|];
          [|discriminate].
        injection Hmap as <-. cbn. exact (IH r k eq_refl Hk).
    + destruct (if str_eqb (id x) target then _ else Some x); discriminate.
Qed.

Lemma stable_refl (target : jsstring) (w : World) : stable target w w.
Proof. split; [reflexivity | auto]. Qed.

Lemma stable_trans (target : jsstring) (w1 w2 w3 : World) :
  stable target w1 w2 -> stable target w2 w3 -> stable target w1 w3.
Proof.
  intros [R1 K1] [R2 K2]. split; [congruence|].
  intros k m Hm Hk. apply K2; [exact Hm|]. apply K1; assumption.
Qed.

Lemma stable_updateMessage (target : jsstring) (f : value -> option value)
    (w w' : World) :
  stable target w w' -> stable target w (updateMessage target f w').
Proof.
  intros H. apply (stable_trans target w w' _ H). unfold updateMessage.
  destruct (map_content target f (messages (ui w'))) as [msgs|] eqn:Em.
  - split; [reflexivity|]. intros k m Hm Hk. cbn.
    exact (map_content_keeps target f m Hm _ _ k Em Hk).
  - split; [reflexivity | auto].
Qed.

Lemma stable_setError (target : jsstring) (v : value) (w w' : World) :
  stable target w w' -> stable target w (setError v w').
Proof. intros [R K]. split; [exact R | exact K]. Qed.

Lemma stable_setIsSending (target : jsstring) (b : bool) (w w' : World) :
  stable target w w' -> stable target w (setIsSending b w').
Proof. intros [R K]. split; [exact R | exact K]. Qed.

#[local] Hint Resolve stable_refl stable_updateMessage stable_setError
  stable_setIsSending : stable.

Lemma stable_handle_line (target line : jsstring) (w : World) :
  stable target w (snd (AppStream.handle_line target line w)).
Proof.
  unfold AppStream.handle_line. break_matches; cbn [snd]; auto with stable.
Qed.

Lemma stable_for_lines (target : jsstring) (lines : list jsstring) :
  forall w, stable target w (snd (AppStream.for_lines target lines w)).
Proof.
  induction lines as [|l lines IH]; intros w; cbn [AppStream.for_lines].
  - apply stable_refl.
  - pose proof (stable_handle_line target l w) as H.
    destruct (AppStream.handle_line target l w) as [[|] w1]; cbn [snd] in *.
    + eapply stable_trans; [exact H | apply IH].
    + exact H.
Qed.

Lemma stable_read_loop (target : jsstring) (t : Utf8.TextDecoder) (b : jsstring)
    (cs : list (list byte)) (fin : ReadEnd) (w : World) :
  stable target w (snd (AppStream.read_loop target t b cs fin w)).
Proof.
  rewrite read_loop_frames.
  pose proof (stable_for_lines target (AppStream.frames t b cs) w) as H.
  destruct (AppStream.for_lines target (AppStream.frames t b cs) w) as [[|] w1];
    exact H.
Qed.

Lemma stable_addMessage (target : jsstring) (env : Env) (r : Role) (c : value)
    (w w' : World) :
  stable target w w' -> stable target w (snd (addMessage env r c w')).
Proof.
  intros H. apply (stable_trans target w w' _ H).
  split; [reflexivity|]. intros k m _ Hk. cbn.
  rewrite nth_error_app1; [exact Hk|].
  apply nth_error_Some. congruence.
Qed.

#[local] Hint Resolve stable_addMessage : stable.

Lemma stable_report (target : jsstring) (env : Env) (e : Thrown) (w w' : World) :
  stable target w w' -> stable target w (report env e w').
Proof. intros H. unfold report. auto with stable. Qed.

Lemma stable_single_shot (target : jsstring) (env : Env) (res : Response)
    (w : World) :
  stable target w (snd (single_shot env res w)).
Proof. unfold single_shot. break_matches; cbn [snd]; auto with stable. Qed.

Lemma stable_streaming (env : Env) (res : Response) (w : World) :
  stable (stamp_id (stamps env (stamps_used w))) w
         (snd (AppStream.streaming env res w)).
Proof.
  unfold AppStream.streaming.
  pose proof (stable_addMessage (stamp_id (stamps env (stamps_used w))) env
                assistant (JStr []) w w (stable_refl _ _)) as Ha.
  destruct (addMessage env assistant (JStr []) w) as [pid w1] eqn:Eadd.
  assert (Hpid : pid = stamp_id (stamps env (stamps_used w))).
  { unfold addMessage in Eadd. injection Eadd as <- _. reflexivity. }
  subst pid. cbn [snd] in Ha.
  destruct (body res) as [reader|]; [|exact Ha].
  pose proof (stable_read_loop (stamp_id (stamps env (stamps_used w)))
                Utf8.new_TextDecoder [] (chunks reader) (ending reader) w1) as Hl.
  pose proof (stable_trans _ _ _ _ Ha Hl) as H.
  destruct (AppStream.read_loop _ _ _ _ _ w1) as [[| |e] w2]; cbn [snd] in *;
    auto with stable.
Qed.

(** The [try] block of the streaming version issues exactly one request
    and keeps every message whose id is not the one the placeholder would
    get. *)
Lemma try_block_stream_effect (env : Env) (trimmed : jsstring) (doc : value)
    (w : World) :
  let req := {| request_body :=
                  JObj [(jslit "message", JStr trimmed);
                        (jslit "documentId", doc);
                        (jslit "stream", JBool false)] |} in
  stable (stamp_id (stamps env (stamps_used w))) (fetch req w)
         (snd (AppStream.try_block env trimmed doc w)).
Proof.
  intros req. unfold AppStream.try_block. fold req.
  destruct (outcome env) as [e|res]; [apply stable_refl|].
  destruct (negb (ok res)); [apply stable_refl|].
  destruct (includes EVENT_STREAM (or_empty (content_type res))).
  - exact (stable_streaming env res (fetch req w)).
  - pose proof (stable_single_shot (stamp_id (stamps env (stamps_used w))) env res
                  (fetch req w)) as Hs.
    destruct (single_shot env res (fetch req w)) as [[e|] w2]; cbn [snd] in *;
      auto with stable.
Qed.

Lemma try_block_single_effect (target : jsstring) (env : Env) (trimmed : jsstring)
    (doc : value) (w : World) :
  let req := {| request_body :=
                  JObj [(jslit "message", JStr trimmed);
                        (jslit "documentId", doc)] |} in
  stable target (fetch req w) (snd (App.try_block env trimmed doc w)).
Proof.
  intros req. unfold App.try_block. fold req.
  destruct (outcome env) as [e|res]; [apply stable_refl|].
  destruct (negb (ok res)); [apply stable_refl|].
  apply stable_single_shot.
Qed.

Lemma begin_send_messages (env : Env) (trimmed : jsstring) (w : World) :
  messages (ui (begin_send env trimmed w)) =
  messages (ui w) ++
  [{| id := stamp_id (stamps env (stamps_used w)); role := user;
      content := JStr trimmed;
      createdAt := stamp_time (stamps env (stamps_used w)) |}].
Proof. reflexivity. Qed.

Lemma AppStream_send_stable (env : Env) (w : World) :
  nonempty (trim (input (ui w))) = true ->
  isSending (ui w) = false ->
  stable (stamp_id (stamps env (S (stamps_used w))))
    (fetch {| request_body :=
                JObj [(jslit "message", JStr (trim (input (ui w))));
                      (jslit "documentId", documentId (ui w));
                      (jslit "stream", JBool false)] |}
           (begin_send env (trim (input (ui w))) w))
    (AppStream.send env w).
Proof.
  intros Hn Hb. unfold AppStream.send. rewrite Hn, Hb. cbn [negb orb].
  pose proof (try_block_stream_effect env (trim (input (ui w))) (documentId (ui w))
                (begin_send env (trim (input (ui w))) w)) as Hs.
  cbv zeta in Hs.
  change (stamps_used (begin_send env (trim (input (ui w))) w))
    with (S (stamps_used w)) in Hs.
  destruct (AppStream.try_block env _ _ _) as [[e|] w5]; cbn [snd] in Hs;
    auto using stable_report with stable.
Qed.

Lemma App_send_stable (target : jsstring) (env : Env) (w : World) :
  nonempty (trim (input (ui w))) = true ->
  isSending (ui w) = false ->
  stable target
    (fetch {| request_body :=
                JObj [(jslit "message", JStr (trim (input (ui w))));
                      (jslit "documentId", documentId (ui w))] |}
           (begin_send env (trim (input (ui w))) w))
    (App.send env w).
Proof.
  intros Hn Hb. unfold App.send. rewrite Hn, Hb. cbn [negb orb].
  pose proof (try_block_single_effect target env (trim (input (ui w)))
                (documentId (ui w)) (begin_send env (trim (input (ui w))) w)) as Hs.
  cbv zeta in Hs.
  destruct (App.try_block env _ _ _) as [[e|] w5]; cbn [snd] in Hs;
    auto using stable_report with stable.
Qed.

End Stability.

(* ================================================================== *)
(** * Trimming the input *)
(* ================================================================== *)

(** C10.  [send] works on the trimmed input.  When the trimmed input is
    empty the call changes nothing and issues no request, busy or not.
    Otherwise, when the call passes the guard, the user message appended
    to the transcript has the trimmed text as its content, and the one
    request issued carries the trimmed text in its [message] field.  The
    user message is still in its place, unchanged, when [send]
    finishes; in the streaming version this supposes that the placeholder
    message drew a different id. *)
Theorem C10_send_trims_input {E : Engine} (env : Env) (w : World) :
  let trimmed := trim (input (ui w)) in
  let asked :=
    {| id := stamp_id (stamps env (stamps_used w)); role := user;
       content := JStr trimmed;
       createdAt := stamp_time (stamps env (stamps_used w)) |} in
  (nonempty trimmed = false ->
   AppStream.send env w = w /\ App.send env w = w)
  /\
  (nonempty trimmed = true -> isSending (ui w) = false ->
   messages (ui (begin_send env trimmed w)) = messages (ui w) ++ [asked] /\
   requests (AppStream.send env w) =
     requests w ++
     [{| request_body :=
           JObj [(jslit "message", JStr trimmed);
                 (jslit "documentId", documentId (ui w));
                 (jslit "stream", JBool false)] |}] /\
   requests (App.send env w) =
     requests w ++
     [{| request_body :=
           JObj [(jslit "message", JStr trimmed);
                 (jslit "documentId", documentId (ui w))] |}] /\
   nth_error (messages (ui (App.send env w))) (List.length (messages (ui w))) =
     Some asked /\
   (stamp_id (stamps env (stamps_used w)) <>
    stamp_id (stamps env (S (stamps_used w))) ->
    nth_error (messages (ui (AppStream.send env w)))
              (List.length (messages (ui w))) = Some asked)).
Proof.
  intros trimmed asked. split.
  - intros Hn. unfold AppStream.send, App.send. fold trimmed. rewrite Hn.
    split; reflexivity.
  - intros Hn Hb.
    assert (Hasked : nth_error (messages (ui (begin_send env trimmed w)))
                       (List.length (messages (ui w))) = Some asked).
    { rewrite begin_send_messages, nth_error_app2 by lia.
      rewrite Nat.sub_diag. reflexivity. }
    destruct (AppStream_send_stable env w Hn Hb) as [Rs Ks].
    destruct (App_send_stable [] env w Hn Hb) as [Ra _].
    split; [reflexivity|]. split; [exact Rs|]. split; [exact Ra|]. split.
    + destruct (App_send_stable (0%N :: id asked) env w Hn Hb) as [_ Ka].
      apply Ka; [|exact Hasked].
      destruct (str_eqb (id asked) (0%N :: id asked)) eqn:Eq; [|reflexivity].
      apply str_eqb_eq in Eq. apply (f_equal (@List.length _)) in Eq.
      simpl in Eq. lia.
    + intros Hid. apply Ks; [|exact Hasked].
      destruct (str_eqb (id asked) _) eqn:Eq; [|reflexivity].
      apply str_eqb_eq in Eq. destruct (Hid Eq).
Qed.

Lemma C10_send_trims_input_witness :
  let env := {| stamps := Sample.clock;
                outcome := Resolved (Sample.event_stream Sample.HELLO_BODY) |} in
  let asked :=
    {| id := jslit "m0"; role := user; content := JStr (jslit "What is RAG?");
       createdAt := 1700000000000 |} in
  (AppStream.send (E := DecimalEngine.engine) env Sample.blank = Sample.blank /\
   App.send (E := DecimalEngine.engine) env Sample.blank = Sample.blank)
  /\
  requests (AppStream.send (E := DecimalEngine.engine) env Sample.idle) =
    [] ++ [{| request_body :=
                JObj [(jslit "message", JStr (jslit "What is RAG?"));
                      (jslit "documentId", JStr (jslit "default"));
                      (jslit "stream", JBool false)] |}]
  /\
  nth_error (messages (ui (AppStream.send (E := DecimalEngine.engine) env Sample.idle)))
    0 = Some asked.
Proof.
  intros env asked. split.
  - apply (proj1 (C10_send_trims_input (E := DecimalEngine.engine) env Sample.blank)).
    reflexivity.
  - destruct (proj2 (C10_send_trims_input (E := DecimalEngine.engine) env Sample.idle)
                eq_refl eq_refl) as (_ & Hr & _ & _ & Hm).
    split; [exact Hr|]. apply Hm. vm_compute. discriminate.
Defined.

(* ================================================================== *)
(** * A token stream, end to end *)
(* ================================================================== *)

Section Tokens.
Context {E : Engine}.

Lemma map_content_fresh (target : jsstring) (f : value -> option value)
    (m : ChatMessage) (c : value) :
  str_eqb (id m) target = true ->
  f (content m) = Some c ->
  forall pre,
    Forall (fun x => str_eqb (id x) target = false) pre ->
    map_content target f (pre ++ [m]) =
    Some (pre ++ [{| id := id m; role := role m; content := c;
                     createdAt := createdAt m |}]).
Proof.
  intros Hm Hf. induction 1 as [|x pre Hx _ IH].
  - cbn. rewrite Hm, Hf. reflexivity.
  - cbn [app map_content]. rewrite Hx, IH. reflexivity.
Qed.

(** Appending a token to the placeholder, the last message of the
    transcript and the only one with its id. *)
Lemma updateMessage_placeholder (target : jsstring) (t : value) (w : World)
    (pre : list ChatMessage) (m : ChatMessage) (c : value) :
  messages (ui w) = pre ++ [m] ->
  str_eqb (id m) target = true ->
  Forall (fun x => str_eqb (id x) target = false) pre ->
  js_add (content m) t = Some c ->
  updateMessage target (fun prev => js_add prev t) w =
  setMessages (fun _ => pre ++ [{| id := id m; role := role m; content := c;
                                   createdAt := createdAt m |}]) w.
Proof.
  intros Hw Hm Hpre Hc. unfold updateMessage. rewrite Hw.
  rewrite (map_content_fresh target (fun prev => js_add prev t) m c Hm Hc pre Hpre).
  reflexivity.
Qed.

Lemma handle_token_frame (target payload : jsstring) (fields : list (jsstring * value))
    (t : value) (w : World) :
  parse payload = Some (JObj fields) ->
  truthy (lookup (jslit "error") fields) = false ->
  lookup (jslit "token") fields = Some t ->
  truthy (Some t) = true ->
  AppStream.handle_line target (DATA_PREFIX ++ payload) w =
  (AppStream.Continue, updateMessage target (fun prev => js_add prev t) w).
Proof.
  intros Hp He Ht Htt.
  rewrite (handle_line_parsed target payload w (parsed_not_sentinel _ _ Hp)).
  rewrite Hp. cbn [get]. rewrite He, Ht, Htt. reflexivity.
Qed.

End Tokens.

(** C6.  The body of three frames, two tokens and the sentinel, however
    it is cut into chunks: the decoder emits the three frames in order;
    each token frame appends its token to the content of the placeholder
    ([prev + token]) and lets the loop go on; the sentinel frame returns
    with nothing but the busy flag reset.  When [send] finishes the
    transcript is the old one followed by the user message and the one
    placeholder, opened empty and now holding ["Hello"]; there is no
    error banner, the busy flag is false and no updater has failed.  The
    ids drawn are supposed unique: the placeholder's is neither the user
    message's nor one already in the transcript. *)
Theorem C6_hello_stream {E : Engine} (clock : nat -> Stamp) (res : Response)
    (cs : list (list byte)) (fin : ReadEnd) (w : World) :
  nonempty (trim (input (ui w))) = true ->
  isSending (ui w) = false ->
  ok res = true ->
  includes EVENT_STREAM (or_empty (content_type res)) = true ->
  List.concat cs = Utf8.ascii_bytes Sample.HELLO_BODY ->
  Forall (fun m => id m <> stamp_id (clock (S (stamps_used w)))) (messages (ui w)) ->
  stamp_id (clock (stamps_used w)) <> stamp_id (clock (S (stamps_used w))) ->
  let env := {| stamps := clock; outcome := Resolved (with_reader res cs fin) |} in
  let asked :=
    {| id := stamp_id (clock (stamps_used w)); role := user;
       content := JStr (trim (input (ui w)));
       createdAt := stamp_time (clock (stamps_used w)) |} in
  let answer :=
    {| id := stamp_id (clock (S (stamps_used w))); role := assistant;
       content := JStr (jslit "Hello");
       createdAt := stamp_time (clock (S (stamps_used w))) |} in
  AppStream.frames Utf8.new_TextDecoder [] cs =
    [jslit "data: {'token':'Hel'}"; jslit "data: {'token':'lo'}";
     jslit "data: [DONE]"]
  /\
  (forall target w',
     AppStream.handle_line target (jslit "data: {'token':'Hel'}") w' =
       (AppStream.Continue,
        updateMessage target (fun prev => js_add prev (JStr (jslit "Hel"))) w') /\
     AppStream.handle_line target (jslit "data: {'token':'lo'}") w' =
       (AppStream.Continue,
        updateMessage target (fun prev => js_add prev (JStr (jslit "lo"))) w') /\
     AppStream.handle_line target (jslit "data: [DONE]") w' =
       (AppStream.Return, setIsSending false w'))
  /\
  messages (ui (AppStream.send env w)) = messages (ui w) ++ [asked; answer] /\
  error (ui (AppStream.send env w)) = JNull /\
  isSending (ui (AppStream.send env w)) = false /\
  render_fault (AppStream.send env w) = render_fault w.
Proof.
  intros Hn Hb Hok Hc Hcs Hold Hnew env asked answer.
  assert (Hframes : AppStream.frames Utf8.new_TextDecoder [] cs =
            [jslit "data: {'token':'Hel'}"; jslit "data: {'token':'lo'}";
             jslit "data: [DONE]"]).
  { rewrite frames_stream_text. unfold AppStream.stream_text. rewrite Hcs.
    vm_compute. reflexivity. }
  assert (Hlines : forall target w',
     AppStream.handle_line target (jslit "data: {'token':'Hel'}") w' =
       (AppStream.Continue,
        updateMessage target (fun prev => js_add prev (JStr (jslit "Hel"))) w') /\
     AppStream.handle_line target (jslit "data: {'token':'lo'}") w' =
       (AppStream.Continue,
        updateMessage target (fun prev => js_add prev (JStr (jslit "lo"))) w') /\
     AppStream.handle_line target (jslit "data: [DONE]") w' =
       (AppStream.Return, setIsSending false w')).
  { intros target w'. split; [|split].
    - exact (handle_token_frame target (jslit "{'token':'Hel'}")
               [(jslit "token", JStr (jslit "Hel"))] (JStr (jslit "Hel")) w'
               eq_refl eq_refl eq_refl eq_refl).
    - exact (handle_token_frame target (jslit "{'token':'lo'}")
               [(jslit "token", JStr (jslit "lo"))] (JStr (jslit "lo")) w'
               eq_refl eq_refl eq_refl eq_refl).
    - exact (handle_line_sentinel target (jslit "[DONE]") w' eq_refl). }
  split; [exact Hframes|]. split; [exact Hlines|].
  assert (Hfresh : Forall (fun x => str_eqb (id x) (stamp_id (clock (S (stamps_used w))))
                                    = false) (messages (ui w) ++ [asked])).
  { apply Forall_app. split.
    - eapply Forall_impl; [|exact Hold]. intros m Hm.
      destruct (str_eqb _ _) eqn:Eq; [|reflexivity].
      apply str_eqb_eq in Eq. destruct (Hm Eq).
    - constructor; [|constructor].
      destruct (str_eqb _ _) eqn:Eq; [|reflexivity].
      apply str_eqb_eq in Eq. destruct (Hnew Eq). }
  unfold AppStream.send. rewrite Hn, Hb. cbn [negb orb].
  unfold AppStream.try_block. subst env. cbn [outcome ok with_reader content_type].
  rewrite Hok, Hc. cbn [negb].
  unfold AppStream.streaming. cbn [body with_reader chunks ending].
  match goal with |- context [addMessage ?e assistant ?c ?x] =>
    set (w1 := snd (addMessage e assistant c x));
    change (addMessage e assistant c x)
      with (stamp_id (clock (S (stamps_used w))), w1)
  end.
  cbv iota beta.
  rewrite read_loop_frames, Hframes. cbn [AppStream.for_lines].
  destruct (Hlines (stamp_id (clock (S (stamps_used w)))) w1) as (-> & _ & _).
  set (blank := {| id := stamp_id (clock (S (stamps_used w))); role := assistant;
                   content := JStr [];
                   createdAt := stamp_time (clock (S (stamps_used w))) |}).
  rewrite (updateMessage_placeholder (stamp_id (clock (S (stamps_used w))))
             (JStr (jslit "Hel")) w1
             (messages (ui w) ++ [asked]) blank
             (JStr (jslit "Hel")) eq_refl (str_eqb_refl _) Hfresh eq_refl).
  match goal with |- context [AppStream.handle_line ?t _ ?x] =>
    destruct (Hlines t x) as (_ & -> & _) end.
  match goal with |- context [updateMessage ?t ?f ?x] =>
    rewrite (updateMessage_placeholder t (JStr (jslit "lo")) x
               (messages (ui w) ++ [asked])
               {| id := stamp_id (clock (S (stamps_used w))); role := assistant;
                  content := JStr (jslit "Hel");
                  createdAt := stamp_time (clock (S (stamps_used w))) |}
               (JStr (jslit "Hello")) eq_refl (str_eqb_refl _) Hfresh eq_refl)
  end.
  match goal with |- context [AppStream.handle_line ?t _ ?x] =>
    destruct (Hlines t x) as (_ & _ & ->) end.
  cbn. rewrite <- app_assoc. repeat split; reflexivity.
Qed.

Lemma C6_hello_stream_witness :
  let bytes := Utf8.ascii_bytes Sample.HELLO_BODY in
  let env :=
    {| stamps := Sample.clock;
       outcome := Resolved (with_reader (Sample.event_stream [])
                    [firstn 9 bytes; firstn 20 (skipn 9 bytes); skipn 29 bytes]
                    EndOfData) |} in
  messages (ui (AppStream.send (E := DecimalEngine.engine) env Sample.idle)) =
    [{| id := jslit "m0"; role := user; content := JStr (jslit "What is RAG?");
        createdAt := 1700000000000 |};
     {| id := jslit "m1"; role := assistant; content := JStr (jslit "Hello");
        createdAt := 1700000000001 |}] /\
  error (ui (AppStream.send (E := DecimalEngine.engine) env Sample.idle)) = JNull /\
  isSending (ui (AppStream.send (E := DecimalEngine.engine) env Sample.idle)) = false.
Proof.
  intros bytes env.
  destruct (C6_hello_stream (E := DecimalEngine.engine) Sample.clock
              (Sample.event_stream [])
              [firstn 9 bytes; firstn 20 (skipn 9 bytes); skipn 29 bytes]
              EndOfData Sample.idle
              eq_refl eq_refl eq_refl eq_refl eq_refl (Forall_nil _)
              ltac:(vm_compute; discriminate))
    as (_ & _ & Hm & He & Hs & _).
  split; [exact Hm|]. split; [exact He | exact Hs].
Defined.

(* ================================================================== *)
(** * The frame decoder keeps every code unit *)
(* ================================================================== *)

Lemma last_app_nonempty (A : Type) (d : A) (l1 l2 : list A) :
  l2 <> [] -> last (l1 ++ l2) d = last l2 d.
Proof.
  intros H. induction l1 as [|x l1 IH]; [reflexivity|].
  cbn [app last]. destruct (l1 ++ l2) eqn:El; [|exact IH].
  apply app_eq_nil in El. tauto.
Qed.

Lemma dangling_app (p c : jsstring) :
  AppStream.dangling (p ++ c) = AppStream.dangling (AppStream.dangling p ++ c).
Proof.
  unfold AppStream.dangling. rewrite split_app.
  apply last_app_nonempty. apply split_not_nil.
Qed.

(** Writing the separator back after every piece but the last gives the
    text that was split. *)
Lemma rejoin_split_len (n : nat) :
  forall s, List.length s <= n ->
    Loop.rejoin (removelast (split s)) ++ last (split s) [] = s.
Proof.
  induction n as [|n IH]; intros s Hn.
  - destruct s; [reflexivity | simpl in Hn; lia].
  - destruct s as [|x [|d r]]; [reflexivity | reflexivity |].
    rewrite (split_cons x (d :: r)).
    destruct (N.eqb x LF && N.eqb d LF) eqn:Esep.
    + apply andb_true_iff in Esep. destruct Esep as [Ex Ed].
      apply N.eqb_eq in Ex, Ed. subst x d.
      pose proof (split_not_nil r) as Hr. pose proof (IH r) as Hi.
      destruct (split r) as [|q qs]; [congruence|].
      change (removelast ([] :: q :: qs)) with ([] :: removelast (q :: qs)).
      change (last ([] :: q :: qs) []) with (last (q :: qs) []).
      unfold Loop.rejoin in *. cbn [map List.concat app].
      change (Loop.SEPARATOR ++ ?t) with (LF :: LF :: t).
      cbn [app]. rewrite Hi by (simpl in Hn; lia). reflexivity.
    + pose proof (IH (d :: r)) as Hi.
      destruct (split (d :: r)) as [|q [|q' qs]] eqn:Eq;
        [destruct (split_not_nil _ Eq) | |].
      * cbn in Hi |- *. rewrite Hi by (simpl in *; lia). reflexivity.
      * change (removelast (push_front x (q :: q' :: qs)))
          with ((x :: q) :: removelast (q' :: qs)).
        change (last (push_front x (q :: q' :: qs)) []) with (last (q' :: qs) []).
        change (removelast (q :: q' :: qs)) with (q :: removelast (q' :: qs)) in Hi.
        change (last (q :: q' :: qs) []) with (last (q' :: qs) []) in Hi.
        unfold Loop.rejoin in *. cbn [map List.concat app] in Hi |- *.
        rewrite <- !app_assoc in Hi |- *. cbn [app].
        rewrite Hi by (simpl in *; lia). reflexivity.
Qed.

Lemma rejoin_split (s : jsstring) :
  Loop.rejoin (AppStream.complete_frames s) ++ AppStream.dangling s = s.
Proof. apply rejoin_split_len with (n := List.length s). lia. Qed.

Section Buffer.
Context {E : Engine}.

Lemma buffer_after_text (cs : list (list byte)) :
  forall t b, split b = [b] ->
    Loop.buffer_after t b cs =
    AppStream.dangling (b ++ snd (Utf8.decode t (List.concat cs))).
Proof.
  induction cs as [|v rest IH]; intros t b Hb.
  - cbn. rewrite app_nil_r. unfold AppStream.dangling. rewrite Hb. reflexivity.
  - cbn [Loop.buffer_after List.concat]. rewrite decode_chunk_eq, decode_app.
    destruct (Utf8.decode t v) as [t' d]. cbn [fst snd].
    rewrite IH by apply split_dangling.
    destruct (Utf8.decode t' (List.concat rest)) as [t'' d']. cbn [snd].
    rewrite app_assoc. symmetry. apply dangling_app.
Qed.

Lemma buffer_after_stream_text (cs : list (list byte)) :
  Loop.buffer_after Utf8.new_TextDecoder [] cs =
  AppStream.dangling (AppStream.stream_text cs).
Proof. apply (buffer_after_text cs Utf8.new_TextDecoder []). reflexivity. Qed.

End Buffer.

(** X1.  The frame decoder loses nothing: after any sequence of chunks,
    the frames emitted so far, each followed by the separator, and then
    the content of the buffer, spell out exactly the text decoded from
    the bytes received. *)
Theorem X1_frame_decoder_lossless {E : Engine} (cs : list (list byte)) :
  Loop.rejoin (AppStream.frames Utf8.new_TextDecoder [] cs) ++
  Loop.buffer_after Utf8.new_TextDecoder [] cs =
  AppStream.stream_text cs.
Proof.
  rewrite frames_stream_text, buffer_after_stream_text. apply rejoin_split.
Qed.

Lemma first_piece (d : char16) (r : jsstring) :
  exists q qs, split (d :: r) = q :: qs /\ (q = [] \/ exists q', q = d :: q').
Proof.
  rewrite split_cons. destruct r as [|e r'].
  - exists [d], []. split; [reflexivity | right; exists []; reflexivity].
  - destruct (N.eqb d LF && N.eqb e LF).
    + exists [], (split r'). split; [reflexivity | left; reflexivity].
    + pose proof (split_not_nil (e :: r')) as Hn.
      destruct (split (e :: r')) as [|q qs]; [congruence|].
      exists (d :: q), qs. split; [reflexivity | right; exists q; reflexivity].
Qed.

(** No piece of a split holds a separator. *)
Lemma split_pieces_clean_len (n : nat) :
  forall s, List.length s <= n ->
    Forall (fun p => includes Loop.SEPARATOR p = false) (split s).
Proof.
  induction n as [|n IH]; intros s Hn.
  - destruct s; [repeat constructor | simpl in Hn; lia].
  - destruct s as [|x [|d r]]; [repeat constructor | repeat constructor |].
    + cbn. rewrite andb_false_r. reflexivity.
    + rewrite (split_cons x (d :: r)).
      destruct (N.eqb x LF && N.eqb d LF) eqn:Esep.
      * constructor; [reflexivity|]. apply IH. simpl in Hn. lia.
      * pose proof (IH (d :: r) ltac:(simpl in *; lia)) as Hi.
        destruct (first_piece d r) as (q & qs & Eq & Hq). rewrite Eq in Hi |- *.
        inversion Hi as [|? ? Hq1 Hqs]; subst. cbn [push_front].
        constructor; [|exact Hqs].
        change (includes Loop.SEPARATOR (x :: q))
          with (startsWith Loop.SEPARATOR (x :: q) || includes Loop.SEPARATOR q).
        rewrite Hq1, orb_false_r.
        destruct Hq as [-> | [q' ->]].
        -- cbn. apply andb_false_r.
        -- change (startsWith Loop.SEPARATOR (x :: d :: q'))
             with (N.eqb LF x && (N.eqb LF d && true)).
           rewrite andb_true_r, (N.eqb_sym LF x), (N.eqb_sym LF d). exact Esep.
Qed.

Lemma split_pieces_clean (s : jsstring) :
  Forall (fun p => includes Loop.SEPARATOR p = false) (split s).
Proof. apply split_pieces_clean_len with (n := List.length s). lia. Qed.

(** X2.  Neither an emitted frame nor the buffer left after a chunk ever
    holds a blank-line separator: a frame is emitted as soon as its
    separator has arrived, and two frames are never emitted as one. *)
Theorem X2_frames_and_buffer_hold_no_separator {E : Engine} (cs : list (list byte)) :
  Forall (fun f => includes Loop.SEPARATOR f = false)
         (AppStream.frames Utf8.new_TextDecoder [] cs) /\
  includes Loop.SEPARATOR (Loop.buffer_after Utf8.new_TextDecoder [] cs) = false.
Proof.
  rewrite frames_stream_text, buffer_after_stream_text.
  pose proof (split_pieces_clean (AppStream.stream_text cs)) as H.
  unfold AppStream.complete_frames, AppStream.dangling.
  pose proof (split_not_nil (AppStream.stream_text cs)) as Hn.
  rewrite (app_removelast_last [] Hn) in H. apply Forall_app in H.
  destruct H as [Hf Hl]. split; [exact Hf|]. inversion Hl; assumption.
Qed.

(* ================================================================== *)
(** * Frames the interpreter passes over, and frames that end the loop *)
(* ================================================================== *)

Section Frames.
Context {E : Engine}.

Lemma handle_line_other (target line : jsstring) (w : World) :
  startsWith DATA_PREFIX line = false ->
  AppStream.handle_line target line w = (AppStream.Continue, w).
Proof. intros H. unfold AppStream.handle_line. rewrite H. reflexivity. Qed.

End Frames.

Lemma for_lines_filter {E : Engine} (target : jsstring) (lines : list jsstring) :
  forall w,
    AppStream.for_lines target lines w =
    AppStream.for_lines target (filter (startsWith DATA_PREFIX) lines) w.
Proof.
  induction lines as [|l lines IH]; intros w; [reflexivity|].
  cbn [filter]. destruct (startsWith DATA_PREFIX l) eqn:Hl.
  - cbn [AppStream.for_lines].
    destruct (AppStream.handle_line target l w) as [[|] w']; [apply IH | reflexivity].
  - cbn [AppStream.for_lines]. rewrite (handle_line_other target l w Hl). apply IH.
Qed.

(** X3.  Frames that do not start with the data prefix (comments,
    keep-alives, empty frames, other fields) have no effect at all:
    interpreting a sequence of frames gives the same signal and the same
    world as interpreting only the data frames among them. *)
Theorem X3_only_data_frames_count {E : Engine} (target : jsstring)
    (lines : list jsstring) (w : World) :
  AppStream.for_lines target lines w =
  AppStream.for_lines target (filter (startsWith DATA_PREFIX) lines) w.
Proof. apply for_lines_filter. Qed.

(** X4.  The completion sentinel, with any white space around it, ends
    the read loop at once: the frames after it, in the same chunk or in
    later ones, are not interpreted and the end of the stream is not
    awaited, even if reading would fail.  The world is the one the
    earlier frames left, with the busy flag reset. *)
Theorem X4_sentinel_ends_the_loop {E : Engine} (target payload : jsstring)
    (pre post : list jsstring)
    (t : Utf8.TextDecoder) (b : jsstring) (cs : list (list byte)) (fin : ReadEnd)
    (w w1 : World) :
  trim payload = DONE ->
  AppStream.frames t b cs = pre ++ (DATA_PREFIX ++ payload) :: post ->
  AppStream.for_lines target pre w = (AppStream.Continue, w1) ->
  AppStream.read_loop target t b cs fin w =
  (AppStream.Returned, setIsSending false w1).
Proof.
  intros Hd Hf Hpre.
  rewrite read_loop_frames, Hf, for_lines_app, Hpre. cbn [AppStream.for_lines].
  rewrite (handle_line_sentinel target payload w1); [reflexivity|].
  apply str_eqb_eq. exact Hd.
Qed.

Lemma X4_sentinel_ends_the_loop_witness :
  AppStream.read_loop (E := DecimalEngine.engine) (jslit "m1")
    Utf8.new_TextDecoder []
    [Utf8.ascii_bytes (jslit ": ping\n\ndata:  [DONE] \n\ndata: {'error':'late'}\n\n")]
    (ReadFails (ErrorObject (jslit "connection reset"))) Sample.busy =
  (AppStream.Returned, setIsSending false Sample.busy).
Proof.
  apply (X4_sentinel_ends_the_loop (E := DecimalEngine.engine) (jslit "m1")
           (jslit " [DONE] ") [jslit ": ping"] [jslit "data: {'error':'late'}"]);
    reflexivity.
Defined.

(* ================================================================== *)
(** * Streams of tokens *)
(* ================================================================== *)

Section TokenStreams.
Context {E : Engine}.

Lemma same_but_messages_refl (w : World) : Loop.same_but_messages w w.
Proof. repeat split. Qed.

Lemma same_but_messages_trans (w1 w2 w3 : World) :
  Loop.same_but_messages w1 w2 -> Loop.same_but_messages w2 w3 ->
  Loop.same_but_messages w1 w3.
Proof.
  unfold Loop.same_but_messages. intros H1 H2.
  repeat split; etransitivity; try apply H2; apply H1.
Qed.

Lemma with_content_self (m : ChatMessage) : Loop.with_content m (content m) = m.
Proof. destruct m; reflexivity. Qed.

Lemma append_token (target : jsstring) (line t c : jsstring) (w : World)
    (pre : list ChatMessage) (m : ChatMessage) :
  Loop.token_frame line t ->
  messages (ui w) = pre ++ [m] ->
  str_eqb (id m) target = true ->
  Forall (fun x => str_eqb (id x) target = false) pre ->
  content m = JStr c ->
  AppStream.handle_line target line w =
  (AppStream.Continue,
   setMessages (fun _ => pre ++ [Loop.with_content m (JStr (c ++ t))]) w).
Proof.
  intros (payload & fields & -> & Hp & He & Ht & Hn) Hw Hm Hpre Hc.
  rewrite (handle_token_frame target payload fields (JStr t) w Hp He Ht Hn).
  rewrite (updateMessage_placeholder target (JStr t) w pre m (JStr (c ++ t))
             Hw Hm Hpre); [reflexivity|].
  rewrite Hc. reflexivity.
Qed.

Lemma for_lines_tokens (target : jsstring) (lines ts : list jsstring) :
  Forall2 Loop.token_frame lines ts ->
  forall (w : World) (pre : list ChatMessage) (m : ChatMessage) (c : jsstring),
    messages (ui w) = pre ++ [m] ->
    str_eqb (id m) target = true ->
    Forall (fun x => str_eqb (id x) target = false) pre ->
    content m = JStr c ->
    exists w',
      AppStream.for_lines target lines w = (AppStream.Continue, w') /\
      Loop.same_but_messages w w' /\
      messages (ui w') =
        pre ++ [Loop.with_content m (JStr (c ++ List.concat ts))].
Proof.
  induction 1 as [|line t lines ts Hl _ IH]; intros w pre m c Hw Hm Hpre Hc.
  - exists w. split; [reflexivity|]. split; [apply same_but_messages_refl|].
    cbn [List.concat]. rewrite app_nil_r, <- Hc, with_content_self. exact Hw.
  - cbn [AppStream.for_lines].
    rewrite (append_token target line t c w pre m Hl Hw Hm Hpre Hc).
    destruct (IH (setMessages (fun _ => pre ++ [Loop.with_content m (JStr (c ++ t))]) w)
                 pre (Loop.with_content m (JStr (c ++ t))) (c ++ t)
                 eq_refl Hm Hpre eq_refl) as (w' & Hf & Hs & Hmsg).
    exists w'. split; [exact Hf|]. split.
    + eapply same_but_messages_trans; [|exact Hs]. repeat split.
    + rewrite Hmsg. cbn [List.concat]. rewrite app_assoc. reflexivity.
Qed.

End TokenStreams.

(** X5.  Token frames accumulate: when the placeholder is the last
    message, holds the string [c] and is the only message with its id,
    interpreting frames that carry the non-empty string tokens [ts]
    leaves it holding [c] followed by the tokens in arrival order.  The
    loop goes on, and nothing but the transcript has changed. *)
Theorem X5_tokens_accumulate_in_order {E : Engine} (target : jsstring)
    (lines ts : list jsstring) (w : World) (pre : list ChatMessage)
    (m : ChatMessage) (c : jsstring) :
  Forall2 Loop.token_frame lines ts ->
  messages (ui w) = pre ++ [m] ->
  id m = target ->
  Forall (fun x => id x <> target) pre ->
  content m = JStr c ->
  exists w',
    AppStream.for_lines target lines w = (AppStream.Continue, w') /\
    Loop.same_but_messages w w' /\
    messages (ui w') = pre ++ [Loop.with_content m (JStr (c ++ List.concat ts))].
Proof.
  intros Hl Hw Hm Hpre Hc.
  apply (for_lines_tokens target lines ts Hl w pre m c Hw); [| |exact Hc].
  - apply str_eqb_eq. exact Hm.
  - eapply Forall_impl; [|exact Hpre]. intros x Hx.
    destruct (str_eqb (id x) target) eqn:Eq; [|reflexivity].
    apply str_eqb_eq in Eq. destruct (Hx Eq).
Qed.

Lemma X5_tokens_accumulate_in_order_witness :
  exists w',
    AppStream.for_lines (E := DecimalEngine.engine) (jslit "m1")
      [jslit "data: {'token':'-augmented'}";
       jslit "data: {'token':' generation','n':2}"] Demo.streaming_chat =
      (AppStream.Continue, w') /\
    Loop.same_but_messages Demo.streaming_chat w' /\
    messages (ui w') =
      [{| id := jslit "m0"; role := user; content := JStr (jslit "What is RAG?");
          createdAt := 1700000000000 |}] ++
      [Loop.with_content
         {| id := jslit "m1"; role := assistant; content := JStr (jslit "Retrieval");
            createdAt := 1700000000001 |}
         (JStr (jslit "Retrieval" ++
                List.concat [jslit "-augmented"; jslit " generation"]))].
Proof.
  apply (X5_tokens_accumulate_in_order (E := DecimalEngine.engine) (jslit "m1")
           [jslit "data: {'token':'-augmented'}";
            jslit "data: {'token':' generation','n':2}"]
           [jslit "-augmented"; jslit " generation"]).
  - constructor; [|constructor; [|constructor]].
    + exists (jslit "{'token':'-augmented'}"),
             [(jslit "token", JStr (jslit "-augmented"))].
      repeat (split; [vm_compute; reflexivity|]); vm_compute; reflexivity.
    + exists (jslit "{'token':' generation','n':2}"),
             [(jslit "token", JStr (jslit " generation"));
              (jslit "n", JNum (num_of_literal (jslit "2")))].
      repeat (split; [vm_compute; reflexivity|]); vm_compute; reflexivity.
  - reflexivity.
  - reflexivity.
  - constructor; [|constructor]. vm_compute. discriminate.
  - reflexivity.
Defined.

Section StreamedSend.
Context {E : Engine}.

(** A [send] that reaches the read loop, in terms of the frames. *)
Lemma send_stream_unfold (clock : nat -> Stamp) (res : Response)
    (cs : list (list byte)) (fin : ReadEnd) (w : World) :
  nonempty (trim (input (ui w))) = true ->
  isSending (ui w) = false ->
  ok res = true ->
  includes EVENT_STREAM (or_empty (content_type res)) = true ->
  let env := {| stamps := clock; outcome := Resolved (with_reader res cs fin) |} in
  AppStream.send env w =
  match AppStream.for_lines (stamp_id (clock (S (stamps_used w))))
          (AppStream.frames Utf8.new_TextDecoder [] cs)
          (Loop.at_stream_start env w) with
  | (AppStream.Return, w') => w'
  | (AppStream.Continue, w') =>
      match fin with
      | EndOfData => setIsSending false w'
      | ReadFails e => setIsSending false (report env e w')
      end
  end.
Proof.
  intros Hn Hb Hok Hc env.
  unfold AppStream.send. rewrite Hn, Hb. cbn [negb orb].
  unfold AppStream.try_block. subst env. cbn [outcome ok with_reader content_type].
  rewrite Hok, Hc. cbn [negb].
  unfold AppStream.streaming. cbn [body with_reader chunks ending].
  match goal with |- context [addMessage ?e assistant ?c ?x] =>
    change (addMessage e assistant c x)
      with (stamp_id (clock (S (stamps_used w))), Loop.at_stream_start e w)
  end.
  cbv iota beta. rewrite read_loop_frames.
  destruct (AppStream.for_lines _ _ _) as [[|] w']; [|reflexivity].
  destruct fin; reflexivity.
Qed.

End StreamedSend.

(** X6.  A stream of token frames that ends without a sentinel.  When
    the source signals the end of data, [send] leaves the old transcript
    followed by the user message and the placeholder holding the tokens
    in order, no error banner and the busy flag false.  When reading
    fails instead, the partial answer stays where it is, the failure
    report is appended after it and the error banner holds the message of
    the failure.  Frames without the data prefix may be interleaved.  The
    placeholder's id is supposed unique. *)
Theorem X6_token_stream_end_to_end {E : Engine} (clock : nat -> Stamp)
    (res : Response) (cs : list (list byte)) (fin : ReadEnd) (w : World)
    (ts : list jsstring) :
  nonempty (trim (input (ui w))) = true ->
  isSending (ui w) = false ->
  ok res = true ->
  includes EVENT_STREAM (or_empty (content_type res)) = true ->
  Forall2 Loop.token_frame
    (filter (startsWith DATA_PREFIX) (AppStream.frames Utf8.new_TextDecoder [] cs)) ts ->
  Forall (fun m => id m <> stamp_id (clock (S (stamps_used w)))) (messages (ui w)) ->
  stamp_id (clock (stamps_used w)) <> stamp_id (clock (S (stamps_used w))) ->
  let env := {| stamps := clock; outcome := Resolved (with_reader res cs fin) |} in
  let asked :=
    {| id := stamp_id (clock (stamps_used w)); role := user;
       content := JStr (trim (input (ui w)));
       createdAt := stamp_time (clock (stamps_used w)) |} in
  let answer :=
    {| id := stamp_id (clock (S (stamps_used w))); role := assistant;
       content := JStr (List.concat ts);
       createdAt := stamp_time (clock (S (stamps_used w))) |} in
  let failure (e : Thrown) :=
    {| id := stamp_id (clock (S (S (stamps_used w)))); role := assistant;
       content := JStr (failure_text (thrown_message e));
       createdAt := stamp_time (clock (S (S (stamps_used w)))) |} in
  messages (ui (AppStream.send env w)) =
    messages (ui w) ++ [asked; answer] ++
    match fin with EndOfData => [] | ReadFails e => [failure e] end /\
  error (ui (AppStream.send env w)) =
    match fin with EndOfData => JNull | ReadFails e => JStr (thrown_message e) end /\
  isSending (ui (AppStream.send env w)) = false /\
  input (ui (AppStream.send env w)) = [].
Proof.
  intros Hn Hb Hok Hc Hts Hold Hnew env asked answer failure.
  assert (Hfresh : Forall (fun x => str_eqb (id x) (stamp_id (clock (S (stamps_used w))))
                                    = false) (messages (ui w) ++ [asked])).
  { apply Forall_app. split.
    - eapply Forall_impl; [|exact Hold]. intros m Hm.
      destruct (str_eqb _ _) eqn:Eq; [|reflexivity].
      apply str_eqb_eq in Eq. destruct (Hm Eq).
    - constructor; [|constructor].
      destruct (str_eqb _ _) eqn:Eq; [|reflexivity].
      apply str_eqb_eq in Eq. destruct (Hnew Eq). }
  subst env. rewrite (send_stream_unfold clock res cs fin w Hn Hb Hok Hc).
  rewrite for_lines_filter.
  match goal with |- context [AppStream.for_lines ?t ?l ?x] =>
    destruct (for_lines_tokens t l ts Hts x (messages (ui w) ++ [asked])
                {| id := stamp_id (clock (S (stamps_used w))); role := assistant;
                   content := JStr [];
                   createdAt := stamp_time (clock (S (stamps_used w))) |} []
                eq_refl (str_eqb_refl _) Hfresh eq_refl)
      as (w' & -> & Hs & Hm)
  end.
  destruct Hs as (Hi & Hsend & He & _ & _ & Hst & _).
  cbn [Loop.with_content app id role createdAt] in Hm.
  destruct fin as [|e].
  - cbn. rewrite Hm, He, Hi, <- app_assoc.
    split; [reflexivity|]. split; [reflexivity|]. split; reflexivity.
  - unfold report, addMessage.
    cbn [setIsSending setError setMessages with_ui ui messages error isSending
         input snd stamps].
    change (stamps_used (setError (JStr (thrown_message e)) w'))
      with (stamps_used w').
    rewrite Hm, Hi, Hst, <- !app_assoc.
    split; [reflexivity|]. split; [reflexivity|]. split; reflexivity.
Qed.

Lemma X6_token_stream_end_to_end_witness :
  let env :=
    {| stamps := Sample.clock;
       outcome := Resolved (with_reader (Sample.event_stream [])
                    [Utf8.ascii_bytes Demo.TOKENS_BODY]
                    (ReadFails (ErrorObject (jslit "network error")))) |} in
  map content (messages (ui (AppStream.send (E := DecimalEngine.engine) env Sample.idle))) =
    [JStr (jslit "What is RAG?"); JStr (jslit "-augmented generation");
     JStr (failure_text (jslit "network error"))] /\
  error (ui (AppStream.send (E := DecimalEngine.engine) env Sample.idle)) =
    JStr (jslit "network error").
Proof.
  intros env.
  assert (Hts : Forall2 (Loop.token_frame (E := DecimalEngine.engine))
            (filter (startsWith DATA_PREFIX)
               (AppStream.frames Utf8.new_TextDecoder []
                  [Utf8.ascii_bytes Demo.TOKENS_BODY]))
            [jslit "-augmented"; jslit " generation"]).
  { replace (filter (startsWith DATA_PREFIX)
               (AppStream.frames Utf8.new_TextDecoder []
                  [Utf8.ascii_bytes Demo.TOKENS_BODY]))
      with [jslit "data: {'token':'-augmented'}";
            jslit "data: {'token':' generation','n':2}"]
      by (vm_compute; reflexivity).
    constructor; [|constructor; [|constructor]].
    - exists (jslit "{'token':'-augmented'}"),
             [(jslit "token", JStr (jslit "-augmented"))].
      repeat (split; [vm_compute; reflexivity|]); vm_compute; reflexivity.
    - exists (jslit "{'token':' generation','n':2}"),
             [(jslit "token", JStr (jslit " generation"));
              (jslit "n", JNum (num_of_literal (jslit "2")))].
      repeat (split; [vm_compute; reflexivity|]); vm_compute; reflexivity. }
  destruct (X6_token_stream_end_to_end (E := DecimalEngine.engine) Sample.clock
              (Sample.event_stream []) [Utf8.ascii_bytes Demo.TOKENS_BODY]
              (ReadFails (ErrorObject (jslit "network error"))) Sample.idle
              [jslit "-augmented"; jslit " generation"]
              eq_refl eq_refl eq_refl eq_refl Hts (Forall_nil _)
              ltac:(vm_compute; discriminate)) as (Hm & He & _).
  split; [|exact He]. fold env in Hm. rewrite Hm. vm_compute. reflexivity.
Defined.

(** X7.  Tokens followed by the sentinel: whatever comes after the
    sentinel and however the stream ends, [send] leaves the old
    transcript followed by the user message and the placeholder holding
    the tokens in order, with no error banner and the busy flag false.
    The placeholder's id is supposed unique. *)
Theorem X7_tokens_then_sentinel {E : Engine} (clock : nat -> Stamp)
    (res : Response) (cs : list (list byte)) (fin : ReadEnd) (w : World)
    (lines post : list jsstring) (payload : jsstring) (ts : list jsstring) :
  nonempty (trim (input (ui w))) = true ->
  isSending (ui w) = false ->
  ok res = true ->
  includes EVENT_STREAM (or_empty (content_type res)) = true ->
  AppStream.frames Utf8.new_TextDecoder [] cs =
    lines ++ (DATA_PREFIX ++ payload) :: post ->
  trim payload = DONE ->
  Forall2 Loop.token_frame (filter (startsWith DATA_PREFIX) lines) ts ->
  Forall (fun m => id m <> stamp_id (clock (S (stamps_used w)))) (messages (ui w)) ->
  stamp_id (clock (stamps_used w)) <> stamp_id (clock (S (stamps_used w))) ->
  let env := {| stamps := clock; outcome := Resolved (with_reader res cs fin) |} in
  let asked :=
    {| id := stamp_id (clock (stamps_used w)); role := user;
       content := JStr (trim (input (ui w)));
       createdAt := stamp_time (clock (stamps_used w)) |} in
  let answer :=
    {| id := stamp_id (clock (S (stamps_used w))); role := assistant;
       content := JStr (List.concat ts);
       createdAt := stamp_time (clock (S (stamps_used w))) |} in
  messages (ui (AppStream.send env w)) = messages (ui w) ++ [asked; answer] /\
  error (ui (AppStream.send env w)) = JNull /\
  isSending (ui (AppStream.send env w)) = false.
Proof.
  intros Hn Hb Hok Hc Hf Hd Hts Hold Hnew env asked answer.
  assert (Hfresh : Forall (fun x => str_eqb (id x) (stamp_id (clock (S (stamps_used w))))
                                    = false) (messages (ui w) ++ [asked])).
  { apply Forall_app. split.
    - eapply Forall_impl; [|exact Hold]. intros m Hm.
      destruct (str_eqb _ _) eqn:Eq; [|reflexivity].
      apply str_eqb_eq in Eq. destruct (Hm Eq).
    - constructor; [|constructor].
      destruct (str_eqb _ _) eqn:Eq; [|reflexivity].
      apply str_eqb_eq in Eq. destruct (Hnew Eq). }
  subst env. rewrite (send_stream_unfold clock res cs fin w Hn Hb Hok Hc).
  rewrite Hf, for_lines_app, for_lines_filter.
  match goal with |- context [AppStream.for_lines ?t (filter _ lines) ?x] =>
    destruct (for_lines_tokens t _ ts Hts x (messages (ui w) ++ [asked])
                {| id := stamp_id (clock (S (stamps_used w))); role := assistant;
                   content := JStr [];
                   createdAt := stamp_time (clock (S (stamps_used w))) |} []
                eq_refl (str_eqb_refl _) Hfresh eq_refl)
      as (w' & -> & Hs & Hm)
  end.
  destruct Hs as (_ & _ & He & _).
  cbn [AppStream.for_lines].
  rewrite (handle_line_sentinel _ payload w'
             (proj2 (str_eqb_eq (trim payload) DONE) Hd)).
  cbn. rewrite Hm, He, <- app_assoc.
  split; [reflexivity|]. split; reflexivity.
Qed.

Lemma X7_tokens_then_sentinel_witness :
  let env :=
    {| stamps := Sample.clock;
       outcome := Resolved (with_reader (Sample.event_stream [])
                    [Utf8.ascii_bytes Sample.HELLO_BODY;
                     Utf8.ascii_bytes (jslit "data: {'token':'!'}\n\n")]
                    (ReadFails (ErrorObject (jslit "reset")))) |} in
  map content (messages (ui (AppStream.send (E := DecimalEngine.engine) env Sample.idle))) =
    [JStr (jslit "What is RAG?"); JStr (jslit "Hello")] /\
  error (ui (AppStream.send (E := DecimalEngine.engine) env Sample.idle)) = JNull.
Proof.
  intros env.
  assert (Hts : Forall2 (Loop.token_frame (E := DecimalEngine.engine))
            (filter (startsWith DATA_PREFIX)
               [jslit "data: {'token':'Hel'}"; jslit "data: {'token':'lo'}"])
            [jslit "Hel"; jslit "lo"]).
  { replace (filter (startsWith DATA_PREFIX)
               [jslit "data: {'token':'Hel'}"; jslit "data: {'token':'lo'}"])
      with [jslit "data: {'token':'Hel'}"; jslit "data: {'token':'lo'}"]
      by (vm_compute; reflexivity).
    constructor; [|constructor; [|constructor]].
    - exists (jslit "{'token':'Hel'}"), [(jslit "token", JStr (jslit "Hel"))].
      repeat (split; [vm_compute; reflexivity|]); vm_compute; reflexivity.
    - exists (jslit "{'token':'lo'}"), [(jslit "token", JStr (jslit "lo"))].
      repeat (split; [vm_compute; reflexivity|]); vm_compute; reflexivity. }
  destruct (X7_tokens_then_sentinel (E := DecimalEngine.engine) Sample.clock
              (Sample.event_stream [])
              [Utf8.ascii_bytes Sample.HELLO_BODY;
               Utf8.ascii_bytes (jslit "data: {'token':'!'}\n\n")]
              (ReadFails (ErrorObject (jslit "reset"))) Sample.idle
              [jslit "data: {'token':'Hel'}"; jslit "data: {'token':'lo'}"]
              [jslit "data: {'token':'!'}"] (jslit "[DONE]")
              [jslit "Hel"; jslit "lo"]
              eq_refl eq_refl eq_refl eq_refl
              ltac:(vm_compute; reflexivity) ltac:(vm_compute; reflexivity)
              Hts (Forall_nil _) ltac:(vm_compute; discriminate)) as (Hm & He & _).
  split; [|exact He]. fold env in Hm. rewrite Hm. vm_compute. reflexivity.
Defined.

(* ================================================================== *)
(** * What the user sees when a request fails *)
(* ================================================================== *)

Section Failures.
Context {E : Engine}.

(** The effect of [send] when the [try] block throws before any reply
    was added. *)
Lemma failed_send (env : Env) (w : World) (msg : jsstring) :
  let asked :=
    {| id := stamp_id (stamps env (stamps_used w)); role := user;
       content := JStr (trim (input (ui w)));
       createdAt := stamp_time (stamps env (stamps_used w)) |} in
  let failure :=
    {| id := stamp_id (stamps env (S (stamps_used w))); role := assistant;
       content := JStr (failure_text msg);
       createdAt := stamp_time (stamps env (S (stamps_used w))) |} in
  forall (req : Request),
  let w' := setIsSending false
              (report env (ErrorObject msg)
                 (fetch req (begin_send env (trim (input (ui w))) w))) in
  messages (ui w') = messages (ui w) ++ [asked; failure] /\
  error (ui w') = JStr msg /\
  isSending (ui w') = false /\
  input (ui w') = [] /\
  requests w' = requests w ++ [req].
Proof.
  intros asked failure req w'. subst w'. cbn. rewrite <- app_assoc.
  split; [reflexivity|]. split; [reflexivity|]. split; [reflexivity|].
  split; reflexivity.
Qed.

Lemma trim_status_line (n : N) (c : char16) (rest : jsstring) :
  is_trim_space c = false ->
  trim ((c :: rest) ++ decimal n ++ jslit "). ") =
  (c :: rest) ++ decimal n ++ jslit ").".
Proof.
  intros Hc. unfold trim.
  assert (Hs : trimStart ((c :: rest) ++ decimal n ++ jslit "). ") =
               (c :: rest) ++ decimal n ++ jslit "). ").
  { cbn [app trimStart]. rewrite Hc. reflexivity. }
  rewrite Hs. unfold trimEnd.
  replace ((c :: rest) ++ decimal n ++ jslit "). ")
    with (((((c :: rest) ++ decimal n) ++ [41%N]) ++ [46%N]) ++ [32%N])
    by (rewrite <- !app_assoc; reflexivity).
  rewrite !rev_unit. cbn [trimStart].
  change (is_trim_space 32%N) with true. change (is_trim_space 46%N) with false.
  cbv iota. cbn [rev]. rewrite rev_involutive.
  rewrite <- !app_assoc. reflexivity.
Qed.

End Failures.

(** X8.  A response with a non-success status, in both versions:
    [send] appends the user message and one assistant message holding
    the failure report, whose message is ["Request failed (<status>). "]
    followed by the text of the body, trimmed; the error banner holds
    that message, the busy flag is false and the input is cleared.  The
    content type, the body stream and [json()] are not consulted.  When
    the body is empty or cannot be read the message is just
    ["Request failed (<status>)."]. *)
Theorem X8_non_success_status {E : Engine} (env : Env) (res : Response) (w : World) :
  nonempty (trim (input (ui w))) = true ->
  isSending (ui w) = false ->
  outcome env = Resolved res ->
  ok res = false ->
  let msg := request_failed res in
  let asked :=
    {| id := stamp_id (stamps env (stamps_used w)); role := user;
       content := JStr (trim (input (ui w)));
       createdAt := stamp_time (stamps env (stamps_used w)) |} in
  let failure :=
    {| id := stamp_id (stamps env (S (stamps_used w))); role := assistant;
       content := JStr (failure_text msg);
       createdAt := stamp_time (stamps env (S (stamps_used w))) |} in
  (messages (ui (AppStream.send env w)) = messages (ui w) ++ [asked; failure] /\
   error (ui (AppStream.send env w)) = JStr msg /\
   isSending (ui (AppStream.send env w)) = false /\
   input (ui (AppStream.send env w)) = [])
  /\
  (messages (ui (App.send env w)) = messages (ui w) ++ [asked; failure] /\
   error (ui (App.send env w)) = JStr msg /\
   isSending (ui (App.send env w)) = false /\
   input (ui (App.send env w)) = [])
  /\
  ((text res = inr [] \/ exists e, text res = inl e) ->
   msg = jslit "Request failed (" ++ decimal (status res) ++ jslit ").").
Proof.
  intros Hn Hb Ho Hok msg asked failure. split; [|split].
  - unfold AppStream.send, AppStream.try_block. rewrite Hn, Hb, Ho, Hok.
    cbn [negb orb].
    match goal with |- context [fetch ?r _] =>
      destruct (failed_send env w msg r) as (Hm & He & Hs & Hi & _) end.
    split; [exact Hm|]. split; [exact He|]. split; [exact Hs | exact Hi].
  - unfold App.send, App.try_block. rewrite Hn, Hb, Ho, Hok. cbn [negb orb].
    match goal with |- context [fetch ?r _] =>
      destruct (failed_send env w msg r) as (Hm & He & Hs & Hi & _) end.
    split; [exact Hm|]. split; [exact He|]. split; [reflexivity | exact Hi].
  - intros Ht. subst msg. unfold request_failed.
    assert (Hbody : match text res with inr t => t | inl _ => [] end = []).
    { destruct Ht as [-> | [e ->]]; reflexivity. }
    rewrite Hbody, app_nil_r.
    exact (trim_status_line (status res) 82%N (jslit "equest failed (") eq_refl).
Qed.

Lemma X8_non_success_status_witness :
  let env := {| stamps := Sample.clock; outcome := Resolved Demo.refused |} in
  map content (messages (ui (AppStream.send (E := DecimalEngine.engine) env Sample.idle))) =
    [JStr (jslit "What is RAG?");
     JStr (failure_text (jslit "Request failed (413). too large"))] /\
  error (ui (App.send (E := DecimalEngine.engine) env Sample.idle)) =
    JStr (jslit "Request failed (413). too large").
Proof.
  intros env.
  destruct (X8_non_success_status (E := DecimalEngine.engine) env Demo.refused
              Sample.idle eq_refl eq_refl eq_refl eq_refl)
    as ((Hm & _) & (_ & He & _) & _).
  split; [rewrite Hm | rewrite He]; vm_compute; reflexivity.
Defined.

(** X9.  A request that is rejected (no response at all), in both
    versions: [send] appends the user message and one assistant message
    holding the failure report with the message of the rejection; the
    error banner holds that message, the busy flag is false and the
    input is cleared.  The one request has been issued and is not
    repeated. *)
Theorem X9_rejected_request {E : Engine} (env : Env) (e : Thrown) (w : World) :
  nonempty (trim (input (ui w))) = true ->
  isSending (ui w) = false ->
  outcome env = Rejected e ->
  let msg := thrown_message e in
  let asked :=
    {| id := stamp_id (stamps env (stamps_used w)); role := user;
       content := JStr (trim (input (ui w)));
       createdAt := stamp_time (stamps env (stamps_used w)) |} in
  let failure :=
    {| id := stamp_id (stamps env (S (stamps_used w))); role := assistant;
       content := JStr (failure_text msg);
       createdAt := stamp_time (stamps env (S (stamps_used w))) |} in
  (messages (ui (AppStream.send env w)) = messages (ui w) ++ [asked; failure] /\
   error (ui (AppStream.send env w)) = JStr msg /\
   isSending (ui (AppStream.send env w)) = false /\
   input (ui (AppStream.send env w)) = [] /\
   List.length (requests (AppStream.send env w)) = S (List.length (requests w)))
  /\
  (messages (ui (App.send env w)) = messages (ui w) ++ [asked; failure] /\
   error (ui (App.send env w)) = JStr msg /\
   isSending (ui (App.send env w)) = false /\
   input (ui (App.send env w)) = [] /\
   List.length (requests (App.send env w)) = S (List.length (requests w))).
Proof.
  intros Hn Hb Ho msg asked failure. split.
  - unfold AppStream.send, AppStream.try_block. rewrite Hn, Hb, Ho. cbn [negb orb].
    unfold report. cbn. rewrite <- app_assoc, length_app, Nat.add_comm.
    split; [reflexivity|]. split; [reflexivity|]. split; [reflexivity|].
    split; reflexivity.
  - unfold App.send, App.try_block. rewrite Hn, Hb, Ho. cbn [negb orb].
    unfold report. cbn. rewrite <- app_assoc, length_app, Nat.add_comm.
    split; [reflexivity|]. split; [reflexivity|]. split; [reflexivity|].
    split; reflexivity.
Qed.

Lemma X9_rejected_request_witness :
  let env := {| stamps := Sample.clock;
                outcome := Rejected (OtherThrown (jslit "offline")) |} in
  map content (messages (ui (AppStream.send (E := DecimalEngine.engine) env Sample.idle))) =
    [JStr (jslit "What is RAG?"); JStr (failure_text (jslit "offline"))] /\
  error (ui (App.send (E := DecimalEngine.engine) env Sample.idle)) =
    JStr (jslit "offline").
Proof.
  intros env.
  destruct (X9_rejected_request (E := DecimalEngine.engine) env
              (OtherThrown (jslit "offline")) Sample.idle eq_refl eq_refl eq_refl)
    as ((Hm & _) & (_ & He & _)).
  split; [rewrite Hm | rewrite He]; vm_compute; reflexivity.
Defined.

(** X10.  A response that announces an event stream but has no body:
    the placeholder has already been added when the failure is
    detected, so the transcript ends with the user message, the
    placeholder still empty, and the failure report
    ["Response body is not readable"]; the error banner holds that
    message and the busy flag is false. *)
Theorem X10_stream_without_body {E : Engine} (env : Env) (res : Response) (w : World) :
  nonempty (trim (input (ui w))) = true ->
  isSending (ui w) = false ->
  outcome env = Resolved res ->
  ok res = true ->
  includes EVENT_STREAM (or_empty (content_type res)) = true ->
  body res = None ->
  let stamp k := stamps env (k + stamps_used w) in
  messages (ui (AppStream.send env w)) =
    messages (ui w) ++
    [{| id := stamp_id (stamp 0); role := user;
        content := JStr (trim (input (ui w))); createdAt := stamp_time (stamp 0) |};
     {| id := stamp_id (stamp 1); role := assistant;
        content := JStr []; createdAt := stamp_time (stamp 1) |};
     {| id := stamp_id (stamp 2); role := assistant;
        content := JStr (failure_text NOT_READABLE);
        createdAt := stamp_time (stamp 2) |}] /\
  error (ui (AppStream.send env w)) = JStr NOT_READABLE /\
  isSending (ui (AppStream.send env w)) = false.
Proof.
  intros Hn Hb Ho Hok Hc Hbody stamp.
  unfold AppStream.send, AppStream.try_block, AppStream.streaming.
  rewrite Hn, Hb, Ho, Hok, Hc. cbn [negb orb addMessage].
  rewrite Hbody. unfold report. cbn. rewrite <- !app_assoc.
  split; [reflexivity|]. split; reflexivity.
Qed.

Lemma X10_stream_without_body_witness :
  let res := {| ok := true; status := 200; text := inr [];
                content_type := Some (jslit "text/event-stream");
                body := None; json := inl (ErrorObject []) |} in
  let env := {| stamps := Sample.clock; outcome := Resolved res |} in
  map content (messages (ui (AppStream.send (E := DecimalEngine.engine) env Sample.idle))) =
    [JStr (jslit "What is RAG?"); JStr [];
     JStr (failure_text (jslit "Response body is not readable"))].
Proof.
  intros res env.
  destruct (X10_stream_without_body (E := DecimalEngine.engine) env res Sample.idle
              eq_refl eq_refl eq_refl eq_refl eq_refl eq_refl) as (Hm & _).
  rewrite Hm. vm_compute. reflexivity.
Defined.

(* ================================================================== *)
(** * What the handlers never do to the transcript *)
(* ================================================================== *)

Create HintDb layout.

Section Layout.
Context {E : Engine}.

Lemma map_content_absent (target : jsstring) (f : value -> option value)
    (msgs : list ChatMessage) :
  Forall (fun m => id m <> target) msgs ->
  map_content target f msgs = Some msgs.
Proof.
  induction 1 as [|m msgs Hm _ IH]; [reflexivity|].
  cbn [map_content]. rewrite IH.
  destruct (str_eqb (id m) target) eqn:Eq; [|reflexivity].
  apply str_eqb_eq in Eq. destruct (Hm Eq).
Qed.

Lemma map_content_shape (target : jsstring) (f : value -> option value) :
  forall msgs msgs',
    map_content target f msgs = Some msgs' -> Loop.shape msgs' = Loop.shape msgs.
Proof.
  unfold Loop.shape.
  induction msgs as [|m msgs IH]; intros msgs' H.
  - injection H as <-. reflexivity.
  - cbn [map_content] in H.
    destruct (map_content target f msgs) as [r|];
      [|destruct (if str_eqb (id m) target then _ else Some m); discriminate].
    destruct (str_eqb (id m) target).
    + destruct (f (content m)) as [c|]; [|discriminate].
      injection H as <-. cbn [map]. f_equal. apply IH. reflexivity.
    + injection H as <-. cbn [map]. f_equal. apply IH. reflexivity.
Qed.

Lemma same_layout_refl (w : World) : Loop.same_layout w w.
Proof. repeat split. Qed.

Lemma same_layout_trans (w1 w2 w3 : World) :
  Loop.same_layout w1 w2 -> Loop.same_layout w2 w3 -> Loop.same_layout w1 w3.
Proof.
  unfold Loop.same_layout. intros H1 H2.
  repeat split; etransitivity; try apply H2; apply H1.
Qed.

Lemma layout_updateMessage (target : jsstring) (f : value -> option value)
    (w w' : World) :
  Loop.same_layout w w' -> Loop.same_layout w (updateMessage target f w').
Proof.
  intros H. apply (same_layout_trans w w' _ H). unfold updateMessage.
  destruct (map_content target f (messages (ui w'))) as [msgs|] eqn:Em.
  - split; [|repeat split]. cbn. exact (map_content_shape target f _ _ Em).
  - repeat split.
Qed.

Lemma layout_setError (v : value) (w w' : World) :
  Loop.same_layout w w' -> Loop.same_layout w (setError v w').
Proof. intros H. exact H. Qed.

Lemma layout_setIsSending (b : bool) (w w' : World) :
  Loop.same_layout w w' -> Loop.same_layout w (setIsSending b w').
Proof. intros H. exact H. Qed.

#[local] Hint Resolve same_layout_refl layout_updateMessage layout_setError
  layout_setIsSending : layout.

Lemma layout_handle_line (target line : jsstring) (w : World) :
  Loop.same_layout w (snd (AppStream.handle_line target line w)).
Proof.
  unfold AppStream.handle_line. break_matches; cbn [snd]; auto with layout.
Qed.

Lemma layout_for_lines (target : jsstring) (lines : list jsstring) :
  forall w, Loop.same_layout w (snd (AppStream.for_lines target lines w)).
Proof.
  induction lines as [|l lines IH]; intros w; cbn [AppStream.for_lines].
  - apply same_layout_refl.
  - pose proof (layout_handle_line target l w) as H.
    destruct (AppStream.handle_line target l w) as [[|] w1]; cbn [snd] in *.
    + eapply same_layout_trans; [exact H | apply IH].
    + exact H.
Qed.

Lemma layout_read_loop (target : jsstring) (t : Utf8.TextDecoder) (b : jsstring)
    (cs : list (list byte)) (fin : ReadEnd) (w : World) :
  Loop.same_layout w (snd (AppStream.read_loop target t b cs fin w)).
Proof.
  rewrite read_loop_frames.
  pose proof (layout_for_lines target (AppStream.frames t b cs) w) as H.
  destruct (AppStream.for_lines target (AppStream.frames t b cs) w) as [[|] w1];
    exact H.
Qed.

End Layout.

(** X11.  [updateMessage] on an id that no message has changes nothing:
    the world is returned as it was and the updater is not run, so it
    cannot fail.  In particular no update of a content brings a message
    back into an empty transcript. *)
Theorem X11_updateMessage_absent_id {E : Engine} (target : jsstring)
    (f : value -> option value) (w : World) :
  Forall (fun m => id m <> target) (messages (ui w)) ->
  updateMessage target f w = w.
Proof.
  intros H. unfold updateMessage. rewrite (map_content_absent target f _ H).
  destruct w as [[i m s e d] r n fault]. reflexivity.
Qed.

Lemma X11_updateMessage_absent_id_witness :
  updateMessage (E := DecimalEngine.engine) (jslit "m9") (fun _ => None) Sample.busy =
  Sample.busy.
Proof.
  apply (X11_updateMessage_absent_id (E := DecimalEngine.engine)).
  constructor; [|constructor]. vm_compute. discriminate.
Defined.

(** X12.  The read loop only rewrites contents.  Whatever the chunks
    hold and however the loop is left, the transcript keeps the same
    messages in the same order with their ids, roles and times: none is
    added, removed or moved.  The input text, the document reference,
    the requests issued and the stamps drawn are untouched too. *)
Theorem X12_read_loop_keeps_the_layout {E : Engine} (target : jsstring)
    (t : Utf8.TextDecoder) (b : jsstring) (cs : list (list byte)) (fin : ReadEnd)
    (w : World) :
  let w' := snd (AppStream.read_loop target t b cs fin w) in
  Loop.shape (messages (ui w')) = Loop.shape (messages (ui w)) /\
  List.length (messages (ui w')) = List.length (messages (ui w)) /\
  input (ui w') = input (ui w) /\
  documentId (ui w') = documentId (ui w) /\
  requests w' = requests w /\
  stamps_used w' = stamps_used w.
Proof.
  intros w'. destruct (layout_read_loop target t b cs fin w) as (Hs & Hi & Hd & Hr & Hn).
  fold w' in Hs, Hi, Hd, Hr, Hn.
  split; [exact Hs|]. split.
  - unfold Loop.shape in Hs. apply (f_equal (@List.length _)) in Hs.
    rewrite !length_map in Hs. exact Hs.
  - repeat split; assumption.
Qed.

Section Appends.
Context {E : Engine}.

Lemma shape_addMessage (env : Env) (r : Role) (c : value) (w : World) :
  Loop.shape (messages (ui (snd (addMessage env r c w)))) =
    Loop.shape (messages (ui w)) ++
    [(stamp_id (stamps env (stamps_used w)), r, stamp_time (stamps env (stamps_used w)))]
  /\ stamps_used (snd (addMessage env r c w)) = S (stamps_used w).
Proof.
  split; [|reflexivity]. unfold Loop.shape. cbn. rewrite map_app. reflexivity.
Qed.

(** What the [try] block of the streaming version does to the layout of
    the transcript: it throws having added nothing, or it has added one
    assistant message (and may still throw). *)
Lemma try_block_layout (env : Env) (trimmed : jsstring) (doc : value) (w : World) :
  let r := fst (AppStream.try_block env trimmed doc w) in
  let w' := snd (AppStream.try_block env trimmed doc w) in
  (r <> None /\
   Loop.shape (messages (ui w')) = Loop.shape (messages (ui w)) /\
   stamps_used w' = stamps_used w)
  \/
  (Loop.shape (messages (ui w')) =
     Loop.shape (messages (ui w)) ++
     [(stamp_id (stamps env (stamps_used w)), assistant,
       stamp_time (stamps env (stamps_used w)))] /\
   stamps_used w' = S (stamps_used w)).
Proof.
  unfold AppStream.try_block.
  destruct (outcome env) as [e|res]; [left; repeat split; discriminate|].
  destruct (negb (ok res)); [left; repeat split; discriminate|].
  destruct (includes EVENT_STREAM (or_empty (content_type res))).
  - right. unfold AppStream.streaming.
    match goal with |- context [addMessage env assistant ?c ?x] =>
      destruct (shape_addMessage env assistant c x) as [Hs Hn];
      destruct (addMessage env assistant c x) as [pid w1]
    end.
    cbn [snd] in Hs, Hn. cbn [fetch ui stamps_used] in Hs, Hn.
    destruct (body res) as [reader|]; [|split; assumption].
    pose proof (layout_read_loop pid Utf8.new_TextDecoder [] (chunks reader)
                  (ending reader) w1) as (Hl & _ & _ & _ & Hk).
    destruct (AppStream.read_loop _ _ _ _ _ w1) as [[| |e] w2];
      cbn [fst snd setIsSending with_ui ui messages stamps_used fetch] in *;
      split; congruence.
  - unfold single_shot.
    destruct (json res) as [e|data]; [left; repeat split; discriminate|].
    destruct (get data (jslit "answer")) as [e|answer];
      [left; repeat split; discriminate|].
    right. cbn [fst snd].
    match goal with |- context [addMessage env assistant ?c ?x] =>
      destruct (shape_addMessage env assistant c x) as [Hs Hn] end.
    cbn [fetch ui stamps_used] in Hs, Hn. split; assumption.
Qed.

End Appends.

(** X13.  [send] never removes, moves or relabels a message.  A call
    that passes the guard appends the user message, then one assistant
    message, and in the streaming version possibly a second one (the
    failure report after a placeholder); the ids and times are the
    stamps drawn, in order.  Every earlier message whose id is not the
    placeholder's is still in its place, unchanged.  In the single-shot
    version the earlier transcript is a prefix of the new one. *)
Theorem X13_send_only_appends {E : Engine} (env : Env) (w : World) :
  nonempty (trim (input (ui w))) = true ->
  isSending (ui w) = false ->
  let frame k r :=
    (stamp_id (stamps env (k + stamps_used w)), r,
     stamp_time (stamps env (k + stamps_used w))) in
  (exists tail,
     Loop.shape (messages (ui (AppStream.send env w))) =
       Loop.shape (messages (ui w)) ++ frame 0 user :: frame 1 assistant :: tail /\
     (tail = [] \/ tail = [frame 2 assistant]))
  /\
  (forall k m,
     nth_error (messages (ui w)) k = Some m ->
     id m <> stamp_id (stamps env (1 + stamps_used w)) ->
     nth_error (messages (ui (AppStream.send env w))) k = Some m)
  /\
  (exists reply,
     messages (ui (App.send env w)) =
       messages (ui w) ++
       [{| id := stamp_id (stamps env (stamps_used w)); role := user;
           content := JStr (trim (input (ui w)));
           createdAt := stamp_time (stamps env (stamps_used w)) |}; reply] /\
     Loop.frame_of reply = frame 1 assistant).
Proof.
  intros Hn Hb frame. split; [|split].
  - unfold AppStream.send. rewrite Hn, Hb. cbn [negb orb].
    pose proof (try_block_layout env (trim (input (ui w))) (documentId (ui w))
                  (begin_send env (trim (input (ui w))) w)) as H.
    cbv zeta in H.
    destruct (AppStream.try_block env _ _ _) as [[e|] w5]; cbn [fst snd] in H.
    + destruct H as [(_ & Hs & Hk) | (Hs & Hk)].
      * exists []. split; [|left; reflexivity].
        unfold report.
        match goal with |- context [addMessage env assistant ?c ?x] =>
          destruct (shape_addMessage env assistant c x) as [Ha _] end.
        cbn [setIsSending with_ui ui messages]. rewrite Ha.
        cbn [setError with_ui ui messages stamps_used]. rewrite Hs, Hk.
        unfold Loop.shape. cbn. rewrite map_app, <- app_assoc. reflexivity.
      * exists [frame 2 assistant]. split; [|right; reflexivity].
        unfold report.
        match goal with |- context [addMessage env assistant ?c ?x] =>
          destruct (shape_addMessage env assistant c x) as [Ha _] end.
        cbn [setIsSending with_ui ui messages]. rewrite Ha.
        cbn [setError with_ui ui messages stamps_used]. rewrite Hs, Hk.
        unfold Loop.shape. cbn. rewrite map_app, <- !app_assoc. reflexivity.
    + destruct H as [(Hne & _) | (Hs & _)]; [congruence|].
      exists []. split; [|left; reflexivity]. rewrite Hs.
      unfold Loop.shape. cbn. rewrite map_app, <- app_assoc. reflexivity.
  - intros k m Hk Hm.
    destruct (AppStream_send_stable env w Hn Hb) as [_ Ks].
    apply Ks.
    + destruct (str_eqb (id m) _) eqn:Eq; [|reflexivity].
      apply str_eqb_eq in Eq. destruct (Hm Eq).
    + cbn. rewrite nth_error_app1; [exact Hk|].
      apply nth_error_Some. congruence.
  - unfold App.send, App.try_block. rewrite Hn, Hb. cbn [negb orb].
    destruct (outcome env) as [e|res].
    { eexists. cbn. rewrite <- app_assoc. split; reflexivity. }
    destruct (negb (ok res)).
    { eexists. cbn. rewrite <- app_assoc. split; reflexivity. }
    unfold single_shot.
    destruct (json res) as [e|data].
    { eexists. cbn. rewrite <- app_assoc. split; reflexivity. }
    destruct (get data (jslit "answer")) as [e|answer].
    { eexists. cbn. rewrite <- app_assoc. split; reflexivity. }
    eexists. cbn. rewrite <- app_assoc. split; reflexivity.
Qed.

Lemma X13_send_only_appends_witness :
  let env := {| stamps := Sample.clock;
                outcome := Resolved (with_reader (Sample.event_stream [])
                             [Utf8.ascii_bytes Sample.HELLO_BODY]
                             (ReadFails (ErrorObject (jslit "reset")))) |} in
  nth_error (messages (ui (AppStream.send (E := DecimalEngine.engine) env Demo.followup)))
            0 =
  Some {| id := jslit "m0"; role := user; content := JStr (jslit "What is RAG?");
          createdAt := 1700000000000 |}.
Proof.
  intros env.
  apply (proj1 (proj2 (X13_send_only_appends (E := DecimalEngine.engine) env
                         Demo.followup eq_refl eq_refl)) 0).
  - reflexivity.
  - vm_compute. discriminate.
Defined.

(* ================================================================== *)
(** * The Send button and the Enter key *)
(* ================================================================== *)

Section Buttons.
Context {E : Engine}.

Lemma send_disabled_guard (w : World) :
  Document.send_disabled w = negb (nonempty (trim (input (ui w)))) || isSending (ui w).
Proof.
  unfold Document.send_disabled. rewrite orb_comm. f_equal.
  destruct (trim (input (ui w))); reflexivity.
Qed.

Lemma send_changes_requests (env : Env) (w : World) :
  nonempty (trim (input (ui w))) = true ->
  isSending (ui w) = false ->
  List.length (requests (AppStream.send env w)) = S (List.length (requests w)) /\
  List.length (requests (App.send env w)) = S (List.length (requests w)).
Proof.
  intros Hn Hb.
  destruct (AppStream_send_stable env w Hn Hb) as [Rs _].
  destruct (App_send_stable [] env w Hn Hb) as [Ra _].
  rewrite Rs, Ra. cbn. rewrite !length_app. cbn. lia.
Qed.

End Buttons.

(** X14.  The Send button is disabled in exactly the states in which
    [send] does nothing: [send] returns the world unchanged if and only
    if the busy flag is set or the trimmed input is empty.  The Enter key
    calls [send] whether the button is disabled or not, and in a state
    where the button is disabled no key changes anything.  Both versions
    of the component agree. *)
Theorem X14_send_button_matches_guard {E : Engine} (env : Env) (w : World) :
  (Document.send_disabled w = true <-> AppStream.send env w = w) /\
  (Document.send_disabled w = true <-> App.send env w = w) /\
  (Document.send_disabled w = true ->
   forall key shiftKey,
     Document.onKeyDown (AppStream.send env) key shiftKey w = w /\
     Document.onKeyDown (App.send env) key shiftKey w = w).
Proof.
  rewrite send_disabled_guard.
  assert (Hstop : negb (nonempty (trim (input (ui w)))) || isSending (ui w) = true ->
                  AppStream.send env w = w /\ App.send env w = w).
  { intros H. unfold AppStream.send, App.send. rewrite H. split; reflexivity. }
  assert (Hgo : negb (nonempty (trim (input (ui w)))) || isSending (ui w) = false ->
                AppStream.send env w <> w /\ App.send env w <> w).
  { intros H. apply orb_false_iff in H. destruct H as [Hn Hb].
    apply negb_false_iff in Hn.
    destruct (send_changes_requests env w Hn Hb) as [Hs Ha].
    split; intros Heq; rewrite Heq in *; lia. }
  destruct (negb (nonempty (trim (input (ui w)))) || isSending (ui w)) eqn:Hg.
  - destruct (Hstop eq_refl) as [Hs Ha].
    split; [tauto|]. split; [tauto|]. intros _ key shiftKey.
    unfold Document.onKeyDown.
    destruct (str_eqb key (jslit "Enter") && negb shiftKey); split; auto.
  - destruct (Hgo eq_refl) as [Hs Ha].
    split; [split; [discriminate | intros H; destruct (Hs H)]|].
    split; [split; [discriminate | intros H; destruct (Ha H)]|]. discriminate.
Qed.

Lemma X14_send_button_matches_guard_witness :
  Document.onKeyDown
    (AppStream.send (E := DecimalEngine.engine)
       {| stamps := Sample.clock;
          outcome := Resolved (Sample.event_stream Sample.HELLO_BODY) |})
    (jslit "Enter") false Sample.busy = Sample.busy.
Proof.
  apply (proj2 (proj2 (X14_send_button_matches_guard (E := DecimalEngine.engine)
                         {| stamps := Sample.clock;
                            outcome := Resolved (Sample.event_stream Sample.HELLO_BODY) |}
                         Sample.busy)) eq_refl (jslit "Enter") false).
Defined.

(* ================================================================== *)
(** * Uploading and removing a document *)
(* ================================================================== *)

Section Upload.
Context {E : Engine} {C : ConversionError}.

(** Neither [try] block touches the record of posted files or the
    uploading flag. *)
Lemma try_upload_keeps (env : Env) (file : Document.File) (p : Document.Page) :
  Document.uploads (snd (Document.try_upload env file p)) = Document.uploads p /\
  Document.isUploading (snd (Document.try_upload env file p)) = Document.isUploading p.
Proof.
  unfold Document.try_upload. break_matches; split; reflexivity.
Qed.

Lemma try_upload_plain_keeps (env : Env) (file : Document.File) (p : Document.Page) :
  Document.uploads (snd (Document.try_upload_plain env file p)) = Document.uploads p /\
  Document.isUploading (snd (Document.try_upload_plain env file p)) =
    Document.isUploading p.
Proof.
  unfold Document.try_upload_plain. break_matches; split; reflexivity.
Qed.

Lemma upload_posts_once (env : Env) (file : Document.File) (p : Document.Page) :
  Document.selectedFile p = Some file ->
  Document.isUploading p = false ->
  (Document.uploads (Document.uploadPdf env p) = Document.uploads p ++ [file] /\
   Document.isUploading (Document.uploadPdf env p) = false) /\
  (Document.uploads (Document.uploadPdf_plain env p) = Document.uploads p ++ [file] /\
   Document.isUploading (Document.uploadPdf_plain env p) = false).
Proof.
  intros Hf Hu. unfold Document.uploadPdf, Document.uploadPdf_plain.
  rewrite Hf, Hu. split.
  - match goal with |- context [Document.try_upload env file ?x] =>
      destruct (try_upload_keeps env file x) as [Hp _];
      destruct (Document.try_upload env file x) as [[e|] p3] end;
      cbn [snd] in Hp; cbn; rewrite Hp; split; reflexivity.
  - match goal with |- context [Document.try_upload_plain env file ?x] =>
      destruct (try_upload_plain_keeps env file x) as [Hp _];
      destruct (Document.try_upload_plain env file x) as [[e|] p3] end;
      cbn [snd] in Hp; cbn; rewrite Hp; split; reflexivity.
Qed.

End Upload.

(** X15.  The Upload button is disabled in exactly the states in which
    [uploadPdf] does nothing: no file is selected, or an upload is under
    way.  Otherwise the selected file is posted exactly once, and
    whatever the server answers the uploading flag is false again when
    [uploadPdf] finishes.  Both versions of the component agree. *)
Theorem X15_upload_button_matches_guard {E : Engine} {C : ConversionError}
    (env : Env) (p : Document.Page) :
  (Document.upload_disabled p = true <-> Document.uploadPdf env p = p) /\
  (Document.upload_disabled p = true <-> Document.uploadPdf_plain env p = p) /\
  (forall file,
     Document.selectedFile p = Some file -> Document.isUploading p = false ->
     Document.uploads (Document.uploadPdf env p) = Document.uploads p ++ [file] /\
     Document.isUploading (Document.uploadPdf env p) = false /\
     Document.uploads (Document.uploadPdf_plain env p) = Document.uploads p ++ [file] /\
     Document.isUploading (Document.uploadPdf_plain env p) = false).
Proof.
  assert (Hpost : forall file,
     Document.selectedFile p = Some file -> Document.isUploading p = false ->
     Document.uploads (Document.uploadPdf env p) = Document.uploads p ++ [file] /\
     Document.isUploading (Document.uploadPdf env p) = false /\
     Document.uploads (Document.uploadPdf_plain env p) = Document.uploads p ++ [file] /\
     Document.isUploading (Document.uploadPdf_plain env p) = false).
  { intros file Hf Hu.
    destruct (upload_posts_once env file p Hf Hu) as [[H1 H2] [H3 H4]]. auto. }
  split; [|split; [|exact Hpost]].
  - unfold Document.upload_disabled.
    destruct (Document.selectedFile p) as [file|] eqn:Hf.
    + destruct (Document.isUploading p) eqn:Hu.
      * split; [intros _|reflexivity]. unfold Document.uploadPdf. rewrite Hf, Hu.
        reflexivity.
      * split; [discriminate|]. intros Heq.
        destruct (Hpost file eq_refl eq_refl) as (H1 & _).
        rewrite Heq in H1. apply (f_equal (@List.length _)) in H1.
        rewrite length_app in H1. cbn in H1. lia.
    + split; [intros _|reflexivity]. unfold Document.uploadPdf. rewrite Hf.
      reflexivity.
  - unfold Document.upload_disabled.
    destruct (Document.selectedFile p) as [file|] eqn:Hf.
    + destruct (Document.isUploading p) eqn:Hu.
      * split; [intros _|reflexivity]. unfold Document.uploadPdf_plain.
        rewrite Hf, Hu. reflexivity.
      * split; [discriminate|]. intros Heq.
        destruct (Hpost file eq_refl eq_refl) as (_ & _ & H1 & _).
        rewrite Heq in H1. apply (f_equal (@List.length _)) in H1.
        rewrite length_app in H1. cbn in H1. lia.
    + split; [intros _|reflexivity]. unfold Document.uploadPdf_plain. rewrite Hf.
      reflexivity.
Qed.

Lemma X15_upload_button_matches_guard_witness :
  let env := {| stamps := Sample.clock; outcome := Resolved Demo.refused |} in
  Document.uploads (Document.uploadPdf (E := DecimalEngine.engine) (C := Demo.conversion_error) env Demo.ready) =
    [] ++ [Demo.report_pdf] /\
  Document.isUploading (Document.uploadPdf (E := DecimalEngine.engine) (C := Demo.conversion_error) env Demo.ready) =
    false.
Proof.
  intros env.
  destruct (proj2 (proj2 (X15_upload_button_matches_guard
                            (E := DecimalEngine.engine)
                            (C := Demo.conversion_error) env Demo.ready))
              Demo.report_pdf eq_refl eq_refl) as (H1 & H2 & _).
  split; [exact H1 | exact H2].
Defined.

(** X16.  An upload the server accepts (success status, JSON body,
    truthy [documentId]) in the streaming version: the document
    reference becomes the returned id, the file information records the
    returned name and page count, falling back on the name of the
    selected file and on zero, the selection is dropped, the view turns
    to the chat and the chat is cleared (input, error banner), the busy
    flag of [send] being left as it was.  The transcript then holds the
    one message announcing the upload and there is no upload error; but
    if the name or the page count cannot be converted to a string, the
    document has been switched all the same, the transcript is empty and
    the conversion error is shown as the upload error. *)
Theorem X16_accepted_upload {E : Engine} {C : ConversionError}
    (env : Env) (res : Response) (data doc : value) (file : Document.File)
    (p : Document.Page) :
  Document.selectedFile p = Some file ->
  Document.isUploading p = false ->
  outcome env = Resolved res ->
  ok res = true ->
  json res = inr data ->
  get data (jslit "documentId") = inr (Some doc) ->
  truthy (Some doc) = true ->
  let file_name :=
    nullish (Document.field data (jslit "filename")) (JStr (Document.name file)) in
  let page_count :=
    nullish (Document.field data (jslit "pageCount")) Document.ZERO in
  let p' := Document.uploadPdf env p in
  documentId (ui (Document.world p')) = doc /\
  Document.uploadedFileInfo p' =
    Some {| Document.filename := file_name; Document.pageCount := page_count |} /\
  Document.selectedFile p' = None /\
  Document.view p' = Document.chat /\
  input (ui (Document.world p')) = [] /\
  error (ui (Document.world p')) = JNull /\
  isSending (ui (Document.world p')) = isSending (ui (Document.world p)) /\
  Document.isUploading p' = false /\
  match Document.uploaded_text file_name page_count with
  | Some s =>
      messages (ui (Document.world p')) =
        [{| id := stamp_id (stamps env (stamps_used (Document.world p)));
            role := assistant; content := JStr s;
            createdAt := stamp_time (stamps env (stamps_used (Document.world p))) |}] /\
      Document.uploadError p' = JNull
  | None =>
      messages (ui (Document.world p')) = [] /\
      Document.uploadError p' = JStr cannot_convert_message
  end.
Proof.
  intros Hf Hu Ho Hok Hj Hg Ht file_name page_count p'. subst p'.
  unfold Document.uploadPdf, Document.try_upload.
  rewrite Hf, Hu, Ho, Hok, Hj, Hg, Ht. cbn [negb].
  fold file_name page_count.
  destruct (Document.uploaded_text file_name page_count) as [s|]; cbn.
  - repeat (split; [reflexivity|]). split; reflexivity.
  - repeat (split; [reflexivity|]). split; reflexivity.
Qed.

Lemma X16_accepted_upload_witness :
  let env := {| stamps := Sample.clock; outcome := Resolved Demo.accepted |} in
  let p' := Document.uploadPdf (E := DecimalEngine.engine) (C := Demo.conversion_error) env Demo.ready in
  documentId (ui (Document.world p')) = JStr (jslit "doc-7") /\
  Document.view p' = Document.chat /\
  map content (messages (ui (Document.world p'))) =
    [JStr (jslit "Uploaded: r.pdf (3 pages)\n\nAsk me anything about this PDF.")] /\
  isSending (ui (Document.world p')) = true.
Proof.
  intros env p'.
  destruct (X16_accepted_upload (E := DecimalEngine.engine)
              (C := Demo.conversion_error) env Demo.accepted
              (JObj [(jslit "documentId", JStr (jslit "doc-7"));
                     (jslit "filename", JStr (jslit "r.pdf"));
                     (jslit "pageCount", JNum (num_of_literal (jslit "3")))])
              (JStr (jslit "doc-7")) Demo.report_pdf Demo.ready
              eq_refl eq_refl eq_refl eq_refl
              ltac:(vm_compute; reflexivity) eq_refl eq_refl)
    as (Hd & _ & _ & Hv & _ & _ & Hs & _).
  fold env p' in Hd, Hv, Hs.
  split; [exact Hd|]. split; [exact Hv|]. split; [|exact Hs].
  vm_compute. reflexivity.
Defined.

(** X17.  An upload the server does not accept (the request is
    rejected, the status is not a success, the body is not JSON or is
    [null], or there is no truthy [documentId]): the chat, the document
    reference, the view, the selection and the file information are
    exactly as before, so the user can try again; the upload error holds
    the message of the failure and the uploading flag is false.  Both
    versions of the component behave so. *)
Theorem X17_refused_upload_changes_nothing {E : Engine} {C : ConversionError}
    (env : Env) (file : Document.File) (p : Document.Page) :
  Document.selectedFile p = Some file ->
  Document.isUploading p = false ->
  Document.returned_document env = None ->
  forall p',
    p' = Document.uploadPdf env p \/ p' = Document.uploadPdf_plain env p ->
    Document.world p' = Document.world p /\
    Document.view p' = Document.view p /\
    Document.selectedFile p' = Document.selectedFile p /\
    Document.uploadedFileInfo p' = Document.uploadedFileInfo p /\
    Document.isUploading p' = false /\
    exists msg, Document.uploadError p' = JStr msg.
Proof.
  intros Hf Hu Hr p' Hp'. unfold Document.returned_document in Hr.
  assert (Hdone : forall (q : Document.Page) (e : Thrown),
            q = Document.post file
                  (Document.setIsUploading true (Document.setUploadError JNull p)) ->
            let p1 := Document.setIsUploading false
                        (Document.setUploadError (JStr (thrown_message e)) q) in
            Document.world p1 = Document.world p /\
            Document.view p1 = Document.view p /\
            Document.selectedFile p1 = Document.selectedFile p /\
            Document.uploadedFileInfo p1 = Document.uploadedFileInfo p /\
            Document.isUploading p1 = false /\
            exists msg, Document.uploadError p1 = JStr msg).
  { intros q e -> p1. subst p1. cbn.
    repeat (split; [reflexivity|]). eexists. reflexivity. }
  cbv zeta in Hdone. rewrite Hf in Hdone.
  destruct Hp' as [-> | ->].
  - unfold Document.uploadPdf, Document.try_upload. rewrite Hf, Hu.
    destruct (outcome env) as [e|res];
      [cbv beta iota zeta; exact (Hdone _ e eq_refl)|].
    destruct (ok res); cbn [negb];
      [|cbv beta iota zeta; exact (Hdone _ _ eq_refl)].
    destruct (json res) as [e|data];
      [cbv beta iota zeta; exact (Hdone _ e eq_refl)|].
    destruct (get data (jslit "documentId")) as [e|[doc|]];
      [cbv beta iota zeta; exact (Hdone _ e eq_refl) |
       | cbv beta iota zeta; exact (Hdone _ _ eq_refl)].
    destruct (truthy (Some doc)); [discriminate|].
    cbv beta iota zeta. exact (Hdone _ _ eq_refl).
  - unfold Document.uploadPdf_plain, Document.try_upload_plain. rewrite Hf, Hu.
    destruct (outcome env) as [e|res];
      [cbv beta iota zeta; exact (Hdone _ e eq_refl)|].
    destruct (ok res); cbn [negb];
      [|cbv beta iota zeta; exact (Hdone _ _ eq_refl)].
    destruct (json res) as [e|data];
      [cbv beta iota zeta; exact (Hdone _ e eq_refl)|].
    destruct (get data (jslit "documentId")) as [e|[doc|]];
      [cbv beta iota zeta; exact (Hdone _ e eq_refl) |
       | cbv beta iota zeta; exact (Hdone _ _ eq_refl)].
    destruct (truthy (Some doc)); [discriminate|].
    cbv beta iota zeta. exact (Hdone _ _ eq_refl).
Qed.

Lemma X17_refused_upload_changes_nothing_witness :
  let env := {| stamps := Sample.clock; outcome := Resolved Demo.refused |} in
  let p' := Document.uploadPdf (E := DecimalEngine.engine) (C := Demo.conversion_error) env Demo.ready in
  Document.world p' = Sample.busy /\
  Document.selectedFile p' = Some Demo.report_pdf /\
  Document.uploadError p' = JStr (jslit "Upload failed (413). too large").
Proof.
  intros env p'.
  destruct (X17_refused_upload_changes_nothing (E := DecimalEngine.engine)
              (C := Demo.conversion_error) env
              Demo.report_pdf Demo.ready eq_refl eq_refl eq_refl p'
              (or_introl eq_refl)) as (Hw & _ & Hs & _).
  split; [exact Hw|]. split; [exact Hs|]. vm_compute. reflexivity.
Defined.

(* ================================================================== *)
(** * Which document a question is asked about *)
(* ================================================================== *)

Section Asking.
Context {E : Engine}.

(** The request a question typed into the text area produces. *)
Lemma ask_posts (env : Env) (q : jsstring) (w : World) :
  nonempty (trim q) = true ->
  isSending (ui w) = false ->
  requests (AppStream.send env (setInput q w)) =
    requests w ++
    [{| request_body :=
          JObj [(jslit "message", JStr (trim q));
                (jslit "documentId", documentId (ui w));
                (jslit "stream", JBool false)] |}] /\
  requests (App.send env (setInput q w)) =
    requests w ++
    [{| request_body :=
          JObj [(jslit "message", JStr (trim q));
                (jslit "documentId", documentId (ui w))] |}].
Proof.
  intros Hn Hb.
  destruct (AppStream_send_stable env (setInput q w) Hn Hb) as [Rs _].
  destruct (App_send_stable [] env (setInput q w) Hn Hb) as [Ra _].
  split; [exact Rs | exact Ra].
Qed.

End Asking.

(** X18.  [removeDocument] brings the component back to its start: doing
    it twice is the same as doing it once, and right after it neither
    [send] nor [uploadPdf] does anything, since the input is empty and no
    file is selected.  The posted requests and files and the busy flags
    are not touched, and the next question typed and sent, if the chat
    is at rest, is asked about the default document. *)
Theorem X18_removeDocument_starts_over {E : Engine} {C : ConversionError}
    (env : Env) (p : Document.Page) :
  let p' := Document.removeDocument p in
  Document.removeDocument p' = p' /\
  AppStream.send env (Document.world p') = Document.world p' /\
  Document.uploadPdf env p' = p' /\
  requests (Document.world p') = requests (Document.world p) /\
  Document.uploads p' = Document.uploads p /\
  isSending (ui (Document.world p')) = isSending (ui (Document.world p)) /\
  Document.isUploading p' = Document.isUploading p /\
  (forall q,
     nonempty (trim q) = true ->
     isSending (ui (Document.world p)) = false ->
     requests (AppStream.send env (setInput q (Document.world p'))) =
       requests (Document.world p) ++
       [{| request_body :=
             JObj [(jslit "message", JStr (trim q));
                   (jslit "documentId", JStr Document.DEFAULT_DOCUMENT);
                   (jslit "stream", JBool false)] |}]).
Proof.
  intros p'. subst p'.
  split; [reflexivity|]. split; [reflexivity|]. split; [reflexivity|].
  split; [reflexivity|]. split; [reflexivity|]. split; [reflexivity|].
  split; [reflexivity|].
  intros q Hn Hb.
  exact (proj1 (ask_posts env q (Document.world (Document.removeDocument p)) Hn Hb)).
Qed.

Lemma X18_removeDocument_starts_over_witness :
  let env := {| stamps := Sample.clock;
                outcome := Resolved (Sample.event_stream Sample.HELLO_BODY) |} in
  requests (AppStream.send (E := DecimalEngine.engine) env
              (setInput (jslit " and then? ")
                 (Document.world (Document.removeDocument Demo.reading)))) =
    [] ++
    [{| request_body :=
          JObj [(jslit "message", JStr (trim (jslit " and then? ")));
                (jslit "documentId", JStr Document.DEFAULT_DOCUMENT);
                (jslit "stream", JBool false)] |}].
Proof.
  intros env.
  apply (proj2 (proj2 (proj2 (proj2 (proj2 (proj2 (proj2
           (X18_removeDocument_starts_over (E := DecimalEngine.engine)
              (C := Demo.conversion_error) env Demo.reading)))))))
           (jslit " and then? ") eq_refl eq_refl).
Defined.

(** X19.  When an upload hands over a document id, the component asks
    about that document from then on: the next question typed and sent,
    if the chat is at rest, carries the returned id, in both versions
    and whether or not the announcement of the upload could be written.
    The two versions differ in what they leave of the selection: the
    streaming one drops the file, so that its Upload button is disabled,
    the single-shot one keeps it, so that the same file can be uploaded
    again at once. *)
Theorem X19_upload_then_ask {E : Engine} {C : ConversionError}
    (env later : Env) (doc : value) (file : Document.File) (q : jsstring)
    (p : Document.Page) :
  Document.selectedFile p = Some file ->
  Document.isUploading p = false ->
  Document.returned_document env = Some doc ->
  isSending (ui (Document.world p)) = false ->
  nonempty (trim q) = true ->
  requests (AppStream.send later
              (setInput q (Document.world (Document.uploadPdf env p)))) =
    requests (Document.world p) ++
    [{| request_body :=
          JObj [(jslit "message", JStr (trim q));
                (jslit "documentId", doc);
                (jslit "stream", JBool false)] |}] /\
  requests (App.send later
              (setInput q (Document.world (Document.uploadPdf_plain env p)))) =
    requests (Document.world p) ++
    [{| request_body :=
          JObj [(jslit "message", JStr (trim q));
                (jslit "documentId", doc)] |}] /\
  Document.upload_disabled (Document.uploadPdf env p) = true /\
  Document.upload_disabled (Document.uploadPdf_plain env p) = false /\
  Document.selectedFile (Document.uploadPdf_plain env p) = Some file.
Proof.
  intros Hf Hu Hr Hb Hn. unfold Document.returned_document in Hr.
  destruct (outcome env) as [e|res] eqn:Ho; [discriminate|].
  destruct (ok res) eqn:Hok; [|discriminate].
  destruct (json res) as [e|data] eqn:Hj; [discriminate|].
  destruct (get data (jslit "documentId")) as [e|[d|]] eqn:Hg; try discriminate.
  destruct (truthy (Some d)) eqn:Ht; [|discriminate].
  injection Hr as ->.
  assert (Hs : requests (Document.world (Document.uploadPdf env p)) =
                 requests (Document.world p) /\
               documentId (ui (Document.world (Document.uploadPdf env p))) = doc /\
               isSending (ui (Document.world (Document.uploadPdf env p))) = false /\
               Document.selectedFile (Document.uploadPdf env p) = None /\
               Document.isUploading (Document.uploadPdf env p) = false).
  { unfold Document.uploadPdf, Document.try_upload.
    rewrite Hf, Hu, Ho, Hok, Hj, Hg, Ht. cbn [negb]. cbv zeta.
    destruct (Document.uploaded_text _ _); cbn;
      (split; [reflexivity|]); (split; [reflexivity|]); (split; [exact Hb|]);
      split; reflexivity. }
  assert (Ha : requests (Document.world (Document.uploadPdf_plain env p)) =
                 requests (Document.world p) /\
               documentId (ui (Document.world (Document.uploadPdf_plain env p))) = doc /\
               isSending (ui (Document.world (Document.uploadPdf_plain env p))) = false /\
               Document.selectedFile (Document.uploadPdf_plain env p) = Some file /\
               Document.isUploading (Document.uploadPdf_plain env p) = false).
  { unfold Document.uploadPdf_plain, Document.try_upload_plain.
    rewrite Hf, Hu, Ho, Hok, Hj, Hg, Ht. cbn [negb]. cbv zeta.
    destruct (Document.uploaded_text_plain _); cbn;
      (split; [reflexivity|]); (split; [reflexivity|]); (split; [exact Hb|]);
      (split; [exact Hf|]); reflexivity. }
  destruct Hs as (Rs & Ds & Bs & Fs & Us). destruct Ha as (Ra & Da & Ba & Fa & Ua).
  split.
  { rewrite (proj1 (ask_posts later q _ Hn Bs)), Rs, Ds. reflexivity. }
  split.
  { rewrite (proj2 (ask_posts later q _ Hn Ba)), Ra, Da. reflexivity. }
  unfold Document.upload_disabled. rewrite Fs, Fa, Ua.
  split; [reflexivity|]. split; [reflexivity|]. reflexivity.
Qed.

Lemma X19_upload_then_ask_witness :
  let env := {| stamps := Sample.clock; outcome := Resolved Demo.accepted |} in
  let later := {| stamps := Sample.clock;
                  outcome := Resolved (Sample.event_stream Sample.HELLO_BODY) |} in
  requests (AppStream.send (E := DecimalEngine.engine) later
              (setInput (jslit "Who wrote it?")
                 (Document.world
                    (Document.uploadPdf (E := DecimalEngine.engine)
                       (C := Demo.conversion_error) env Demo.chosen)))) =
    [] ++
    [{| request_body :=
          JObj [(jslit "message", JStr (trim (jslit "Who wrote it?")));
                (jslit "documentId", JStr (jslit "doc-7"));
                (jslit "stream", JBool false)] |}].
Proof.
  intros env later.
  apply (proj1 (X19_upload_then_ask (E := DecimalEngine.engine)
                  (C := Demo.conversion_error) env later (JStr (jslit "doc-7"))
                  Demo.report_pdf (jslit "Who wrote it?") Demo.chosen
                  eq_refl eq_refl ltac:(vm_compute; reflexivity) eq_refl eq_refl)).
Defined.
